(** * Ledger, reward settlement and payment processing of the piano-game backend

    A shallow embedding of
      - models/Transaction.js  (ledger documents, fees, status methods, balance),
      - models/User.js         (wallet fields and their methods),
      - models/Game.js         (reward computation and claiming),
      - services/gameService.js    (claimRewards),
      - services/paymentService.js (withdrawal, deposit, webhook, risk scoring),
      - routes/payment.js      (the risk gate of POST /withdraw).

    Conventions of the embedding.
      - A JavaScript Number that carries money, a score or a rate is an exact
        rational (Q); counters and millisecond clocks are integers (Z).
      - A Mongoose document is a record; the change tracking its hooks read
        (isNew, isModified('status'), isModified('statistics.experience')) is
        kept as explicit fields of the record.
      - A collection is a list in insertion order (findOne returns the first
        match together with its position, save writes back to that position);
        users are looked up by _id in a finite map.
      - Date.now(), process.env and the answers of the payment rails are
        inputs of the functions that read them.
      - Schema enums are inductive types; thrown errors are returned as their
        message.
      - [doc.save()] validates before it runs the pre('save') hook. [validate]
        is the validators of the schema, [save] the hook and the write of a
        save that passed them, [save_checked] the call as a whole, which
        rejects a document that fails validation. *)

From Stdlib Require Import QArith Qround Qminmax ZArith List String Bool Lia Lqa.
From stdpp Require Import gmap list strings.

Import ListNotations.
Local Open Scope string_scope.
Local Open Scope list_scope.
Local Open Scope Z_scope.

(** ** Ambient inputs *)

Definition UserId := nat.
Definition Time := Z.

(** process.env, already parsed: [None] is an unset or non-numeric variable. *)
Record Config := mkConfig {
  WITHDRAWAL_FEE : option Q;
  COIN_PER_POINT : option Q;
  MIN_WITHDRAWAL : option Q
}.

(** [parseFloat(v) || d]: NaN and 0 are both falsy. *)
Definition parseFloat_or (v : option Q) (d : Q) : Q :=
  match v with
  | Some q => if Qeq_bool q 0 then d else q
  | None => d
  end.

(** What one call reads from its surroundings: the environment variables,
    the clock, and the time-and-entropy suffix of a freshly generated
    transaction id. *)
Record Env := mkEnv {
  env : Config;
  Date_now : Time;
  idSuffix : string
}.

Definition defaultConfig : Config := mkConfig None None None.

Definition Qltb (a b : Q) : bool := negb (Qle_bool b a).

Definition minutes (n : Z) : Z := n * 60 * 1000.
Definition hours (n : Z) : Z := n * 60 * 60 * 1000.

(** ** Mongoose's validation errors *)

Module Mongoose.

(** One failed validator: the path and the message of the validator. *)
Record Violation := mkViolation {
  v_path : string;
  v_message : string
}.

(** The default messages. Mongoose also prints the offending value in the
    messages of min, max and maxlength; the rendering of numbers is not
    modelled and no statement reads that part of the text. *)
Definition required (path : string) : Violation :=
  mkViolation path
    (String.append "Path `" (String.append path "` is required.")).

Definition below_min (path bound : string) : Violation :=
  mkViolation path
    (String.append "Path `"
       (String.append path
          (String.append "` is less than minimum allowed value ("
             (String.append bound ").")))).

Definition above_max (path bound : string) : Violation :=
  mkViolation path
    (String.append "Path `"
       (String.append path
          (String.append "` is more than maximum allowed value ("
             (String.append bound ").")))).

Definition too_long (path bound : string) : Violation :=
  mkViolation path
    (String.append "Path `"
       (String.append path
          (String.append "` is longer than the maximum allowed length ("
             (String.append bound ").")))).

(** A validator that passes adds nothing. *)
Definition check (ok : bool) (v : Violation) : list Violation :=
  if ok then [] else [v].

(** The message of the ValidationError a rejected save throws:
    "<Model> validation failed: <path>: <message>, ...". *)
Definition ValidationError (model : string) (vs : list Violation) : string :=
  String.append model
    (String.append " validation failed: "
       (String.concat ", "
          (map (fun v => String.append (v_path v)
                           (String.append ": " (v_message v))) vs))).

End Mongoose.

(** ** models/Transaction.js *)

Module Transaction.

Inductive TxType :=
  | game_reward | withdrawal | deposit | bonus | referral
  | penalty | refund | fee | purchase.

Inductive Status :=
  | pending | processing | completed | failed | cancelled | expired.

Inductive Currency := BIGCOIN | USD | VND | SGD.

Inductive Gateway := stripe | epcm | manual.

(** metadata.paymentMethod *)
Inductive Method := m_stripe | m_epcm | bank_transfer | crypto | paypal.

Inductive KycLevel := basic | enhanced | full.

Inductive Creator := by_system | by_user | by_admin | by_api.

Definition TxType_eqb (a b : TxType) : bool :=
  match a, b with
  | game_reward, game_reward | withdrawal, withdrawal | deposit, deposit
  | bonus, bonus | referral, referral | penalty, penalty
  | refund, refund | fee, fee | purchase, purchase => true
  | _, _ => false
  end.

Definition Status_eqb (a b : Status) : bool :=
  match a, b with
  | pending, pending | processing, processing | completed, completed
  | failed, failed | cancelled, cancelled | expired, expired => true
  | _, _ => false
  end.

Definition status_name (s : Status) : string :=
  match s with
  | pending => "pending" | processing => "processing"
  | completed => "completed" | failed => "failed"
  | cancelled => "cancelled" | expired => "expired"
  end.

Definition method_name (m : Method) : string :=
  match m with
  | m_stripe => "stripe" | m_epcm => "epcm" | bank_transfer => "bank_transfer"
  | crypto => "crypto" | paypal => "paypal"
  end.

(** [list.includes(x)] *)
Definition includes {A} (eqb : A -> A -> bool) (l : list A) (x : A) : bool :=
  existsb (eqb x) l.

Record AccountInfo := mkAccountInfo {
  bankName : string;
  accountNumber : string;
  accountHolder : string;
  swiftCode : string;
  address : option string
}.

Record Fees := mkFees {
  fees_platform : Q;
  fees_payment : Q;
  fees_withdrawal : Q;
  fees_total : Q
}.

Record Metadata := mkMetadata {
  gameId : option nat;
  score : option Q;
  accuracy : option Q;
  playTime : option Q;
  bankAccount : option AccountInfo;
  walletAddress : option string;
  paymentMethod : option Method;
  paymentId : option string;
  fees : Fees
}.

Record Payment := mkPayment {
  gateway : option Gateway;
  gatewayTransactionId : option string;
  gatewayResponse : option string;
  retryCount : Z;
  maxRetries : Z;
  nextRetry : option Time
}.

Record Verification := mkVerification {
  required : bool;
  kycLevel : KycLevel;
  verified : bool;
  riskScore : Q;
  flagged : bool;
  flagReason : option string
}.

Record LogEntry := mkLog {
  log_timestamp : Time;
  log_action : string;
  log_status : string;
  log_message : string;
  log_data : option string
}.

Record HistoryEntry := mkHistory {
  h_from : string;
  h_to : string;
  h_timestamp : Time;
  h_reason : string;
  h_changedBy : option UserId
}.

Record Audit := mkAudit {
  createdBy : Creator;
  logs : list LogEntry;
  statusHistory : list HistoryEntry
}.

(** A Transaction document. [isNew] and [statusModified] are Mongoose's
    document state: the document was never saved, and [status] was assigned a
    different value since the last save. *)
Record t := mkTransaction {
  userId : UserId;
  transactionId : string;
  type : TxType;
  amount : Q;
  currency : Currency;
  status : Status;
  description : string;
  metadata : Metadata;
  payment : Payment;
  verification : Verification;
  audit : Audit;
  createdAt : Time;
  isNew : bool;
  statusModified : bool
}.

(** Schema defaults. *)
Definition defaultFees : Fees := mkFees 0 0 0 0.
Definition defaultMetadata : Metadata :=
  mkMetadata None None None None None None None None defaultFees.
Definition defaultPayment : Payment := mkPayment None None None 0 3 None.
Definition defaultVerification : Verification :=
  mkVerification false basic false 0 false None.
Definition defaultAudit : Audit := mkAudit by_system [] [].

(** Field assignments. *)
Definition set_transactionId (v : string) (d : t) : t :=
  mkTransaction (userId d) v (type d) (amount d) (currency d) (status d)
    (description d) (metadata d) (payment d) (verification d) (audit d)
    (createdAt d) (isNew d) (statusModified d).

(** [this.status = v]: assigning the value the field already has does not
    mark the path modified. *)
Definition set_status (v : Status) (d : t) : t :=
  if Status_eqb (status d) v then d
  else mkTransaction (userId d) (transactionId d) (type d) (amount d)
         (currency d) v (description d) (metadata d) (payment d)
         (verification d) (audit d) (createdAt d) (isNew d) true.

Definition set_metadata (v : Metadata) (d : t) : t :=
  mkTransaction (userId d) (transactionId d) (type d) (amount d) (currency d)
    (status d) (description d) v (payment d) (verification d) (audit d)
    (createdAt d) (isNew d) (statusModified d).

Definition set_payment (v : Payment) (d : t) : t :=
  mkTransaction (userId d) (transactionId d) (type d) (amount d) (currency d)
    (status d) (description d) (metadata d) v (verification d) (audit d)
    (createdAt d) (isNew d) (statusModified d).

Definition set_verification (v : Verification) (d : t) : t :=
  mkTransaction (userId d) (transactionId d) (type d) (amount d) (currency d)
    (status d) (description d) (metadata d) (payment d) v (audit d)
    (createdAt d) (isNew d) (statusModified d).

Definition set_audit (v : Audit) (d : t) : t :=
  mkTransaction (userId d) (transactionId d) (type d) (amount d) (currency d)
    (status d) (description d) (metadata d) (payment d) (verification d) v
    (createdAt d) (isNew d) (statusModified d).

(** The document state after a successful save. *)
Definition persisted (d : t) : t :=
  mkTransaction (userId d) (transactionId d) (type d) (amount d) (currency d)
    (status d) (description d) (metadata d) (payment d) (verification d)
    (audit d) (createdAt d) false false.

Definition set_fees (f : Fees) (d : t) : t :=
  let m := metadata d in
  set_metadata
    (mkMetadata (gameId m) (score m) (accuracy m) (playTime m) (bankAccount m)
       (walletAddress m) (paymentMethod m) (paymentId m) f) d.

Definition push_log (l : LogEntry) (d : t) : t :=
  let a := audit d in
  set_audit (mkAudit (createdBy a) (logs a ++ [l]) (statusHistory a)) d.

Definition push_history (h : HistoryEntry) (d : t) : t :=
  let a := audit d in
  set_audit (mkAudit (createdBy a) (logs a) (statusHistory a ++ [h])) d.

(** *** Virtuals *)


Definition isCompleted (d : t) : bool := Status_eqb (status d) completed.

Definition isPending (d : t) : bool :=
  includes Status_eqb [pending; processing] (status d).

Definition isFailed (d : t) : bool :=
  includes Status_eqb [failed; cancelled; expired] (status d).

Definition canRetry (d : t) : bool :=
  isFailed d && (retryCount (payment d) <? maxRetries (payment d)).

(** *** generateTransactionId *)

Definition typePrefix (ty : TxType) : string :=
  match ty with
  | game_reward => "GR" | withdrawal => "WD" | deposit => "DP"
  | bonus => "BN" | referral => "RF" | penalty => "PN"
  | refund => "RD" | fee => "FE" | purchase => "PU"
  end.

Definition generateTransactionId (e : Env) (d : t) : string :=
  String.append (typePrefix (type d)) (idSuffix e).

(** *** The pre-save hook *)

Definition isEmpty (s : string) : bool :=
  match s with EmptyString => true | _ => false end.

Definition hook_id (e : Env) (d : t) : t :=
  if isNew d && isEmpty (transactionId d)
  then set_transactionId (generateTransactionId e d) d
  else d.

Definition hook_fees (d : t) : t :=
  let f := fees (metadata d) in
  set_fees (mkFees (fees_platform f) (fees_payment f) (fees_withdrawal f)
              (fees_platform f + fees_payment f + fees_withdrawal f)%Q) d.

(** The lookup of the previous status is a query that is never awaited, so
    its [status] is undefined and the recorded origin is always 'unknown'. *)
Definition hook_history (e : Env) (d : t) : t :=
  if statusModified d && negb (isNew d)
  then push_history
         (mkHistory "unknown" (status_name (status d)) (Date_now e)
            "Status updated" None) d
  else d.

Definition hook_risk (d : t) : t :=
  if TxType_eqb (type d) withdrawal && Qltb 1000 (amount d)
  then let v := verification d in
       set_verification
         (mkVerification true (kycLevel v) (verified v)
            (Qmin 100 (riskScore v + 30)) (flagged v) (flagReason v)) d
  else d.

Definition hook_flag (d : t) : t :=
  let v := verification d in
  if Qltb 70 (riskScore v)
  then set_verification
         (mkVerification (required v) (kycLevel v) (verified v) (riskScore v)
            true (Some "High risk score detected")) d
  else d.

Definition preSave (e : Env) (d : t) : t :=
  hook_flag (hook_risk (hook_history e (hook_fees (hook_id e d)))).

(** [this.save()] seen from a document that passes validation: the hook
    runs, then the document is no longer new and no path is modified. *)
Definition save (e : Env) (d : t) : t := persisted (preSave e d).

(** *** Validation

    The validators of the schema on the paths the record carries:
    transactionId (required), amount (min 0), description (required,
    maxlength 500) and verification.riskScore (min 0, max 100). userId, type
    and amount are always present, and the enums are types. A required
    String rejects the empty string as it rejects undefined. *)
Definition validate (d : t) : list Mongoose.Violation :=
  Mongoose.check (negb (isEmpty (transactionId d)))
    (Mongoose.required "transactionId")
  ++ Mongoose.check (Qle_bool 0 (amount d)) (Mongoose.below_min "amount" "0")
  ++ (if isEmpty (description d) then [Mongoose.required "description"]
      else Mongoose.check (String.length (description d) <=? 500)%nat
             (Mongoose.too_long "description" "500"))
  ++ (if Qle_bool 0 (riskScore (verification d))
      then Mongoose.check (Qle_bool (riskScore (verification d)) 100)
             (Mongoose.above_max "verification.riskScore" "100")
      else [Mongoose.below_min "verification.riskScore" "0"]).

(** [await doc.save()]: validation comes first, so the hook (and with it
    generateTransactionId) runs only on a document that already passed; a
    document that fails is rejected and nothing is written. *)
Definition save_checked (e : Env) (d : t) : string + t :=
  match validate d with
  | [] => inr (save e d)
  | vs => inl (Mongoose.ValidationError "Transaction" vs)
  end.

(** *** Instance methods *)

Definition addLog (e : Env) (action st message : string) (data : option string)
    (d : t) : t :=
  save e (push_log (mkLog (Date_now e) action st message data) d).

Definition updateStatus (e : Env) (newStatus : Status) (reason : string)
    (changedBy : option UserId) (d : t) : t :=
  let oldStatus := status d in
  let d1 := set_status newStatus d in
  let d2 := push_history
              (mkHistory (status_name oldStatus) (status_name newStatus)
                 (Date_now e) reason changedBy) d1 in
  addLog e "status_change" (status_name newStatus)
    (String.append "Status changed from "
       (String.append (status_name oldStatus)
          (String.append " to "
             (String.append (status_name newStatus)
                (String.append ": " reason))))) None d2.

Definition set_gatewayResponse (r : option string) (d : t) : t :=
  let p := payment d in
  set_payment (mkPayment (gateway p) (gatewayTransactionId p) r (retryCount p)
                 (maxRetries p) (nextRetry p)) d.

Definition markCompleted (e : Env) (gatewayResponse : option string) (d : t) : t :=
  let d1 := set_status completed d in
  let d2 := match gatewayResponse with
            | Some r => set_gatewayResponse (Some r) d1
            | None => d1
            end in
  addLog e "completed" "success" "Transaction completed successfully" None d2.

Definition schedule_retry (e : Env) (d : t) : t :=
  let p := payment d in
  let n := retryCount p + 1 in
  set_payment (mkPayment (gateway p) (gatewayTransactionId p)
                 (gatewayResponse p) n (maxRetries p)
                 (Some (Date_now e + n * 30 * 60 * 1000))) d.

Definition markFailed (e : Env) (reason : string) (errorData : option string)
    (d : t) : t :=
  let d1 := set_status failed d in
  let d2 := if canRetry d1 then schedule_retry e d1 else d1 in
  addLog e "failed" "error" reason errorData d2.

(** The fee table of the model. *)
Definition calculateFees (e : Env) (d : t) : Fees * t :=
  let withdrawalFee :=
    if TxType_eqb (type d) withdrawal
    then (amount d * parseFloat_or (WITHDRAWAL_FEE (env e)) (5 # 100))%Q
    else 0%Q in
  let paymentFee :=
    match type d, gateway (payment d) with
    | withdrawal, Some stripe => Qmax (30 # 100) (amount d * (29 # 1000))
    | withdrawal, Some epcm => (amount d * (25 # 1000))%Q
    | deposit, Some stripe => Qmax (30 # 100) (amount d * (29 # 1000))
    | _, _ => 0%Q
    end in
  let f := mkFees 0 paymentFee withdrawalFee (0 + paymentFee + withdrawalFee)%Q in
  (f, set_fees f d).

Definition canBeProcessed (d : t) : bool :=
  Status_eqb (status d) pending
  && negb (flagged (verification d))
  && (negb (required (verification d)) || verified (verification d)).

(** *** Static constructors *)

(** The document createGameReward builds, with the status it assigns before
    saving. The description also renders the score
    ("Game reward for score <score>"); the rendering of numbers is not
    modelled and no statement reads the text. *)
Definition gameRewardDoc (e : Env) (uid : UserId) (game : nat) (amt : Q)
    (sc acc pt : Q) : t :=
  let d := mkTransaction uid "" game_reward amt BIGCOIN pending
             "Game reward"
             (mkMetadata (Some game) (Some sc) (Some acc) (Some pt) None None
                None None defaultFees)
             defaultPayment defaultVerification
             (mkAudit by_system [] []) (Date_now e) true false in
  set_status completed d.

(** createGameReward passes no transactionId to the constructor, so the
    save is the save of a document without one. *)
Definition createGameReward (e : Env) (uid : UserId) (game : nat) (amt : Q)
    (sc acc pt : Q) : string + t :=
  save_checked e (gameRewardDoc e uid game amt sc acc pt).

(** The document createWithdrawal builds. *)
Definition withdrawalDoc (e : Env) (uid : UserId) (amt : Q) (method : Method)
    (accountInfo : AccountInfo) : t :=
  let withdrawalFee := (amt * parseFloat_or (WITHDRAWAL_FEE (env e)) (5 # 100))%Q in
  let feesTotal := withdrawalFee in
  mkTransaction uid "" withdrawal (amt - feesTotal)%Q BIGCOIN pending
    (String.append "Withdrawal to " (method_name method))
    (mkMetadata None None None None
       (match method with bank_transfer => Some accountInfo | _ => None end)
       (match method with crypto => address accountInfo | _ => None end)
       (Some method) None
       (mkFees 0 0 withdrawalFee feesTotal))
    (mkPayment
       (Some (match method with bank_transfer => epcm | _ => stripe end))
       None None 0 3 None)
    (mkVerification (Qltb 100 amt)
       (if Qltb 1000 amt then enhanced else basic) false 0 false None)
    (mkAudit by_user [] []) (Date_now e) true false.

Definition createWithdrawal (e : Env) (uid : UserId) (amt : Q) (method : Method)
    (accountInfo : AccountInfo) : string + t :=
  save_checked e (withdrawalDoc e uid amt method accountInfo).

(** *** getUserBalance *)

(** The [$group] stage: one entry per type, holding the sum of the amounts. *)
Fixpoint add_group (ty : TxType) (a : Q) (gs : list (TxType * Q))
    : list (TxType * Q) :=
  match gs with
  | [] => [(ty, (0 + a)%Q)]
  | (ty', s) :: rest =>
      if TxType_eqb ty' ty then (ty', (s + a)%Q) :: rest
      else (ty', s) :: add_group ty a rest
  end.

Definition aggregate_by_type (docs : list t) : list (TxType * Q) :=
  fold_left (fun gs d => add_group (type d) (amount d) gs) docs [].

Definition match_completed (uid : UserId) (d : t) : bool :=
  Nat.eqb (userId d) uid && Status_eqb (status d) completed.

Definition creditTypes : list TxType :=
  [game_reward; deposit; bonus; referral; refund].
Definition debitTypes : list TxType :=
  [withdrawal; penalty; fee; purchase].

Definition balance_step (balance : Q) (item : TxType * Q) : Q :=
  if includes TxType_eqb creditTypes (fst item) then (balance + snd item)%Q
  else if includes TxType_eqb debitTypes (fst item) then (balance - snd item)%Q
  else balance.

Definition getUserBalance (uid : UserId) (txs : list t) : Q :=
  let result := aggregate_by_type (List.filter (match_completed uid) txs) in
  let balance := fold_left balance_step result 0%Q in
  Qmax 0 balance.

End Transaction.

(** ** models/User.js *)

Module User.

Inductive KycStatus := kyc_pending | verified | rejected | not_submitted.

Definition KycStatus_eqb (a b : KycStatus) : bool :=
  match a, b with
  | kyc_pending, kyc_pending | verified, verified
  | rejected, rejected | not_submitted, not_submitted => true
  | _, _ => false
  end.

Record LoginEntry := mkLogin {
  ip : string;
  userAgent : string;
  location : option string;
  timestamp : Time
}.

(** A User document, restricted to the wallet, the progress counters, the
    KYC status and the login history. [experienceModified] is Mongoose's
    isModified('statistics.experience'). *)
Record t := mkUser {
  username : string;
  coins_total : Q;
  coins_available : Q;
  coins_pending : Q;
  experience : Q;
  level : Z;
  kyc_status : KycStatus;
  loginHistory : list LoginEntry;
  createdAt : Time;
  experienceModified : bool
}.

Definition set_coins (total available pending : Q) (u : t) : t :=
  mkUser (username u) total available pending (experience u) (level u)
    (kyc_status u) (loginHistory u) (createdAt u) (experienceModified u).

Definition set_experience (v : Q) (u : t) : t :=
  if Qeq_bool (experience u) v then u
  else mkUser (username u) (coins_total u) (coins_available u)
         (coins_pending u) v (level u) (kyc_status u) (loginHistory u)
         (createdAt u) true.

(** The pre-save hook, as far as it touches the fields above: the level
    follows the experience when the experience was modified. *)
Definition preSave (u : t) : t :=
  if experienceModified u
  then let newLevel := Qfloor (experience u / 1000) + 1 in
       mkUser (username u) (coins_total u) (coins_available u)
         (coins_pending u) (experience u)
         (if level u <? newLevel then newLevel else level u)
         (kyc_status u) (loginHistory u) (createdAt u) (experienceModified u)
  else u.

Definition save (u : t) : t :=
  let u' := preSave u in
  mkUser (username u') (coins_total u') (coins_available u') (coins_pending u')
    (experience u') (level u') (kyc_status u') (loginHistory u') (createdAt u')
    false.

(** *** Validation

    The validators of the schema on the paths the record carries: username
    (required, 3 to 30 characters, letters, digits and underscores), the
    three coin counters (min 0), statistics.level (min 1) and
    statistics.experience (min 0). Of the validators of one path the first
    that fails is reported. *)
Definition is_word_char (c : Ascii.ascii) : bool :=
  let n := Ascii.nat_of_ascii c in
  ((48 <=? n) && (n <=? 57) || (65 <=? n) && (n <=? 90)
   || (97 <=? n) && (n <=? 122) || (n =? 95))%nat.

Fixpoint all_chars (p : Ascii.ascii -> bool) (s : string) : bool :=
  match s with
  | EmptyString => true
  | String c rest => p c && all_chars p rest
  end.

Definition validate_username (name : string) : list Mongoose.Violation :=
  if Transaction.isEmpty name
  then [Mongoose.mkViolation "username" "Username is required"]
  else if (String.length name <? 3)%nat
  then [Mongoose.mkViolation "username" "Username must be at least 3 characters"]
  else if (30 <? String.length name)%nat
  then [Mongoose.mkViolation "username" "Username cannot exceed 30 characters"]
  else Mongoose.check (all_chars is_word_char name)
         (Mongoose.mkViolation "username"
            "Username can only contain letters, numbers and underscores").

Definition validate (u : t) : list Mongoose.Violation :=
  validate_username (username u)
  ++ Mongoose.check (Qle_bool 0 (coins_total u))
       (Mongoose.below_min "coins.total" "0")
  ++ Mongoose.check (Qle_bool 0 (coins_available u))
       (Mongoose.below_min "coins.available" "0")
  ++ Mongoose.check (Qle_bool 0 (coins_pending u))
       (Mongoose.below_min "coins.pending" "0")
  ++ Mongoose.check (1 <=? level u) (Mongoose.below_min "statistics.level" "1")
  ++ Mongoose.check (Qle_bool 0 (experience u))
       (Mongoose.below_min "statistics.experience" "0").

(** [await user.save()]: rejected when the document fails validation. *)
Definition save_checked (u : t) : string + t :=
  match validate u with
  | [] => inr (save u)
  | vs => inl (Mongoose.ValidationError "User" vs)
  end.

Definition addCoins (amount : Q) (u : t) : string + t :=
  save_checked (set_coins (coins_total u + amount)%Q (coins_available u + amount)%Q
                  (coins_pending u) u).

Definition deductCoins (amount : Q) (u : t) : string + t :=
  if Qltb (coins_available u) amount then inl "Insufficient coins"
  else save_checked (set_coins (coins_total u) (coins_available u - amount)%Q
                       (coins_pending u) u).

(** addExperience, seen from a document whose save passes validation. *)
Definition addExperience (exp : Q) (u : t) : t :=
  save (set_experience (experience u + exp)%Q u).

Definition canWithdraw (e : Env) (amount : Q) (u : t) : bool :=
  let minWithdrawal := parseFloat_or (MIN_WITHDRAWAL (env e)) 10 in
  KycStatus_eqb (kyc_status u) verified
  && Qle_bool amount (coins_available u)
  && Qle_bool minWithdrawal amount.

End User.

(** ** models/Game.js *)

Module Game.

Inductive SessionStatus := active | completed | abandoned | paused.

Definition SessionStatus_eqb (a b : SessionStatus) : bool :=
  match a, b with
  | active, active | completed, completed
  | abandoned, abandoned | paused, paused => true
  | _, _ => false
  end.

Inductive AchievementType :=
  | first_game | perfect_combo | speed_demon | accuracy_master
  | endurance_player.

Definition AchievementType_eqb (a b : AchievementType) : bool :=
  match a, b with
  | first_game, first_game | perfect_combo, perfect_combo
  | speed_demon, speed_demon | accuracy_master, accuracy_master
  | endurance_player, endurance_player => true
  | _, _ => false
  end.

Record Achievement := mkAchievement {
  a_type : AchievementType;
  a_unlockedAt : Time;
  a_description : string;
  reward_coins : option Q;
  reward_experience : option Q
}.

Record Gameplay := mkGameplay {
  totalNotes : Z;
  correctNotes : Z;
  missedNotes : Z;
  accuracy : Q;
  maxCombo : Z;
  currentCombo : Z
}.

Record Scoring := mkScoring {
  baseScore : Q;
  comboBonus : Q;
  accuracyBonus : Q;
  speedBonus : Q;
  totalScore : Q;
  multiplier : Q
}.

Record Rewards := mkRewards {
  points : Q;
  coins : Q;
  experience : Q;
  bonusCoins : Q;
  claimed : bool;
  claimedAt : option Time
}.

Record t := mkGame {
  _id : nat;
  userId : UserId;
  sessionId : string;
  startTime : option Time;
  endTime : option Time;
  duration : Z;
  status : SessionStatus;
  gameplay : Gameplay;
  scoring : Scoring;
  rewards : Rewards;
  achievements : list Achievement
}.


(** *** Virtuals *)

Definition notesPerSecond (g : t) : Q :=
  if duration g =? 0 then 0%Q
  else (inject_Z (totalNotes (gameplay g)) / inject_Z (duration g))%Q.

Definition isCompleted (g : t) : bool := SessionStatus_eqb (status g) completed.

(** *** The pre-save hook *)

Definition floorQ (q : Q) : Q := inject_Z (Qfloor q).

Definition coinPerPoint (e : Env) : Q :=
  parseFloat_or (COIN_PER_POINT (env e)) (1 # 1000).

(** The hook assigns [scoring.totalScore] and then asks whether that path
    is modified; nothing else assigns it, so it is modified exactly when the
    sum differs from the stored value. *)
Definition preSave (e : Env) (g : t) : t :=
  let gp := gameplay g in
  let acc := if 0 <? totalNotes gp
             then (inject_Z (correctNotes gp) / inject_Z (totalNotes gp) * 100)%Q
             else accuracy gp in
  let sc := scoring g in
  let total := (baseScore sc + comboBonus sc + accuracyBonus sc + speedBonus sc)%Q in
  let modified := negb (Qeq_bool (totalScore sc) total) in
  let total' := if modified then total else totalScore sc in
  let rw := rewards g in
  let rw' := if modified
             then mkRewards (floorQ total) (floorQ (total * coinPerPoint e))
                    (floorQ (total / 100)) (bonusCoins rw) (claimed rw)
                    (claimedAt rw)
             else rw in
  let dur := match endTime g, startTime g with
             | Some en, Some st => (en - st) / 1000
             | _, _ => duration g
             end in
  mkGame (_id g) (userId g) (sessionId g) (startTime g) (endTime g) dur
    (status g)
    (mkGameplay (totalNotes gp) (correctNotes gp) (missedNotes gp) acc
       (maxCombo gp) (currentCombo gp))
    (mkScoring (baseScore sc) (comboBonus sc) (accuracyBonus sc) (speedBonus sc)
       total' (multiplier sc))
    rw' (achievements g).

(** [this.save()] seen from a document that passes validation. *)
Definition save (e : Env) (g : t) : t := preSave e g.

(** *** Validation

    The validators of the schema on the paths the record carries:
    session.sessionId (required), gameplay.accuracy (min 0, max 100) and
    scoring.multiplier (min 1, max 5). *)
Definition validate (g : t) : list Mongoose.Violation :=
  Mongoose.check (negb (Transaction.isEmpty (sessionId g)))
    (Mongoose.required "session.sessionId")
  ++ (if Qle_bool 0 (accuracy (gameplay g))
      then Mongoose.check (Qle_bool (accuracy (gameplay g)) 100)
             (Mongoose.above_max "gameplay.accuracy" "100")
      else [Mongoose.below_min "gameplay.accuracy" "0"])
  ++ (if Qle_bool 1 (multiplier (scoring g))
      then Mongoose.check (Qle_bool (multiplier (scoring g)) 5)
             (Mongoose.above_max "scoring.multiplier" "5")
      else [Mongoose.below_min "scoring.multiplier" "1"]).

(** [await game.save()]: rejected when the document fails validation. *)
Definition save_checked (e : Env) (g : t) : string + t :=
  match validate g with
  | [] => inr (save e g)
  | vs => inl (Mongoose.ValidationError "Game" vs)
  end.

(** *** Instance methods *)

Definition has_achievement (ty : AchievementType) (g : t) : bool :=
  existsb (fun a => AchievementType_eqb (a_type a) ty) (achievements g).

Definition push_achievement (a : Achievement) (g : t) : t :=
  mkGame (_id g) (userId g) (sessionId g) (startTime g) (endTime g)
    (duration g) (status g) (gameplay g) (scoring g) (rewards g)
    (achievements g ++ [a]).

Definition unlock_if (cond : bool) (e : Env) (ty : AchievementType)
    (descr : string) (c x : Q) (g : t) : t :=
  if cond && negb (has_achievement ty g)
  then push_achievement (mkAchievement ty (Date_now e) descr (Some c) (Some x)) g
  else g.

Definition checkAchievements (e : Env) (g : t) : t :=
  let g1 := unlock_if (0 <? totalNotes (gameplay g)) e first_game
              "Completed your first game!" 50 100 g in
  let g2 := unlock_if (100 <=? maxCombo (gameplay g1)) e perfect_combo
              "Achieved a combo of 100+!" 200 300 g1 in
  let g3 := unlock_if (Qle_bool 98 (accuracy (gameplay g2))) e accuracy_master
              "Achieved 98%+ accuracy!" 150 250 g2 in
  let g4 := unlock_if (Qle_bool 6 (notesPerSecond g3)) e speed_demon
              "Played at lightning speed!" 100 200 g3 in
  unlock_if (300 <=? duration g4) e endurance_player
    "Played for 5+ minutes straight!" 75 150 g4.

Definition set_session (st : SessionStatus) (en : option Time) (g : t) : t :=
  mkGame (_id g) (userId g) (sessionId g) (startTime g) en (duration g) st
    (gameplay g) (scoring g) (rewards g) (achievements g).

Definition completeGame (e : Env) (g : t) : t :=
  save e (checkAchievements e (set_session completed (Some (Date_now e)) g)).

Definition or_zero (v : option Q) : Q :=
  match v with Some q => if Qeq_bool q 0 then 0%Q else q | None => 0%Q end.

Record RewardData := mkRewardData {
  rd_coins : Q;
  rd_experience : Q;
  rd_achievements : list Achievement
}.

Definition achievement_coins (l : list Achievement) (start : Q) : Q :=
  fold_left (fun acc a => (acc + or_zero (reward_coins a))%Q) l start.

Definition achievement_experience (l : list Achievement) (start : Q) : Q :=
  fold_left (fun acc a => (acc + or_zero (reward_experience a))%Q) l start.

Definition set_claimed (at_ : Time) (g : t) : t :=
  let rw := rewards g in
  mkGame (_id g) (userId g) (sessionId g) (startTime g) (endTime g)
    (duration g) (status g) (gameplay g) (scoring g)
    (mkRewards (points rw) (coins rw) (experience rw) (bonusCoins rw) true
       (Some at_))
    (achievements g).

Definition claimRewards (e : Env) (g : t) : string + (RewardData * t) :=
  if claimed (rewards g) then inl "Rewards already claimed"
  else
    let totalCoins :=
      achievement_coins (achievements g)
        (coins (rewards g) + bonusCoins (rewards g))%Q in
    let totalExperience :=
      achievement_experience (achievements g) (experience (rewards g)) in
    match save_checked e (set_claimed (Date_now e) g) with
    | inl msg => inl msg
    | inr g' => inr (mkRewardData totalCoins totalExperience (achievements g'), g')
    end.

End Game.

(** ** The database *)

Record Store := mkStore {
  transactions : list Transaction.t;
  users : gmap UserId User.t;
  games : list Game.t
}.

Definition set_transactions (v : list Transaction.t) (s : Store) : Store :=
  mkStore v (users s) (games s).
Definition set_users (v : gmap UserId User.t) (s : Store) : Store :=
  mkStore (transactions s) v (games s).
Definition set_games (v : list Game.t) (s : Store) : Store :=
  mkStore (transactions s) (users s) v.

(** [Model.findOne(query)]: the first document that matches, with its
    position in the collection. *)
Fixpoint findOne_from {A} (p : A -> bool) (l : list A) (i : nat)
    : option (nat * A) :=
  match l with
  | [] => None
  | x :: rest => if p x then Some (i, x) else findOne_from p rest (S i)
  end.

Definition findOne {A} (p : A -> bool) (l : list A) : option (nat * A) :=
  findOne_from p l 0.

Definition option_string_is (o : option string) (v : string) : bool :=
  match o with Some x => String.eqb x v | None => false end.

(** ** services/gameService.js *)

Module GameService.

Record ClaimResult := mkClaimResult {
  rewards : Game.RewardData;
  newBalance : Q;
  newLevel : Z;
  experienceGained : Q
}.

Definition claim_query (sessionId : string) (uid : UserId) (g : Game.t) : bool :=
  String.eqb (Game.sessionId g) sessionId
  && Nat.eqb (Game.userId g) uid
  && Game.SessionStatus_eqb (Game.status g) Game.completed.

Definition failed_to_claim (msg : string) : string :=
  String.append "Failed to claim rewards: " msg.

(** claimRewards. Every step is awaited in turn, so a step that throws
    leaves what the steps before it have written: the session is marked
    claimed and the wallet credited before the ledger entry is created. *)
Definition claimRewards (e : Env) (sessionId : string) (uid : UserId)
    (s : Store) : (string + ClaimResult) * Store :=
  match findOne (claim_query sessionId uid) (games s) with
  | None => (inl (failed_to_claim "Game session not found or not completed"), s)
  | Some (i, game) =>
      if Game.claimed (Game.rewards game)
      then (inl (failed_to_claim "Rewards already claimed"), s)
      else
        match Game.claimRewards e game with
        | inl msg => (inl (failed_to_claim msg), s)
        | inr (rewardData, game') =>
            let s1 := set_games (<[i := game']> (games s)) s in
            match users s1 !! uid with
            | None =>
                (inl (failed_to_claim
                        "Cannot read properties of null (reading 'addCoins')"),
                 s1)
            | Some user =>
                match User.addCoins (Game.rd_coins rewardData) user with
                | inl msg => (inl (failed_to_claim msg), s1)
                | inr user1 =>
                    let s2 := set_users (<[uid := user1]> (users s1)) s1 in
                    (* user.addExperience(rewardData.experience), awaited *)
                    match User.save_checked
                            (User.set_experience
                               (User.experience user1
                                + Game.rd_experience rewardData)%Q user1) with
                    | inl msg => (inl (failed_to_claim msg), s2)
                    | inr user2 =>
                        let s3 := set_users (<[uid := user2]> (users s2)) s2 in
                        match Transaction.createGameReward e uid (Game._id game')
                                (Game.rd_coins rewardData)
                                (Game.totalScore (Game.scoring game'))
                                (Game.accuracy (Game.gameplay game'))
                                (inject_Z (Game.duration game')) with
                        | inl msg => (inl (failed_to_claim msg), s3)
                        | inr tx =>
                            (inr (mkClaimResult rewardData
                                    (User.coins_available user2)
                                    (User.level user2)
                                    (Game.rd_experience rewardData)),
                             set_transactions (transactions s3 ++ [tx]) s3)
                        end
                    end
                end
            end
        end
  end.

End GameService.

(** ** services/paymentService.js *)

Module PaymentService.

(** The uniform answer of a payment rail. *)
Record GatewayResult := mkGatewayResult {
  success : bool;
  gw_transactionId : option string;
  gw_error : string;
  gw_data : option string
}.

(** The external rails (bank transfer, crypto, PayPal): the answer is
    whatever the outside world returns for the transaction. *)
Definition Rail := Transaction.Method -> Transaction.t -> GatewayResult.

Record WithdrawalResult := mkWithdrawalResult {
  w_success : bool;
  w_transactionId : string;
  w_message : string;
  w_estimatedTime : string
}.

Definition getEstimatedProcessingTime (m : Transaction.Method) : string :=
  match m with
  | Transaction.bank_transfer => "1-3 business days"
  | Transaction.crypto => "10-30 minutes"
  | Transaction.paypal => "2-5 business days"
  | _ => "Unknown"
  end.

Definition withdrawal_failed (msg : string) : string :=
  String.append "Withdrawal failed: " msg.

Definition add_pending (amount : Q) (u : User.t) : User.t :=
  User.set_coins (User.coins_total u) (User.coins_available u)
    (User.coins_pending u + amount)%Q u.

Definition release_pending (amount : Q) (u : User.t) : User.t :=
  User.set_coins (User.coins_total u) (User.coins_available u)
    (User.coins_pending u - amount)%Q u.

Definition refund_pending (amount : Q) (u : User.t) : User.t :=
  User.set_coins (User.coins_total u) (User.coins_available u + amount)%Q
    (User.coins_pending u - amount)%Q u.

(** The tail of processWithdrawal, once the rail has answered: [i] is the
    position of the withdrawal in the collection, [user] the user document
    the function holds. *)
Definition settleWithdrawal (e : Env) (result : GatewayResult) (uid : UserId)
    (amount : Q) (method : Transaction.Method) (i : nat) (tx : Transaction.t)
    (user : User.t) (s : Store) : (string + WithdrawalResult) * Store :=
  let tx' := if success result
             then Transaction.markCompleted e (gw_data result) tx
             else Transaction.markFailed e (gw_error result) None tx in
  let s1 := set_transactions (<[i := tx']> (transactions s)) s in
  match User.save_checked (if success result then release_pending amount user
                           else refund_pending amount user) with
  | inl msg => (inl (withdrawal_failed msg), s1)
  | inr user' =>
      (inr (mkWithdrawalResult (success result) (Transaction.transactionId tx')
              (if success result then "Withdrawal processed successfully"
               else gw_error result)
              (getEstimatedProcessingTime method)),
       set_users (<[uid := user']> (users s1)) s1)
  end.

Definition processWithdrawal (e : Env) (rail : Rail) (uid : UserId)
    (amount : Q) (method : Transaction.Method)
    (accountInfo : Transaction.AccountInfo) (s : Store)
    : (string + WithdrawalResult) * Store :=
  match users s !! uid with
  | None => (inl (withdrawal_failed "User not found"), s)
  | Some user =>
      if negb (User.canWithdraw e amount user)
      then (inl (withdrawal_failed
                   "Withdrawal not allowed. Check KYC status and minimum amount."),
            s)
      else if Qltb (Transaction.getUserBalance uid (transactions s)) amount
      then (inl (withdrawal_failed "Insufficient balance"), s)
      else
        match Transaction.createWithdrawal e uid amount method accountInfo with
        | inl msg => (inl (withdrawal_failed msg), s)
        | inr tx =>
            let i := length (transactions s) in
            let s1 := set_transactions (transactions s ++ [tx]) s in
            match User.deductCoins amount user with
            | inl msg => (inl (withdrawal_failed msg), s1)
            | inr user1 =>
                let s2 := set_users (<[uid := user1]> (users s1)) s1 in
                match User.save_checked (add_pending amount user1) with
                | inl msg => (inl (withdrawal_failed msg), s2)
                | inr user2 =>
                    let s3 := set_users (<[uid := user2]> (users s2)) s2 in
                    match method with
                    | Transaction.bank_transfer | Transaction.crypto
                    | Transaction.paypal =>
                        settleWithdrawal e (rail method tx) uid amount method i
                          tx user2 s3
                    | _ =>
                        (inl (withdrawal_failed "Unsupported withdrawal method"),
                         s3)
                    end
                end
            end
        end
  end.

(** *** Deposits *)

Inductive IntentStatus := succeeded | requires_action | other_status.

Record PaymentIntent := mkIntent {
  pi_id : string;
  pi_status : IntentStatus;
  pi_method : option Transaction.Method;
  pi_payload : string
}.

Record DepositResult := mkDepositResult {
  d_success : bool;
  d_transactionId : option string;
  d_coinsAdded : option Q;
  d_requiresAction : bool
}.

Definition deposit_failed (msg : string) : string :=
  String.append "Deposit failed: " msg.

(** [intent] is what stripe.paymentIntents.create answers: an intent, or the
    message of the error it throws. The transaction document is built
    without a transactionId. *)
Definition processDeposit (e : Env) (intent : string + PaymentIntent)
    (uid : UserId) (amount : Q) (currency : Transaction.Currency) (s : Store)
    : (string + DepositResult) * Store :=
  match users s !! uid with
  | None => (inl (deposit_failed "User not found"), s)
  | Some user =>
      match intent with
      | inl msg => (inl (deposit_failed msg), s)
      | inr paymentIntent =>
          let doc :=
            Transaction.mkTransaction uid "" Transaction.deposit amount currency
              Transaction.processing
              (String.append "Deposit via "
                 (match pi_method paymentIntent with
                  | Some m => Transaction.method_name m
                  | None => "undefined"
                  end))
              (Transaction.mkMetadata None None None None None None
                 (pi_method paymentIntent) (Some (pi_id paymentIntent))
                 Transaction.defaultFees)
              (Transaction.mkPayment (Some Transaction.stripe)
                 (Some (pi_id paymentIntent)) None 0 3 None)
              Transaction.defaultVerification Transaction.defaultAudit
              (Date_now e) true false in
          match Transaction.save_checked e doc with
          | inl msg => (inl (deposit_failed msg), s)
          | inr transaction =>
              let i := length (transactions s) in
              let s1 := set_transactions (transactions s ++ [transaction]) s in
              match pi_status paymentIntent with
              | succeeded =>
                  let transaction' :=
                    Transaction.markCompleted e None transaction in
                  let s2 := set_transactions
                              (<[i := transaction']> (transactions s1)) s1 in
                  let bigCoinAmount := (amount * 100)%Q in
                  match User.addCoins bigCoinAmount user with
                  | inl msg => (inl (deposit_failed msg), s2)
                  | inr user' =>
                      (inr (mkDepositResult true
                              (Some (Transaction.transactionId transaction'))
                              (Some bigCoinAmount) false),
                       set_users (<[uid := user']> (users s2)) s2)
                  end
              | st =>
                  (inr (mkDepositResult false None None
                          (match st with requires_action => true | _ => false end)),
                   s1)
              end
          end
      end
  end.

Definition by_gateway_id (id : string) (d : Transaction.t) : bool :=
  option_string_is (Transaction.gatewayTransactionId (Transaction.payment d)) id.

(** handlePaymentSuccess: [None] when the handler returns, [Some msg] when it
    throws. *)
Definition handlePaymentSuccess (e : Env) (paymentIntent : PaymentIntent)
    (s : Store) : option string * Store :=
  match findOne (by_gateway_id (pi_id paymentIntent)) (transactions s) with
  | None => (None, s)
  | Some (i, transaction) =>
      if Transaction.Status_eqb (Transaction.status transaction)
           Transaction.processing
      then
        let transaction' :=
          Transaction.markCompleted e (Some (pi_payload paymentIntent))
            transaction in
        let s1 := set_transactions (<[i := transaction']> (transactions s)) s in
        if Transaction.TxType_eqb (Transaction.type transaction')
             Transaction.deposit
        then
          let bigCoinAmount := (Transaction.amount transaction' * 100)%Q in
          match users s1 !! Transaction.userId transaction' with
          | None =>
              (Some "Cannot read properties of null (reading 'addCoins')", s1)
          | Some user =>
              match User.addCoins bigCoinAmount user with
              | inl msg => (Some msg, s1)
              | inr user' =>
                  (None,
                   set_users (<[Transaction.userId transaction' := user']>
                                (users s1)) s1)
              end
          end
        else (None, s1)
      else (None, s)
  end.

(** *** KYC tiers *)

Inductive KycTier := tier_none | tier_basic | tier_enhanced | tier_full.

Definition tier_index (l : KycTier) : Z :=
  match l with
  | tier_none => 0 | tier_basic => 1 | tier_enhanced => 2 | tier_full => 3
  end.

Definition compareKYCLevels (current required : KycTier) : bool :=
  tier_index required <=? tier_index current.

Record KycCheck := mkKycCheck {
  allowed : bool;
  currentLevel : KycTier;
  requiredLevel : KycTier
}.

Definition verifyKYCForTransaction (uid : UserId) (amount : Q) (s : Store)
    : string + KycCheck :=
  match users s !! uid with
  | None => inl "KYC verification failed: User not found"
  | Some user =>
      let requiredLevel :=
        if Qle_bool 10000 amount then tier_full
        else if Qle_bool 1000 amount then tier_enhanced
        else if Qle_bool 100 amount then tier_basic
        else tier_none in
      let currentLevel :=
        if User.KycStatus_eqb (User.kyc_status user) User.verified
        then tier_enhanced else tier_none in
      inr (mkKycCheck (compareKYCLevels currentLevel requiredLevel)
             currentLevel requiredLevel)
  end.

(** *** Risk scoring *)

Record TransactionData := mkTransactionData {
  td_type : Transaction.TxType;
  td_amount : Q;
  td_location : option string
}.

Record Assessment := mkAssessment {
  riskScore : Z;
  flags : list string;
  requiresReview : bool;
  requiresApproval : bool
}.

Definition sumQ (l : list Q) : Q := fold_right Qplus 0%Q l.

(** [$avg] over the user's transactions of one type; [None] when there is
    none. *)
Definition averageAmount (uid : UserId) (ty : Transaction.TxType)
    (txs : list Transaction.t) : option Q :=
  let docs := List.filter
                (fun d => Nat.eqb (Transaction.userId d) uid
                          && Transaction.TxType_eqb (Transaction.type d) ty) txs in
  match docs with
  | [] => None
  | _ => Some (sumQ (map Transaction.amount docs) / inject_Z (Z.of_nat (length docs)))%Q
  end.

Definition recentWithdrawals (e : Env) (uid : UserId) (txs : list Transaction.t)
    : list Transaction.t :=
  let recentTransactions :=
    List.filter (fun d => Nat.eqb (Transaction.userId d) uid
                          && (Date_now e - 24 * 60 * 60 * 1000 <=? Transaction.createdAt d))
      txs in
  List.filter (fun d => Transaction.TxType_eqb (Transaction.type d)
                          Transaction.withdrawal) recentTransactions.

Definition velocity_signal (e : Env) (uid : UserId) (txs : list Transaction.t) : bool :=
  (3 <? length (recentWithdrawals e uid txs))%nat.

Definition amount_signal (uid : UserId) (td : TransactionData)
    (txs : list Transaction.t) : bool :=
  match averageAmount uid (td_type td) txs with
  | Some avgAmount => Qltb (avgAmount * 5) (td_amount td)
  | None => false
  end.

Definition new_account_signal (e : Env) (user : User.t) (td : TransactionData) : bool :=
  let accountAge :=
    (inject_Z (Date_now e - User.createdAt user)
     / inject_Z (1000 * 60 * 60 * 24))%Q in
  Qltb accountAge 7 && Qltb 500 (td_amount td).

Definition truthy (o : option string) : bool :=
  match o with Some v => negb (Transaction.isEmpty v) | None => false end.

Definition option_string_eqb (a b : option string) : bool :=
  match a, b with
  | Some x, Some y => String.eqb x y
  | None, None => true
  | _, _ => false
  end.

Definition location_signal (user : User.t) (td : TransactionData) : bool :=
  match User.loginHistory user with
  | [] => false
  | last :: _ =>
      truthy (td_location td)
      && negb (option_string_eqb (User.location last) (td_location td))
  end.

Definition add_signal (hit : bool) (points : Z) (flag : string)
    (acc : Z * list string) : Z * list string :=
  if hit then (fst acc + points, snd acc ++ [flag]) else acc.

Definition monitorSuspiciousActivity (e : Env) (uid : UserId)
    (td : TransactionData) (s : Store) : Assessment :=
  match users s !! uid with
  | None => mkAssessment 50 ["Error in risk assessment"] true false
  | Some user =>
      let txs := transactions s in
      let r1 := add_signal (velocity_signal e uid txs) 30
                  "Multiple withdrawals in 24h" (0, []) in
      let r2 := add_signal (amount_signal uid td txs) 25
                  "Amount significantly higher than usual" r1 in
      let r3 := add_signal (new_account_signal e user td) 40
                  "Large transaction from new account" r2 in
      let r4 := add_signal (location_signal user td) 20
                  "Transaction from different location" r3 in
      let score := fst r4 in
      mkAssessment (Z.min 100 score) (snd r4) (70 <? score) (50 <? score)
  end.

End PaymentService.

(** ** routes/payment.js: POST /withdraw *)

Module PaymentRoute.

Inductive Response :=
  | status400 (message : string)
  | status403 (message : string) (check : PaymentService.KycCheck)
  | status202 (message : string) (riskFlags : list string)
  | status200 (result : PaymentService.WithdrawalResult)
  | status500 (message : string).

(** The handler from the balance check on: KYC tier, risk gate, processing. *)
Definition withdraw_checked (e : Env) (rail : PaymentService.Rail)
    (uid : UserId) (amt : Q) (m : Transaction.Method)
    (info : Transaction.AccountInfo) (location : option string) (s : Store)
    : Response * Store :=
  if Qltb (Transaction.getUserBalance uid (transactions s)) amt
  then (status400 "Insufficient balance", s)
  else
    match PaymentService.verifyKYCForTransaction uid amt s with
    | inl msg => (status500 msg, s)
    | inr kycCheck =>
        if negb (PaymentService.allowed kycCheck)
        then (status403 "KYC verification required for this amount" kycCheck, s)
        else
          let riskAssessment :=
            PaymentService.monitorSuspiciousActivity e uid
              (PaymentService.mkTransactionData Transaction.withdrawal amt location) s in
          if PaymentService.requiresReview riskAssessment
          then (status202 "Withdrawal requires manual review"
                  (PaymentService.flags riskAssessment), s)
          else
            match PaymentService.processWithdrawal e rail uid amt m info s with
            | (inl msg, s') => (status500 msg, s')
            | (inr result, s') => (status200 result, s')
            end
    end.

End PaymentRoute.

(** ** The transition table of the specification

    The specification lists the legal status changes; the table is stated
    here from its words, to be compared with what [updateStatus] accepts. *)
Definition spec_legal_transition (from to : Transaction.Status) : bool :=
  match from, to with
  | Transaction.pending, Transaction.processing
  | Transaction.processing, Transaction.completed
  | Transaction.processing, Transaction.failed
  | Transaction.failed, Transaction.processing
  | _, Transaction.cancelled
  | Transaction.pending, Transaction.expired => true
  | _, _ => false
  end.

(** ** The balance rule of the specification

    The specification gives the balance of a user as the amounts of the
    user's completed credits (game_reward, deposit, bonus, referral, refund)
    minus the amounts of the user's completed debits (withdrawal, penalty,
    fee, purchase), never below zero. The rule is stated here from its
    words, to be compared with [Transaction.getUserBalance]. *)
Definition spec_credit (ty : Transaction.TxType) : bool :=
  match ty with
  | Transaction.game_reward | Transaction.deposit | Transaction.bonus
  | Transaction.referral | Transaction.refund => true
  | _ => false
  end.

Definition spec_debit (ty : Transaction.TxType) : bool :=
  match ty with
  | Transaction.withdrawal | Transaction.penalty | Transaction.fee
  | Transaction.purchase => true
  | _ => false
  end.

Definition spec_completed_of (uid : UserId) (d : Transaction.t) : bool :=
  Nat.eqb (Transaction.userId d) uid
  && match Transaction.status d with Transaction.completed => true | _ => false end.

Fixpoint spec_total (uid : UserId) (sel : Transaction.TxType -> bool)
    (txs : list Transaction.t) : Q :=
  match txs with
  | [] => 0%Q
  | d :: rest =>
      ((if spec_completed_of uid d && sel (Transaction.type d)
        then Transaction.amount d else 0)
       + spec_total uid sel rest)%Q
  end.

(** ** The risk signals of the specification

    The four signals, stated from the words of the specification, to be
    compared with what [PaymentService.monitorSuspiciousActivity] adds up:
    more than three withdrawals of the user in the last 24 hours (30); an
    amount above five times the average of the user's transactions of the
    type (25); an account younger than 7 days and an amount above 500 (40);
    a location that differs from the one of the latest login (20). *)
Fixpoint spec_recent_withdrawals (e : Env) (uid : UserId)
    (txs : list Transaction.t) : nat :=
  match txs with
  | [] => 0%nat
  | d :: rest =>
      let counts :=
        Nat.eqb (Transaction.userId d) uid
        && match Transaction.type d with
           | Transaction.withdrawal => true
           | _ => false
           end
        && (Date_now e - hours 24 <=? Transaction.createdAt d) in
      if counts then S (spec_recent_withdrawals e uid rest)
      else spec_recent_withdrawals e uid rest
  end.

(** How many transactions of the type the user has, and their total. *)
Fixpoint spec_history (uid : UserId) (ty : Transaction.TxType)
    (txs : list Transaction.t) : nat * Q :=
  match txs with
  | [] => (0%nat, 0%Q)
  | d :: rest =>
      let (n, total) := spec_history uid ty rest in
      if Nat.eqb (Transaction.userId d) uid
         && Transaction.TxType_eqb (Transaction.type d) ty
      then (S n, (Transaction.amount d + total)%Q)
      else (n, total)
  end.

Definition spec_many_withdrawals (e : Env) (uid : UserId)
    (txs : list Transaction.t) : bool :=
  (3 <? spec_recent_withdrawals e uid txs)%nat.

Definition spec_unusual_amount (uid : UserId) (ty : Transaction.TxType)
    (amount : Q) (txs : list Transaction.t) : bool :=
  let (n, total) := spec_history uid ty txs in
  match n with
  | O => false
  | S _ => Qltb (5 * (total / inject_Z (Z.of_nat n)))%Q amount
  end.

Definition spec_new_account (e : Env) (u : User.t) (amount : Q) : bool :=
  (Date_now e - User.createdAt u <? 7 * hours 24) && Qltb 500 amount.

Definition spec_other_location (u : User.t) (location : option string) : bool :=
  match User.loginHistory u, location with
  | last :: _, Some l =>
      negb (String.eqb l "")
      && match User.location last with
         | Some l' => negb (String.eqb l' l)
         | None => true
         end
  | _, _ => false
  end.

Definition spec_points (e : Env) (uid : UserId) (u : User.t)
    (ty : Transaction.TxType) (amount : Q) (location : option string)
    (txs : list Transaction.t) : Z :=
  30 * Z.b2z (spec_many_withdrawals e uid txs)
  + 25 * Z.b2z (spec_unusual_amount uid ty amount txs)
  + 40 * Z.b2z (spec_new_account e u amount)
  + 20 * Z.b2z (spec_other_location u location).

(** ** Vocabulary of the statements *)

Section Vocabulary.

Import Transaction.

Definition isCredit (ty : TxType) : bool := includes TxType_eqb creditTypes ty.
Definition isDebit (ty : TxType) : bool := includes TxType_eqb debitTypes ty.

(** The amounts of a user's completed transactions of the types [sel]. *)
Definition completed_total (sel : TxType -> bool) (uid : UserId) (txs : list t) : Q :=
  PaymentService.sumQ
    (map amount (List.filter (fun d => match_completed uid d && sel (type d)) txs)).

(** The contribution of one amount to the balance, by the type it has. *)
Definition signed (ty : TxType) (a : Q) : Q :=
  if isCredit ty then a else if isDebit ty then (- a)%Q else 0%Q.

Definition signed_groups (gs : list (TxType * Q)) : Q :=
  PaymentService.sumQ (map (fun g => signed (fst g) (snd g)) gs).

Definition signed_docs (docs : list t) : Q :=
  PaymentService.sumQ (map (fun d => signed (type d) (amount d)) docs).

(** The game_reward transactions of a user. *)
Definition rewardTransactions (uid : UserId) (txs : list t) : list t :=
  List.filter (fun d => Nat.eqb (userId d) uid && TxType_eqb (type d) game_reward) txs.

(** The fields of a transaction that no save hook writes. *)
Definition same_core (d d' : t) : Prop :=
  userId d' = userId d /\ type d' = type d /\ amount d' = amount d
  /\ status d' = status d /\ payment d' = payment d
  /\ currency d' = currency d /\ createdAt d' = createdAt d.

(** The entry the pre-save hook records for a status it finds modified. *)
Definition hookEntry (e : Env) (s : Status) : HistoryEntry :=
  mkHistory "unknown" (status_name s) (Date_now e) "Status updated" None.

(** What one save adds to the status history. *)
Definition hookEntries (e : Env) (d : t) : list HistoryEntry :=
  if statusModified d && negb (isNew d) then [hookEntry e (status d)] else [].

End Vocabulary.

(** The reward fields agree with the score: coins = floor(totalScore x
    coinPerPoint) and experience = floor(totalScore / 100). *)
Definition rewards_follow_score (e : Env) (g : Game.t) : Prop :=
  Game.coins (Game.rewards g)
  = Game.floorQ (Game.totalScore (Game.scoring g) * Game.coinPerPoint e)
  /\ Game.experience (Game.rewards g)
     = Game.floorQ (Game.totalScore (Game.scoring g) / 100).

(** The fixed bonuses of the unlocked achievements. *)
Definition achievementCoins (l : list Game.Achievement) : Q :=
  PaymentService.sumQ (map (fun a => Game.or_zero (Game.reward_coins a)) l).

Definition achievementExperience (l : list Game.Achievement) : Q :=
  PaymentService.sumQ (map (fun a => Game.or_zero (Game.reward_experience a)) l).

(** The points of the four signals, before the cap. *)
Definition signalPoints (e : Env) (uid : UserId) (td : PaymentService.TransactionData)
    (user : User.t) (txs : list Transaction.t) : Z :=
  30 * Z.b2z (PaymentService.velocity_signal e uid txs)
  + 25 * Z.b2z (PaymentService.amount_signal uid td txs)
  + 40 * Z.b2z (PaymentService.new_account_signal e user td)
  + 20 * Z.b2z (PaymentService.location_signal user td).

(** ** Sample data *)

Module Sample.

Definition t0 : Time := 1700000000000.

Definition env0 : Env := mkEnv defaultConfig t0 "LOJ5XKZ49F3A1C07".
Definition env1 : Env := mkEnv defaultConfig (t0 + 5000) "LOJ5XP1B77E0D2A4".

(** A verified user who registered three days before [t0]. *)
Definition alice : User.t :=
  User.mkUser "alice" 5000 5000 0 0 1 User.verified [] (t0 - 3 * hours 24) false.

(** A session in play: 96 of 100 notes hit, longest combo 20, base score
    6000 with combo bonus 20 x 50 and accuracy bonus 6000 x 0.5, in all
    10000 points. *)
Definition played : Game.t :=
  Game.mkGame 7 1%nat "session-1" (Some (t0 - 120000)) None 0 Game.active
    (Game.mkGameplay 100 96 4 96 20 3)
    (Game.mkScoring 6000 1000 3000 0 10000 1)
    (Game.mkRewards 10000 10 100 0 false None) [].

(** The session once the game has ended. *)
Definition finished : Game.t := Game.completeGame env0 played.

(** A completed session of 10000 points that carries no achievement. *)
Definition plain : Game.t :=
  Game.mkGame 8 1%nat "session-2" (Some (t0 - 120000)) (Some t0) 120
    Game.completed
    (Game.mkGameplay 0 0 0 0 0 0)
    (Game.mkScoring 10000 0 0 0 10000 1)
    (Game.mkRewards 10000 10 100 0 false None) [].

Definition alreadyClaimed : Game.t := Game.set_claimed t0 plain.

Definition store_of (gs : list Game.t) (txs : list Transaction.t) : Store :=
  mkStore txs {[ 1%nat := alice ]} gs.

Definition acct : Transaction.AccountInfo :=
  Transaction.mkAccountInfo "DBS" "001-234567-8" "Alice Tan" "DBSSSGSG" None.

(** A stored, pending withdrawal: the document createWithdrawal builds for
    a request of 1000 by bank transfer, in the collection under the id
    "WDLOJ5XKZ49F3A1C07". *)
Definition w1000 : Transaction.t :=
  Transaction.save env0
    (Transaction.set_transactionId "WDLOJ5XKZ49F3A1C07"
       (Transaction.withdrawalDoc env0 1%nat 1000 Transaction.bank_transfer acct)).


(** A stored, completed game reward of 60: the document createGameReward
    builds, in the collection under the id "GRLOJ5XKZ49F3A1C07". *)
Definition reward60 : Transaction.t :=
  Transaction.save env0
    (Transaction.set_transactionId "GRLOJ5XKZ49F3A1C07"
       (Transaction.gameRewardDoc env0 1%nat 7 60 10000 90 120)).

(** A rail that refuses every transfer, and one that accepts every transfer. *)
Definition refusing : PaymentService.Rail :=
  fun _ _ => PaymentService.mkGatewayResult false None "Transfer failed" None.

Definition accepting : PaymentService.Rail :=
  fun _ _ => PaymentService.mkGatewayResult true (Some "tr_1") "" (Some "ok").

(** A ledger that holds one completed bonus of 5000 for the user. *)
Definition bonus5000 : Transaction.t :=
  Transaction.mkTransaction 1%nat "BNLOJ5XAAA00000000" Transaction.bonus 5000
    Transaction.BIGCOIN Transaction.completed "Welcome bonus"
    Transaction.defaultMetadata Transaction.defaultPayment
    Transaction.defaultVerification Transaction.defaultAudit
    (t0 - 2 * hours 24) false false.

Definition funded : Store := store_of [] [bonus5000].

(** The request of scenario D: 2000 units, from the three-day-old account. *)
Definition request2000 : PaymentService.TransactionData :=
  PaymentService.mkTransactionData Transaction.withdrawal 2000 (Some "SG").

(** A card payment of 25 USD, confirmed at once. *)
Definition intent_paid : PaymentService.PaymentIntent :=
  PaymentService.mkIntent "pi_3Nabc" PaymentService.succeeded None "{paid}".

(** A stored deposit of 25 USD that is still processing at the gateway
    under the id of the intent, and the database that holds it. *)
Definition pendingDeposit : Transaction.t :=
  Transaction.save env0
    (Transaction.mkTransaction 1%nat "DPLOJ5XKZ49F3A1C07" Transaction.deposit 25
       Transaction.USD Transaction.processing "Deposit via undefined"
       (Transaction.mkMetadata None None None None None None None
          (Some "pi_3Nabc") Transaction.defaultFees)
       (Transaction.mkPayment (Some Transaction.stripe) (Some "pi_3Nabc") None
          0 3 None)
       Transaction.defaultVerification Transaction.defaultAudit t0 true false).

Definition depositing : Store := store_of [] [bonus5000; pendingDeposit].



(** A small ledger of the sample user: three completed credits, two
    completed debits, a pending credit, and a completed credit of another
    user. *)
Definition entry (uid : UserId) (ty : Transaction.TxType) (a : Q)
    (st : Transaction.Status) : Transaction.t :=
  Transaction.mkTransaction uid "TX" ty a Transaction.BIGCOIN st "entry"
    Transaction.defaultMetadata Transaction.defaultPayment
    Transaction.defaultVerification Transaction.defaultAudit t0 false false.

Definition ledger : list Transaction.t :=
  [ entry 1%nat Transaction.deposit 100 Transaction.completed;
    entry 1%nat Transaction.game_reward 12 Transaction.completed;
    entry 1%nat Transaction.withdrawal 30 Transaction.completed;
    entry 1%nat Transaction.bonus 500 Transaction.pending;
    entry 2%nat Transaction.deposit 1000 Transaction.completed;
    entry 1%nat Transaction.fee 2 Transaction.completed;
    entry 1%nat Transaction.refund 5 Transaction.completed ].

(** A ledger on which the debits exceed the credits. *)
Definition overdrawn : list Transaction.t :=
  [ entry 1%nat Transaction.deposit 10 Transaction.completed;
    entry 1%nat Transaction.purchase 25 Transaction.completed ].

End Sample.

(** * More of the ledger and of the payment service *)

From Stdlib Require Import Qabs.
Local Open Scope Z_scope.

(** ** models/Transaction.js: processPayment *)

Module TransactionOps.

Import Transaction.

(** processStripePayment answers for a withdrawal or a deposit with what the
    provider (or its error handler) returns; for any other type it falls off
    the end of the function and returns undefined. *)
Definition processStripePayment (answer : PaymentService.GatewayResult) (d : t)
    : option PaymentService.GatewayResult :=
  match type d with
  | withdrawal | deposit => Some answer
  | _ => None
  end.

(** processEpcmPayment always answers, with a success or a failure. *)
Definition processEpcmPayment (answer : PaymentService.GatewayResult) (d : t)
    : PaymentService.GatewayResult := answer.

Definition set_gatewayTransactionId (v : option string) (d : t) : t :=
  let p := payment d in
  set_payment (mkPayment (gateway p) v (gatewayResponse p) (retryCount p)
                 (maxRetries p) (nextRetry p)) d.

(** The catch block: the transaction is marked failed and the error is
    thrown again. The stack trace kept with the log is rendered as the
    message. *)
Definition payment_threw (e : Env) (msg : string) (d : t)
    : (string + PaymentService.GatewayResult) * t :=
  (inl msg, markFailed e msg (Some msg) d).

Definition payment_answered (e : Env) (result : PaymentService.GatewayResult)
    (d : t) : (string + PaymentService.GatewayResult) * t :=
  if PaymentService.success result
  then (inr result,
        markCompleted e (PaymentService.gw_data result)
          (set_gatewayTransactionId (PaymentService.gw_transactionId result) d))
  else (inr result,
        markFailed e (PaymentService.gw_error result)
          (PaymentService.gw_data result) d).

Definition processPayment (e : Env) (answer : PaymentService.GatewayResult)
    (d : t) : (string + PaymentService.GatewayResult) * t :=
  let d1 := addLog e "payment_started" "processing"
              "Payment processing initiated" None (set_status processing d) in
  match gateway (payment d1) with
  | Some stripe =>
      match processStripePayment answer d1 with
      | Some result => payment_answered e result d1
      | None =>
          payment_threw e "Cannot read properties of undefined (reading 'success')" d1
      end
  | Some epcm => payment_answered e (processEpcmPayment answer d1) d1
  | _ => payment_threw e "Unsupported payment gateway" d1
  end.

End TransactionOps.

(** ** services/paymentService.js: the remaining operations *)

Module PaymentOps.

Import PaymentService.


(** *** The fee quote *)

Record FeeQuote := mkFeeQuote {
  q_platform : Q;
  q_payment : Q;
  q_total : Q
}.

Inductive QuoteType := quote_withdrawal | quote_deposit | quote_other.

(** calculateFees(amount, type, method); [None] is a method outside the
    three of the switch. *)
Definition calculateFees (amount : Q) (ty : QuoteType)
    (method : option Transaction.Method) : FeeQuote :=
  let platform :=
    match ty with quote_withdrawal => (amount * (2 # 100))%Q | _ => 0%Q end in
  let payment :=
    match ty with
    | quote_withdrawal =>
        match method with
        | Some Transaction.bank_transfer => 5%Q
        | Some Transaction.crypto => (amount * (1 # 100))%Q
        | Some Transaction.paypal => (amount * (25 # 1000))%Q
        | _ => 0%Q
        end
    | quote_deposit => Qmax (30 # 100) (amount * (29 # 1000))
    | quote_other => 0%Q
    end in
  mkFeeQuote platform payment (platform + payment)%Q.

(** *** Admin decisions *)

Definition pending_withdrawal (transactionId : string) (d : Transaction.t) : bool :=
  String.eqb (Transaction.transactionId d) transactionId
  && Transaction.TxType_eqb (Transaction.type d) Transaction.withdrawal
  && Transaction.Status_eqb (Transaction.status d) Transaction.pending.

Record Decision := mkDecision {
  dec_success : bool;
  dec_message : string
}.

Definition approveWithdrawal (e : Env) (answer : GatewayResult)
    (transactionId : string) (adminId : UserId) (s : Store)
    : (string + Decision) * Store :=
  match findOne (pending_withdrawal transactionId) (transactions s) with
  | None =>
      (inl "Failed to approve withdrawal: Transaction not found or already processed", s)
  | Some (i, transaction) =>
      match TransactionOps.processPayment e answer transaction with
      | (inl msg, transaction') =>
          (inl (String.append "Failed to approve withdrawal: " msg),
           set_transactions (<[i := transaction']> (transactions s)) s)
      | (inr result, transaction') =>
          let transaction'' :=
            Transaction.addLog e "admin_approval" "approved"
              "Withdrawal approved by admin" (Some "adminId") transaction' in
          (inr (mkDecision (success result)
                  (if success result then "Withdrawal approved and processed"
                   else "Withdrawal approved but processing failed")),
           set_transactions (<[i := transaction'']> (transactions s)) s)
      end
  end.

(** rejectWithdrawal: the cancellation is saved before the refund, so a
    refund that is rejected leaves the withdrawal cancelled. *)
Definition rejectWithdrawal (e : Env) (transactionId reason : string)
    (adminId : UserId) (s : Store) : (string + Decision) * Store :=
  match findOne (pending_withdrawal transactionId) (transactions s) with
  | None =>
      (inl "Failed to reject withdrawal: Transaction not found or already processed", s)
  | Some (i, transaction) =>
      let transaction' :=
        Transaction.updateStatus e Transaction.cancelled reason (Some adminId)
          transaction in
      let s1 := set_transactions (<[i := transaction']> (transactions s)) s in
      match users s1 !! Transaction.userId transaction' with
      | None =>
          (inl "Failed to reject withdrawal: Cannot read properties of null (reading 'coins')",
           s1)
      | Some user =>
          match User.save_checked
                  (refund_pending (Transaction.amount transaction') user) with
          | inl msg =>
              (inl (String.append "Failed to reject withdrawal: " msg), s1)
          | inr user' =>
              (inr (mkDecision true "Withdrawal rejected and coins refunded"),
               set_users
                 (<[Transaction.userId transaction' := user']> (users s1)) s1)
          end
      end
  end.

Record BatchEntry := mkBatchEntry {
  be_transactionId : string;
  be_success : bool;
  be_message : string
}.

Record BatchReport := mkBatchReport {
  processed : nat;
  successful : nat;
  failed : nat;
  results : list BatchEntry
}.

(** The loop of processBatchWithdrawals: [answer] is what the provider
    returns for a transaction id. *)
Fixpoint batch_loop (e : Env) (answer : string -> GatewayResult)
    (transactionIds : list string) (adminId : UserId) (s : Store)
    : list BatchEntry * Store :=
  match transactionIds with
  | [] => ([], s)
  | transactionId :: rest =>
      let (outcome, s1) :=
        approveWithdrawal e (answer transactionId) transactionId adminId s in
      let entry :=
        match outcome with
        | inr result =>
            mkBatchEntry transactionId (dec_success result) (dec_message result)
        | inl msg => mkBatchEntry transactionId false msg
        end in
      let (entries, s2) := batch_loop e answer rest adminId s1 in
      (entry :: entries, s2)
  end.

Definition processBatchWithdrawals (e : Env) (answer : string -> GatewayResult)
    (transactionIds : list string) (adminId : UserId) (s : Store)
    : BatchReport * Store :=
  let (results, s') := batch_loop e answer transactionIds adminId s in
  let successCount := length (List.filter be_success results) in
  (mkBatchReport (length results) successCount (length results - successCount)
     results, s').

End PaymentOps.

(** ** models/User.js: the account lock *)

Module UserOps.

(** The [security] sub-document, as far as the lock logic reads and writes
    it. *)
Record Security := mkSecurity {
  failedLoginAttempts : Z;
  accountLocked : bool;
  lockedUntil : option Time
}.

Definition lockAccount (e : Env) (duration : Z) (sec : Security) : Security :=
  mkSecurity (failedLoginAttempts sec) true
    (Some (Date_now e + duration * 60 * 1000)).

Definition stillLocked (e : Env) (sec : Security) : bool :=
  accountLocked sec
  && match lockedUntil sec with
     | Some until => Date_now e <? until
     | None => false
     end.

(** findByCredentials for a user that exists: [isMatch] is the verdict of
    the password comparison. The result is the thrown message, if any, and
    the security sub-document as it is left. *)
Definition findByCredentials (e : Env) (isMatch : bool) (sec : Security)
    : option string * Security :=
  if stillLocked e sec then (Some "Account is temporarily locked", sec)
  else if negb isMatch then
    let sec1 := mkSecurity (failedLoginAttempts sec + 1) (accountLocked sec)
                  (lockedUntil sec) in
    if 5 <=? failedLoginAttempts sec1
    then (Some "Account locked due to multiple failed login attempts",
          lockAccount e 30 sec1)
    else (Some "Invalid credentials", sec1)
  else if 0 <? failedLoginAttempts sec
  then (None, mkSecurity 0 (accountLocked sec) (lockedUntil sec))
  else (None, sec).

(** A run of logins with wrong passwords, one clock reading each. *)
Fixpoint wrongPasswords (es : list Env) (sec : Security) : Security :=
  match es with
  | [] => sec
  | e :: rest => wrongPasswords rest (snd (findByCredentials e false sec))
  end.

End UserOps.

(** ** routes/auth.js: the login history *)

Module AuthRoute.

(** [header || fallback] *)
Definition header_or (header : option string) (fallback : string) : string :=
  match header with
  | Some h => if Transaction.isEmpty h then fallback else h
  | None => fallback
  end.

(** The login handler after the credentials were accepted: the new entry is
    put in front and the history is cut to ten entries. (The handler also
    stamps security.lastLogin, a field outside the User record.) *)
Definition recordLogin (e : Env) (ip userAgent : string)
    (locationHeader : option string) (u : User.t) : User.t :=
  let entry := User.mkLogin ip userAgent
                 (Some (header_or locationHeader "Unknown")) (Date_now e) in
  let history := entry :: User.loginHistory u in
  let history' := if (10 <? length history)%nat then firstn 10 history
                  else history in
  User.save
    (User.mkUser (User.username u) (User.coins_total u) (User.coins_available u)
       (User.coins_pending u) (User.experience u) (User.level u)
       (User.kyc_status u) history' (User.createdAt u)
       (User.experienceModified u)).

(** The location POST /withdraw hands to the risk assessment. *)
Definition withdrawLocation (locationHeader : option string) (ip : string)
    : option string :=
  Some (header_or locationHeader ip).

End AuthRoute.

(** ** models/Game.js: playing *)

Module GamePlay.

Inductive Accuracy := perfect | good | miss.

Record Keystroke := mkKeystroke {
  key : string;
  k_timestamp : Z;
  k_accuracy : Accuracy;
  reactionTime : option Q;
  k_points : Q
}.

(** The counters and the keystroke list of a game document that stand
    beside the fields of [Game.t]. *)
Record Tally := mkTally {
  perfectHits : Z;
  goodHits : Z;
  keystrokes : list Keystroke
}.

Definition calculateKeystrokePoints (accuracy : Accuracy) (combo : Z)
    (g : Game.t) : Q :=
  let basePoints : Q :=
    (match accuracy with perfect => 100 | good => 70 | miss => 0 end)%Q in
  let comboMultiplier := Qmin (1 + inject_Z combo * (1 # 10))%Q 3%Q in
  Game.floorQ (basePoints * comboMultiplier * Game.multiplier (Game.scoring g)).

Definition set_gameplay (gp : Game.Gameplay) (g : Game.t) : Game.t :=
  Game.mkGame (Game._id g) (Game.userId g) (Game.sessionId g) (Game.startTime g)
    (Game.endTime g) (Game.duration g) (Game.status g) gp (Game.scoring g)
    (Game.rewards g) (Game.achievements g).

Definition set_scoring (sc : Game.Scoring) (g : Game.t) : Game.t :=
  Game.mkGame (Game._id g) (Game.userId g) (Game.sessionId g) (Game.startTime g)
    (Game.endTime g) (Game.duration g) (Game.status g) (Game.gameplay g) sc
    (Game.rewards g) (Game.achievements g).

Definition updateBonusScores (g : Game.t) : Game.t :=
  let gp := Game.gameplay g in
  let sc := Game.scoring g in
  let comboBonus := Game.floorQ (inject_Z (Game.maxCombo gp) * 50)%Q in
  let accuracyBonus :=
    if Qle_bool 95 (Game.accuracy gp) then Game.floorQ (Game.baseScore sc * (5 # 10))%Q
    else if Qle_bool 90 (Game.accuracy gp) then Game.floorQ (Game.baseScore sc * (3 # 10))%Q
    else if Qle_bool 80 (Game.accuracy gp) then Game.floorQ (Game.baseScore sc * (1 # 10))%Q
    else Game.accuracyBonus sc in
  let speedBonus :=
    if Qltb 5 (Game.notesPerSecond g) then Game.floorQ (Game.baseScore sc * (2 # 10))%Q
    else if Qltb 3 (Game.notesPerSecond g) then Game.floorQ (Game.baseScore sc * (1 # 10))%Q
    else Game.speedBonus sc in
  set_scoring
    (Game.mkScoring (Game.baseScore sc) comboBonus accuracyBonus speedBonus
       (Game.totalScore sc) (Game.multiplier sc)) g.

Definition count_keystroke (accuracy : Accuracy) (gp : Game.Gameplay)
    : Game.Gameplay :=
  match accuracy with
  | perfect | good =>
      Game.mkGameplay (Game.totalNotes gp + 1) (Game.correctNotes gp + 1)
        (Game.missedNotes gp) (Game.accuracy gp)
        (Z.max (Game.maxCombo gp) (Game.currentCombo gp + 1))
        (Game.currentCombo gp + 1)
  | miss =>
      Game.mkGameplay (Game.totalNotes gp + 1) (Game.correctNotes gp)
        (Game.missedNotes gp + 1) (Game.accuracy gp) (Game.maxCombo gp) 0
  end.

Definition count_hit (accuracy : Accuracy) (tl : Tally) (k : Keystroke) : Tally :=
  mkTally
    (match accuracy with perfect => perfectHits tl + 1 | _ => perfectHits tl end)
    (match accuracy with good => goodHits tl + 1 | _ => goodHits tl end)
    (keystrokes tl ++ [k]).

Definition addKeystroke (e : Env) (key : string) (accuracy : Accuracy)
    (reactionTime : option Q) (doc : Game.t * Tally)
    : string + (Game.t * Tally) :=
  let (g, tl) := doc in
  match Game.startTime g with
  | None => inl "Cannot read properties of undefined (reading 'getTime')"
  | Some start =>
      let points :=
        calculateKeystrokePoints accuracy (Game.currentCombo (Game.gameplay g)) g in
      let k := mkKeystroke key (Date_now e - start) accuracy reactionTime points in
      let g1 := set_gameplay (count_keystroke accuracy (Game.gameplay g)) g in
      let sc := Game.scoring g1 in
      let g2 := set_scoring
                  (Game.mkScoring (Game.baseScore sc + points)%Q (Game.comboBonus sc)
                     (Game.accuracyBonus sc) (Game.speedBonus sc)
                     (Game.totalScore sc) (Game.multiplier sc)) g1 in
      inr (Game.save e (updateBonusScores g2), count_hit accuracy tl k)
  end.

Definition pauseGame (e : Env) (g : Game.t) : Game.t :=
  Game.save e (Game.set_session Game.paused (Game.endTime g) g).

Definition resumeGame (e : Env) (g : Game.t) : Game.t :=
  Game.save e (Game.set_session Game.active (Game.endTime g) g).

Definition abandonGame (e : Env) (g : Game.t) : Game.t :=
  Game.save e (Game.set_session Game.abandoned (Some (Date_now e)) g).

End GamePlay.

(** ** services/gameService.js: the session operations *)

Module GameServiceOps.

Definition by_sessionId (sessionId : string) (g : Game.t) : bool :=
  String.eqb (Game.sessionId g) sessionId.

Definition pauseGame (e : Env) (sessionId : string) (s : Store)
    : option string * Store :=
  match findOne (by_sessionId sessionId) (games s) with
  | Some (i, game) =>
      if Game.SessionStatus_eqb (Game.status game) Game.active
      then (None, set_games (<[i := GamePlay.pauseGame e game]> (games s)) s)
      else (Some "Failed to pause game: Game session not found or not active", s)
  | None => (Some "Failed to pause game: Game session not found or not active", s)
  end.

Definition resumeGame (e : Env) (sessionId : string) (s : Store)
    : option string * Store :=
  match findOne (by_sessionId sessionId) (games s) with
  | Some (i, game) =>
      if Game.SessionStatus_eqb (Game.status game) Game.paused
      then (None, set_games (<[i := GamePlay.resumeGame e game]> (games s)) s)
      else (Some "Failed to resume game: Game session not found or not paused", s)
  | None => (Some "Failed to resume game: Game session not found or not paused", s)
  end.

Definition abandonGame (e : Env) (sessionId : string) (s : Store)
    : option string * Store :=
  match findOne (by_sessionId sessionId) (games s) with
  | Some (i, game) =>
      (None, set_games (<[i := GamePlay.abandonGame e game]> (games s)) s)
  | None => (Some "Failed to abandon game: Game session not found", s)
  end.

(** cleanupExpiredSessions: an updateMany, which runs no save hook. *)
Definition expired (e : Env) (g : Game.t) : bool :=
  Game.SessionStatus_eqb (Game.status g) Game.active
  && match Game.startTime g with
     | Some start => start <? Date_now e - 30 * 60 * 1000
     | None => false
     end.

Definition cleanupExpiredSessions (e : Env) (s : Store) : nat * Store :=
  (length (List.filter (expired e) (games s)),
   set_games
     (map (fun g => if expired e g
                    then Game.set_session Game.abandoned (Some (Date_now e)) g
                    else g) (games s)) s).

End GameServiceOps.

(** ** routes/payment.js: GET /balance *)

Module BalanceRoute.





End BalanceRoute.

(** ** Vocabulary of the further statements *)

(** A document saved once per clock reading. *)
Fixpoint saves (es : list Env) (d : Transaction.t) : Transaction.t :=
  match es with
  | [] => d
  | e :: rest => saves rest (Transaction.save e d)
  end.

(** A transaction that fails once per clock reading. *)
Fixpoint failures (es : list Env) (reason : string) (d : Transaction.t)
    : Transaction.t :=
  match es with
  | [] => d
  | e :: rest => failures rest reason (Transaction.markFailed e reason None d)
  end.

Module SampleMore.

(** A stored withdrawal: the document createWithdrawal builds for a request
    of 2000 by bank transfer (amount 1900), in the collection under the id
    "WDLOJ5XKZ49F3A1C08". *)
Definition w2000 : Transaction.t :=
  Transaction.save Sample.env0
    (Transaction.set_transactionId "WDLOJ5XKZ49F3A1C08"
       (Transaction.withdrawalDoc Sample.env0 1%nat 2000 Transaction.bank_transfer
          Sample.acct)).

Definition env2 : Env := mkEnv defaultConfig (Sample.t0 + 60000) "LOJ5XQ0000000001".
Definition env3 : Env := mkEnv defaultConfig (Sample.t0 + 120000) "LOJ5XR0000000002".

End SampleMore.

Module SampleStores.

(** The sample ledger with the pending withdrawal of 1000 on it, and the
    user whose 1000 (the requested amount) are reserved. *)
Definition reserving : Store :=
  mkStore [Sample.bonus5000; Sample.w1000]
    {[ 1%nat := User.mkUser "alice" 5000 4000 1000 0 1 User.verified []
                  (Sample.t0 - 3 * hours 24) false ]}
    [].

Definition reservingUser : User.t :=
  User.mkUser "alice" 5000 4000 1000 0 1 User.verified []
    (Sample.t0 - 3 * hours 24) false.




(** The pending withdrawal of 1000 on the ledger while the wallet of the
    user shows nothing as pending. *)
Definition unreserved : Store :=
  mkStore [Sample.bonus5000; Sample.w1000] {[ 1%nat := Sample.alice ]} [].


End SampleStores.

(** The counters of a game agree with each other and with the keystroke
    list. *)
Definition tally_consistent (g : Game.t) (tl : GamePlay.Tally) : Prop :=
  let gp := Game.gameplay g in
  Game.totalNotes gp = Game.correctNotes gp + Game.missedNotes gp
  /\ Game.correctNotes gp = GamePlay.perfectHits tl + GamePlay.goodHits tl
  /\ Z.of_nat (length (GamePlay.keystrokes tl)) = Game.totalNotes gp
  /\ 0 <= Game.currentCombo gp <= Game.maxCombo gp
  /\ Game.currentCombo gp <= Game.correctNotes gp
  /\ 0 <= Game.missedNotes gp
  /\ 0 <= GamePlay.perfectHits tl /\ 0 <= GamePlay.goodHits tl.

(** The types of the achievements a session carries. *)
Definition achievement_types (g : Game.t) : list Game.AchievementType :=
  map Game.a_type (Game.achievements g).

Module SampleSessions.

(** The database with the finished, unclaimed session of the sample user. *)
Definition ended : Store := Sample.store_of [Sample.finished] [].

(** The database with the session still in play. *)
Definition playing : Store := Sample.store_of [Sample.played] [].

(** Forty minutes after the sample game was started. *)
Definition late : Env :=
  mkEnv defaultConfig (Sample.t0 + 40 * 60 * 1000) "LOJ5Y00000000003".

End SampleSessions.
(** * Properties *)

(** ** getUserBalance *)

Section Balance.

Import Transaction.

Lemma TxType_eqb_eq (a b : TxType) : TxType_eqb a b = true <-> a = b.
Proof. destruct a, b; simpl; split; intro H; try reflexivity; discriminate H. Qed.

Lemma signed_plus ty a b : (signed ty (a + b) == signed ty a + signed ty b)%Q.
Proof. unfold signed. destruct (isCredit ty), (isDebit ty); lra. Qed.

Lemma signed_groups_add ty a gs :
  (signed_groups (add_group ty a gs) == signed_groups gs + signed ty a)%Q.
Proof.
  induction gs as [|[ty' s] rest IH]; simpl.
  - unfold signed_groups; simpl. rewrite signed_plus. unfold signed.
    destruct (isCredit ty), (isDebit ty); lra.
  - destruct (TxType_eqb ty' ty) eqn:E.
    + apply TxType_eqb_eq in E. subst ty'.
      unfold signed_groups; simpl. rewrite signed_plus. lra.
    + unfold signed_groups in *; simpl. rewrite IH. lra.
Qed.

Lemma aggregate_signed_from docs gs :
  (signed_groups (fold_left (fun gs d => add_group (type d) (amount d) gs) docs gs)
   == signed_groups gs + signed_docs docs)%Q.
Proof.
  revert gs. induction docs as [|d docs IH]; intro gs; simpl.
  - unfold signed_docs; simpl. lra.
  - rewrite IH, signed_groups_add. unfold signed_docs; simpl. lra.
Qed.

Lemma balance_fold_signed gs b :
  (fold_left balance_step gs b == b + signed_groups gs)%Q.
Proof.
  revert b. induction gs as [|[ty s] rest IH]; intro b; simpl.
  - unfold signed_groups; simpl. lra.
  - rewrite IH. unfold signed_groups; simpl.
    unfold balance_step, signed, isCredit, isDebit.
    destruct ty; simpl; lra.
Qed.

Lemma signed_docs_split uid txs :
  (signed_docs (List.filter (match_completed uid) txs)
   == completed_total isCredit uid txs - completed_total isDebit uid txs)%Q.
Proof.
  unfold signed_docs, completed_total.
  induction txs as [|d txs IH]; simpl.
  - lra.
  - destruct (match_completed uid d); simpl; [|exact IH].
    unfold signed at 1.
    destruct (type d); simpl; lra.
Qed.

Lemma Qmax_compat_r (a b c : Q) : (b == c)%Q -> (Qmax a b == Qmax a c)%Q.
Proof. intro H. rewrite H. reflexivity. Qed.

Lemma getUserBalance_raw (uid : UserId) (txs : list t) :
  (getUserBalance uid txs
   == Qmax 0 (completed_total isCredit uid txs - completed_total isDebit uid txs))%Q.
Proof.
  unfold getUserBalance. apply Qmax_compat_r.
  rewrite balance_fold_signed. unfold aggregate_by_type.
  rewrite aggregate_signed_from, signed_docs_split.
  unfold signed_groups; simpl. lra.
Qed.

(** The filter and the type lists of getUserBalance against the rule of the
    specification. *)
Lemma match_completed_spec uid d : match_completed uid d = spec_completed_of uid d.
Proof. unfold match_completed, spec_completed_of. destruct (status d); reflexivity. Qed.

Lemma isCredit_spec ty : isCredit ty = spec_credit ty.
Proof. destruct ty; reflexivity. Qed.

Lemma isDebit_spec ty : isDebit ty = spec_debit ty.
Proof. destruct ty; reflexivity. Qed.

Lemma completed_total_spec sel sel' uid txs :
  (forall ty, sel ty = sel' ty) ->
  (completed_total sel uid txs == spec_total uid sel' txs)%Q.
Proof.
  intro H. unfold completed_total.
  induction txs as [|d txs IH]; simpl; [reflexivity|].
  rewrite match_completed_spec, H.
  destruct (spec_completed_of uid d && sel' (type d)); simpl; rewrite IH; lra.
Qed.

(** C1. For every user and every collection of transactions, getUserBalance
    is the total of the amounts of the user's completed transactions of type
    game_reward, deposit, bonus, referral or refund, minus the total of the
    amounts of the user's completed transactions of type withdrawal,
    penalty, fee or purchase, clamped at zero from below. *)
Theorem getUserBalance_is_clamped_credits_minus_debits :
  forall (uid : UserId) (txs : list t),
    (getUserBalance uid txs
     == Qmax 0 (spec_total uid spec_credit txs - spec_total uid spec_debit txs))%Q
    /\ (0 <= getUserBalance uid txs)%Q.
Proof.
  intros uid txs. split.
  - rewrite getUserBalance_raw. apply Qmax_compat_r.
    rewrite (completed_total_spec isCredit spec_credit uid txs isCredit_spec).
    rewrite (completed_total_spec isDebit spec_debit uid txs isDebit_spec).
    reflexivity.
  - unfold getUserBalance. apply Q.le_max_l.
Qed.

End Balance.

(** The balance on the sample ledgers: credits 100 + 12 + 5 against debits
    30 + 2 (the pending bonus and the other user's deposit do not count); a
    ledger whose debits exceed its credits; the other user. *)
Lemma getUserBalance_on_sample_ledgers :
  (Transaction.getUserBalance 1%nat Sample.ledger == 85)%Q
  /\ (Transaction.getUserBalance 1%nat Sample.overdrawn == 0)%Q
  /\ (Transaction.getUserBalance 2%nat Sample.ledger == 1000)%Q.
Proof.
  split; [|split].
  - eapply Qeq_trans;
      [apply (proj1 (getUserBalance_is_clamped_credits_minus_debits 1%nat Sample.ledger))|].
    vm_compute. reflexivity.
  - eapply Qeq_trans;
      [apply (proj1 (getUserBalance_is_clamped_credits_minus_debits 1%nat
                       Sample.overdrawn))|].
    vm_compute. reflexivity.
  - eapply Qeq_trans;
      [apply (proj1 (getUserBalance_is_clamped_credits_minus_debits 2%nat Sample.ledger))|].
    vm_compute. reflexivity.
Defined.

(** ** findOne *)

Section FindOne.

Context {A : Type} (p : A -> bool).

Lemma findOne_from_Some (l : list A) (k i : nat) (x : A) :
  findOne_from p l k = Some (i, x) ->
  (k <= i)%nat /\ l !! (i - k)%nat = Some x /\ p x = true.
Proof.
  revert k. induction l as [|a l IH]; intros k H; simpl in H; [discriminate|].
  destruct (p a) eqn:Pa.
  - inversion H; subst. replace (i - i)%nat with 0%nat by lia. auto.
  - apply IH in H. destruct H as (Hk & Hl & Hp).
    split; [lia|]. split; [|exact Hp].
    replace (i - k)%nat with (S (i - S k)) by lia. exact Hl.
Qed.

Lemma findOne_from_insert (l : list A) (k i : nat) (x x' : A) :
  findOne_from p l k = Some (i, x) -> p x' = true ->
  findOne_from p (<[(i - k)%nat := x']> l) k = Some (i, x').
Proof.
  revert k. induction l as [|a l IH]; intros k H Hp'; simpl in H; [discriminate|].
  destruct (p a) eqn:Pa.
  - inversion H; subst. replace (i - i)%nat with 0%nat by lia.
    simpl. rewrite Hp'. reflexivity.
  - pose proof (findOne_from_Some _ _ _ _ H) as (Hk & _ & _).
    replace (i - k)%nat with (S (i - S k)) by lia.
    simpl. rewrite Pa. apply IH; assumption.
Qed.

Lemma findOne_from_None (l : list A) (k : nat) :
  (forall x, In x l -> p x = false) -> findOne_from p l k = None.
Proof.
  revert k. induction l as [|a l IH]; intros k H; simpl; [reflexivity|].
  rewrite (H a (or_introl eq_refl)). apply IH. intros x Hx. apply H. right. exact Hx.
Qed.

Lemma findOne_Some (l : list A) (i : nat) (x : A) :
  findOne p l = Some (i, x) -> l !! i = Some x /\ p x = true.
Proof.
  intro H. apply findOne_from_Some in H. destruct H as (_ & Hl & Hp).
  rewrite Nat.sub_0_r in Hl. auto.
Qed.

Lemma findOne_insert (l : list A) (i : nat) (x x' : A) :
  findOne p l = Some (i, x) -> p x' = true ->
  findOne p (<[i := x']> l) = Some (i, x').
Proof.
  intros H Hp. pose proof (findOne_from_insert l 0 i x x' H Hp) as H'.
  rewrite Nat.sub_0_r in H'. exact H'.
Qed.

End FindOne.

(** ** Validation *)

Section Validation.

Lemma Qltb_lt (a b : Q) : Qltb a b = true <-> (a < b)%Q.
Proof.
  unfold Qltb. rewrite negb_true_iff. split.
  - intro H. apply Qnot_le_lt. intro Hle. apply Qle_bool_iff in Hle. congruence.
  - intro H. destruct (Qle_bool b a) eqn:E; [|reflexivity].
    apply Qle_bool_iff in E. exfalso. exact (Qlt_not_le _ _ H E).
Qed.

Lemma Qltb_comp (a a' b b' : Q) :
  (a == a')%Q -> (b == b')%Q -> Qltb a b = Qltb a' b'.
Proof.
  intros Ha Hb.
  destruct (Qltb a b) eqn:E1, (Qltb a' b') eqn:E2; try reflexivity.
  - apply Qltb_lt in E1. rewrite Ha, Hb in E1. apply Qltb_lt in E1. congruence.
  - apply Qltb_lt in E2. rewrite <- Ha, <- Hb in E2. apply Qltb_lt in E2. congruence.
Qed.

Lemma app_is_nil {A} (l1 l2 : list A) : l1 ++ l2 = [] <-> l1 = [] /\ l2 = [].
Proof.
  destruct l1; simpl; split.
  - intros ->. auto.
  - intros [_ H]. exact H.
  - discriminate.
  - intros [H _]. discriminate.
Qed.

Lemma check_is_nil ok v : Mongoose.check ok v = [] <-> ok = true.
Proof. destruct ok; simpl; split; congruence. Qed.

(** A user document passes validation exactly when its name is well formed,
    its three coin counters and its experience are not negative and its
    level is at least 1. *)
Lemma User_validate_nil u :
  User.validate u = [] <->
  User.validate_username (User.username u) = []
  /\ (0 <= User.coins_total u)%Q
  /\ (0 <= User.coins_available u)%Q
  /\ (0 <= User.coins_pending u)%Q
  /\ 1 <= User.level u
  /\ (0 <= User.experience u)%Q.
Proof.
  unfold User.validate.
  rewrite !app_is_nil, !check_is_nil, !Qle_bool_iff, Z.leb_le. tauto.
Qed.

Lemma User_save_checked_inr u u' :
  User.save_checked u = inr u' -> u' = User.save u /\ User.validate u = [].
Proof.
  unfold User.save_checked.
  destruct (User.validate u); [|discriminate].
  intro H. injection H as <-. auto.
Qed.

Lemma User_save_checked_ok u :
  User.validate u = [] -> User.save_checked u = inr (User.save u).
Proof. intro H. unfold User.save_checked. rewrite H. reflexivity. Qed.

Lemma User_save_checked_rejects u :
  User.validate u <> [] -> exists msg, User.save_checked u = inl msg.
Proof.
  intro H. unfold User.save_checked.
  destruct (User.validate u); [contradiction H; reflexivity|].
  eexists. reflexivity.
Qed.

Lemma validate_set_coins t a p u :
  User.validate u = [] -> (0 <= t)%Q -> (0 <= a)%Q -> (0 <= p)%Q ->
  User.validate (User.set_coins t a p u) = [].
Proof. rewrite !User_validate_nil. simpl. tauto. Qed.

(** A transaction document that passes validation has an id and an amount
    that is not negative. *)
Lemma Transaction_validate_amount d :
  Transaction.validate d = [] -> (0 <= Transaction.amount d)%Q.
Proof.
  unfold Transaction.validate. rewrite !app_is_nil, !check_is_nil.
  intros (_ & H & _). apply Qle_bool_iff. exact H.
Qed.

Lemma Transaction_validate_id d :
  Transaction.validate d = [] -> Transaction.transactionId d <> "".
Proof.
  unfold Transaction.validate. rewrite !app_is_nil, !check_is_nil.
  intros (H & _) E. rewrite E in H. discriminate H.
Qed.

(** A transaction document without an id is rejected, whatever else it
    holds. *)
Lemma Transaction_save_checked_rejects e d :
  Transaction.transactionId d = "" ->
  exists msg, Transaction.save_checked e d = inl msg.
Proof.
  intro H. unfold Transaction.save_checked, Transaction.validate. rewrite H.
  cbn [Transaction.isEmpty negb Mongoose.check app].
  eexists. reflexivity.
Qed.

Lemma createGameReward_rejects e uid gid amt sc acc pt :
  exists msg, Transaction.createGameReward e uid gid amt sc acc pt = inl msg.
Proof.
  unfold Transaction.createGameReward.
  apply Transaction_save_checked_rejects. reflexivity.
Qed.

Lemma createWithdrawal_rejects e uid a m info :
  exists msg, Transaction.createWithdrawal e uid a m info = inl msg.
Proof.
  unfold Transaction.createWithdrawal.
  apply Transaction_save_checked_rejects. reflexivity.
Qed.

End Validation.

(** ** Claiming the reward of a session *)

Section Claim.

Import GameService.

Lemma claim_query_after_claim e sid uid g :
  claim_query sid uid (Game.save e (Game.set_claimed (Date_now e) g))
  = claim_query sid uid g.
Proof. reflexivity. Qed.

Lemma claimed_after_claim e g :
  Game.claimed (Game.rewards (Game.save e (Game.set_claimed (Date_now e) g))) = true.
Proof.
  unfold Game.save, Game.preSave, Game.set_claimed; simpl.
  match goal with |- context [negb ?b] => destruct b end; reflexivity.
Qed.

End Claim.

Section Wallet.

Import User.

Lemma save_coins u :
  coins_available (save u) = coins_available u
  /\ coins_total (save u) = coins_total u
  /\ coins_pending (save u) = coins_pending u.
Proof. unfold save, preSave. destruct (experienceModified u); simpl; auto. Qed.

(** A credit that is accepted adds the amount to available and to total. *)
Lemma addCoins_coins a u u' :
  addCoins a u = inr u' ->
  coins_available u' = (coins_available u + a)%Q
  /\ coins_total u' = (coins_total u + a)%Q
  /\ coins_pending u' = coins_pending u.
Proof.
  unfold addCoins. intro H. apply User_save_checked_inr in H. destruct H as [-> _].
  destruct (save_coins (set_coins (coins_total u + a)%Q (coins_available u + a)%Q
                          (coins_pending u) u)) as (H1 & H2 & H3).
  rewrite H1, H2, H3. simpl. auto.
Qed.

(** A credit that is not negative is accepted on a valid document. *)
Lemma addCoins_accepts a u :
  validate u = [] -> (0 <= a)%Q -> exists u', addCoins a u = inr u'.
Proof.
  intros Hv Ha. unfold addCoins. eexists. apply User_save_checked_ok.
  pose proof (proj1 (User_validate_nil u) Hv) as (_ & T & A & P & _).
  apply validate_set_coins; try assumption; lra.
Qed.

Lemma set_experience_coins x u :
  coins_available (set_experience x u) = coins_available u
  /\ coins_total (set_experience x u) = coins_total u
  /\ coins_pending (set_experience x u) = coins_pending u.
Proof. unfold set_experience. destruct (Qeq_bool (experience u) x); simpl; auto. Qed.

Lemma addExperience_coins x u :
  coins_available (addExperience x u) = coins_available u
  /\ coins_total (addExperience x u) = coins_total u
  /\ coins_pending (addExperience x u) = coins_pending u.
Proof.
  unfold addExperience.
  destruct (save_coins (set_experience (experience u + x)%Q u)) as (H1 & H2 & H3).
  destruct (set_experience_coins (experience u + x)%Q u) as (E1 & E2 & E3).
  rewrite H1, H2, H3, E1, E2, E3. auto.
Qed.

End Wallet.

Section ClaimOnce.

Import GameService.

(** What Game.claimRewards hands to the service for an unclaimed session
    that passes validation: the reward, and the session marked claimed. *)
Lemma Game_claimRewards_ok e g :
  Game.claimed (Game.rewards g) = false ->
  Game.validate g = [] ->
  Game.claimRewards e g
  = inr (Game.mkRewardData
           (Game.achievement_coins (Game.achievements g)
              (Game.coins (Game.rewards g) + Game.bonusCoins (Game.rewards g))%Q)
           (Game.achievement_experience (Game.achievements g)
              (Game.experience (Game.rewards g)))
           (Game.achievements g),
         Game.save e (Game.set_claimed (Date_now e) g)).
Proof.
  intros Hc Hg. unfold Game.claimRewards, Game.save_checked. rewrite Hc.
  change (Game.validate (Game.set_claimed (Date_now e) g)) with (Game.validate g).
  rewrite Hg. reflexivity.
Qed.

(** The first claim of a completed, unclaimed session: the call fails, the
    session is marked claimed, no transaction is written, and a credit the
    user document accepted stays. *)
Lemma claimRewards_first e sid uid s i g u :
  findOne (claim_query sid uid) (games s) = Some (i, g) ->
  Game.claimed (Game.rewards g) = false ->
  Game.validate g = [] ->
  users s !! uid = Some u ->
  exists msg us,
    claimRewards e sid uid s
    = (inl (failed_to_claim msg),
       mkStore (transactions s) us
         (<[i := Game.save e (Game.set_claimed (Date_now e) g)]> (games s)))
    /\ (forall u1,
          User.addCoins
            (Game.achievement_coins (Game.achievements g)
               (Game.coins (Game.rewards g) + Game.bonusCoins (Game.rewards g))%Q) u
          = inr u1 ->
          exists u2, us !! uid = Some u2
                     /\ User.coins_available u2 = User.coins_available u1
                     /\ User.coins_total u2 = User.coins_total u1).
Proof.
  intros Hf Hc Hg Hu.
  unfold claimRewards. rewrite Hf, Hc.
  rewrite (Game_claimRewards_ok e g Hc Hg).
  cbn [users set_games games transactions Game.rd_coins Game.rd_experience]. rewrite Hu.
  destruct (User.addCoins _ u) as [m|user1] eqn:A.
  - eexists _, _. split; [reflexivity|]. intros u1 H. discriminate H.
  - destruct (User.save_checked _) as [m|user2] eqn:B.
    + eexists _, _. split; [reflexivity|].
      intros u1 H. injection H as <-. exists user1.
      split; [apply lookup_insert_eq | auto].
    + match goal with |- context [Transaction.createGameReward ?a ?b ?c ?d ?x ?y ?z] =>
        destruct (createGameReward_rejects a b c d x y z) as [m R]; rewrite R end.
      eexists _, _. split; [reflexivity|].
      intros u1 H. injection H as <-. exists user2.
      split; [apply lookup_insert_eq|].
      apply User_save_checked_inr in B. destruct B as [-> _].
      match goal with |- context [User.save ?x] =>
        destruct (save_coins x) as (S1 & S2 & _) end.
      match goal with |- context [User.set_experience ?x user1] =>
        destruct (set_experience_coins x user1) as (E1 & E2 & _) end.
      rewrite S1, S2, E1, E2. auto.
Qed.

(** C2, as the code behaves. The refusals are as claimed: a session whose
    claimed flag is set makes the claim fail with "Rewards already claimed"
    and a session that is not completed makes it fail with "Game session not
    found or not completed", the database unchanged. But the first claim of
    a completed, unclaimed session fails as well: it marks the session
    claimed and credits the wallet, and then the creation of the game_reward
    transaction is rejected. The second claim fails with "Rewards already
    claimed". Two calls in a row leave no game_reward transaction at all,
    and one wallet credit. *)
Theorem claimRewards_credits_without_a_transaction :
  forall (e1 e2 : Env) (sid : string) (uid : UserId) (s : Store),
    (forall g, Game.claimed (Game.rewards g) = true ->
       Game.claimRewards e1 g = inl "Rewards already claimed")
    /\ (forall i g,
          findOne (claim_query sid uid) (games s) = Some (i, g) ->
          Game.claimed (Game.rewards g) = true ->
          claimRewards e1 sid uid s
          = (inl (failed_to_claim "Rewards already claimed"), s))
    /\ ((forall g, In g (games s) ->
           Game.sessionId g = sid -> Game.userId g = uid ->
           Game.status g <> Game.completed) ->
        claimRewards e1 sid uid s
        = (inl (failed_to_claim "Game session not found or not completed"), s))
    /\ (forall i g u,
          findOne (claim_query sid uid) (games s) = Some (i, g) ->
          Game.claimed (Game.rewards g) = false ->
          Game.validate g = [] ->
          users s !! uid = Some u ->
          exists rd g1 msg s1,
            Game.claimRewards e1 g = inr (rd, g1)
            /\ claimRewards e1 sid uid s = (inl (failed_to_claim msg), s1)
            /\ transactions s1 = transactions s
            /\ rewardTransactions uid (transactions s1)
               = rewardTransactions uid (transactions s)
            /\ games s1 !! i = Some g1
            /\ Game.claimed (Game.rewards g1) = true
            /\ claimRewards e2 sid uid s1
               = (inl (failed_to_claim "Rewards already claimed"), s1)
            /\ (User.validate u = [] -> (0 <= Game.rd_coins rd)%Q ->
                exists u1,
                  users s1 !! uid = Some u1
                  /\ User.coins_available u1
                     = (User.coins_available u + Game.rd_coins rd)%Q
                  /\ User.coins_total u1
                     = (User.coins_total u + Game.rd_coins rd)%Q)).
Proof.
  intros e1 e2 sid uid s. split; [|split; [|split]].
  - intros g Hc. unfold Game.claimRewards. rewrite Hc. reflexivity.
  - intros i g Hf Hc. unfold claimRewards. rewrite Hf, Hc. reflexivity.
  - intros Hall. unfold claimRewards, findOne.
    rewrite findOne_from_None; [reflexivity|].
    intros g Hin. unfold claim_query.
    destruct (String.eqb (Game.sessionId g) sid) eqn:E1; [|reflexivity].
    destruct (Nat.eqb (Game.userId g) uid) eqn:E2; [|reflexivity].
    apply String.eqb_eq in E1. apply Nat.eqb_eq in E2.
    specialize (Hall g Hin E1 E2). simpl.
    destruct (Game.status g); try reflexivity. contradiction Hall; reflexivity.
  - intros i g u Hf Hc Hg Hu.
    destruct (claimRewards_first e1 sid uid s i g u Hf Hc Hg Hu) as (msg & us & H1 & H2).
    destruct (findOne_Some _ _ _ _ Hf) as (Hi & Hq).
    eexists _, (Game.save e1 (Game.set_claimed (Date_now e1) g)), msg, _.
    split; [apply (Game_claimRewards_ok e1 g Hc Hg)|].
    split; [exact H1|].
    split; [reflexivity|]. split; [reflexivity|].
    split.
    { cbn [games]. apply list_lookup_insert_eq. apply lookup_lt_Some in Hi. exact Hi. }
    split; [apply claimed_after_claim|].
    split.
    { unfold claimRewards. cbn [games].
      rewrite (findOne_insert _ _ _ _ (Game.save e1 (Game.set_claimed (Date_now e1) g)) Hf)
        by (rewrite claim_query_after_claim; exact Hq).
      rewrite claimed_after_claim. reflexivity. }
    intros Hv Hpos. cbn [Game.rd_coins] in *.
    destruct (addCoins_accepts _ u Hv Hpos) as [u1 A].
    destruct (H2 u1 A) as (u2 & L & C1 & C2).
    destruct (addCoins_coins _ _ _ A) as (A1 & A2 & _).
    exists u2. split; [exact L|]. rewrite C1, C2, A1, A2. auto.
Qed.

End ClaimOnce.

(** The statement on sample sessions: one already claimed, one still being
    played, and one completed and unclaimed, whose first claim credits the
    wallet with 10 coins and fails on the missing transactionId. *)
Lemma claimRewards_credits_without_a_transaction_sample :
  GameService.claimRewards Sample.env0 "session-2" 1%nat
    (Sample.store_of [Sample.alreadyClaimed] [])
  = (inl (GameService.failed_to_claim "Rewards already claimed"),
     Sample.store_of [Sample.alreadyClaimed] [])
  /\ GameService.claimRewards Sample.env0 "session-1" 1%nat
       (Sample.store_of [Sample.played] [])
     = (inl (GameService.failed_to_claim "Game session not found or not completed"),
        Sample.store_of [Sample.played] [])
  /\ fst (GameService.claimRewards Sample.env0 "session-2" 1%nat
            (Sample.store_of [Sample.plain] []))
     = inl "Failed to claim rewards: Transaction validation failed: transactionId: Path `transactionId` is required."
  /\ (exists rd g1 msg s1 u1,
        Game.claimRewards Sample.env0 Sample.plain = inr (rd, g1)
        /\ GameService.claimRewards Sample.env0 "session-2" 1%nat
             (Sample.store_of [Sample.plain] [])
           = (inl (GameService.failed_to_claim msg), s1)
        /\ transactions s1 = []
        /\ rewardTransactions 1%nat (transactions s1) = []
        /\ Game.claimed (Game.rewards g1) = true
        /\ GameService.claimRewards Sample.env1 "session-2" 1%nat s1
           = (inl (GameService.failed_to_claim "Rewards already claimed"), s1)
        /\ users s1 !! 1%nat = Some u1
        /\ User.coins_available u1 = (5000 + Game.rd_coins rd)%Q
        /\ (Game.rd_coins rd == 10)%Q).
Proof.
  split; [|split; [|split]].
  - apply (proj1 (proj2 (claimRewards_credits_without_a_transaction Sample.env0
                           Sample.env1 "session-2" 1%nat
                           (Sample.store_of [Sample.alreadyClaimed] [])))
             0%nat Sample.alreadyClaimed); reflexivity.
  - apply (proj1 (proj2 (proj2 (claimRewards_credits_without_a_transaction Sample.env0
                                  Sample.env1 "session-1" 1%nat
                                  (Sample.store_of [Sample.played] []))))).
    intros g [<-|[]] _ _. discriminate.
  - vm_compute. reflexivity.
  - destruct (proj2 (proj2 (proj2 (claimRewards_credits_without_a_transaction
                                     Sample.env0 Sample.env1 "session-2" 1%nat
                                     (Sample.store_of [Sample.plain] []))))
                0%nat Sample.plain Sample.alice eq_refl eq_refl eq_refl eq_refl)
      as (rd & g1 & msg & s1 & H1 & H2 & H3 & H4 & _ & H6 & H7 & H8).
    assert (Hrd : Game.rd_coins rd = 10%Q).
    { rewrite (Game_claimRewards_ok Sample.env0 Sample.plain eq_refl eq_refl) in H1.
      injection H1 as <- _. reflexivity. }
    destruct H8 as (u1 & L & A & _);
      [vm_compute; reflexivity | rewrite Hrd; discriminate |].
    exists rd, g1, msg, s1, u1.
    split; [exact H1|]. split; [exact H2|]. split; [exact H3|]. split; [exact H4|].
    split; [exact H6|]. split; [exact H7|]. split; [exact L|]. split; [exact A|].
    rewrite Hrd. reflexivity.
Defined.

(** ** The reward of a session *)

Section Reward.

Lemma save_establishes_rewards e g :
  Qeq_bool (Game.totalScore (Game.scoring g))
    (Game.baseScore (Game.scoring g) + Game.comboBonus (Game.scoring g)
     + Game.accuracyBonus (Game.scoring g) + Game.speedBonus (Game.scoring g))
  = false ->
  rewards_follow_score e (Game.save e g).
Proof.
  intro H. unfold rewards_follow_score, Game.save, Game.preSave.
  rewrite H. simpl. split; reflexivity.
Qed.

Lemma save_keeps_rewards e g :
  rewards_follow_score e g -> rewards_follow_score e (Game.save e g).
Proof.
  intros [Hc Hx].
  destruct (Qeq_bool (Game.totalScore (Game.scoring g))
              (Game.baseScore (Game.scoring g) + Game.comboBonus (Game.scoring g)
               + Game.accuracyBonus (Game.scoring g) + Game.speedBonus (Game.scoring g)))
    eqn:E.
  - unfold rewards_follow_score, Game.save, Game.preSave. rewrite E. simpl.
    split; assumption.
  - apply save_establishes_rewards. exact E.
Qed.

Lemma unlock_if_scoring c e ty d x y g :
  Game.scoring (Game.unlock_if c e ty d x y g) = Game.scoring g
  /\ Game.rewards (Game.unlock_if c e ty d x y g) = Game.rewards g.
Proof.
  unfold Game.unlock_if.
  destruct (c && negb (Game.has_achievement ty g)); simpl; auto.
Qed.

Lemma checkAchievements_scoring e g :
  Game.scoring (Game.checkAchievements e g) = Game.scoring g
  /\ Game.rewards (Game.checkAchievements e g) = Game.rewards g.
Proof.
  unfold Game.checkAchievements.
  repeat match goal with
  | |- context [Game.scoring (Game.unlock_if ?c ?e ?ty ?d ?x ?y ?g)] =>
      destruct (unlock_if_scoring c e ty d x y g) as [-> ->]
  end. auto.
Qed.

Lemma has_achievement_unlock_if c e ty' d x y ty g :
  Game.has_achievement ty g = true ->
  Game.has_achievement ty (Game.unlock_if c e ty' d x y g) = true.
Proof.
  intro H. unfold Game.unlock_if.
  destruct (c && negb (Game.has_achievement ty' g)); [|exact H].
  unfold Game.has_achievement, Game.push_achievement in *. simpl.
  rewrite existsb_app, H. reflexivity.
Qed.

(** Ending a game in which a note was played unlocks first_game, whose
    bonus is 50 coins. *)
Lemma completeGame_unlocks_first_game e g :
  0 < Game.totalNotes (Game.gameplay g) ->
  Game.has_achievement Game.first_game (Game.completeGame e g) = true.
Proof.
  intro H. unfold Game.completeGame, Game.save, Game.preSave.
  unfold Game.has_achievement at 1. simpl.
  change (Game.has_achievement Game.first_game
            (Game.checkAchievements e
               (Game.set_session Game.completed (Some (Date_now e)) g)) = true).
  unfold Game.checkAchievements.
  do 4 apply has_achievement_unlock_if.
  unfold Game.unlock_if at 1. simpl.
  apply Z.ltb_lt in H. rewrite H. simpl.
  destruct (Game.has_achievement Game.first_game
              (Game.set_session Game.completed (Some (Date_now e)) g)) eqn:E;
    simpl; [exact E|].
  unfold Game.has_achievement, Game.push_achievement. simpl.
  rewrite existsb_app. simpl. apply orb_true_r.
Qed.

Lemma achievement_coins_sum l start :
  (Game.achievement_coins l start == start + achievementCoins l)%Q.
Proof.
  unfold Game.achievement_coins, achievementCoins.
  revert start. induction l as [|a l IH]; intro start; simpl; [lra|].
  rewrite IH. lra.
Qed.

Lemma achievement_experience_sum l start :
  (Game.achievement_experience l start == start + achievementExperience l)%Q.
Proof.
  unfold Game.achievement_experience, achievementExperience.
  revert start. induction l as [|a l IH]; intro start; simpl; [lra|].
  rewrite IH. lra.
Qed.

Lemma floorQ_comp (a b : Q) : (a == b)%Q -> Game.floorQ a = Game.floorQ b.
Proof. intro H. unfold Game.floorQ. rewrite (Qfloor_comp _ _ H). reflexivity. Qed.

End Reward.

Section Settlement.

Import GameService.

(** C3, as the code behaves. The reward figures are as claimed: the pre-save
    hook sets coins to floor(totalScore x coinPerPoint) (0.001 unless
    configured) and experience to floor(totalScore / 100), and claiming pays
    these plus the session's bonus coins plus the fixed bonus of every
    unlocked achievement; a session of 10000 points has coins 10 and
    experience 100. But settling does not move the ledger: the wallet of the
    user is credited and then the creation of the game_reward transaction is
    rejected, so the call fails, no transaction is written and the ledger
    balance stays what it was. *)
Theorem settlement_credits_the_wallet_not_the_ledger :
  forall (e : Env) (sid : string) (uid : UserId) (s : Store)
         (i : nat) (g : Game.t) (u : User.t),
    findOne (claim_query sid uid) (games s) = Some (i, g) ->
    Game.claimed (Game.rewards g) = false ->
    Game.validate g = [] ->
    users s !! uid = Some u ->
    rewards_follow_score e g ->
    (forall g0,
       Qeq_bool (Game.totalScore (Game.scoring g0))
         (Game.baseScore (Game.scoring g0) + Game.comboBonus (Game.scoring g0)
          + Game.accuracyBonus (Game.scoring g0) + Game.speedBonus (Game.scoring g0))
       = false ->
       rewards_follow_score e (Game.save e g0))
    /\ exists rd g1 msg s1,
         Game.claimRewards e g = inr (rd, g1)
         /\ (Game.rd_coins rd
             == Game.floorQ (Game.totalScore (Game.scoring g) * Game.coinPerPoint e)
                + Game.bonusCoins (Game.rewards g)
                + achievementCoins (Game.achievements g))%Q
         /\ (Game.rd_experience rd
             == Game.floorQ (Game.totalScore (Game.scoring g) / 100)
                + achievementExperience (Game.achievements g))%Q
         /\ claimRewards e sid uid s = (inl (failed_to_claim msg), s1)
         /\ transactions s1 = transactions s
         /\ Transaction.getUserBalance uid (transactions s1)
            = Transaction.getUserBalance uid (transactions s)
         /\ (User.validate u = [] -> (0 <= Game.rd_coins rd)%Q ->
             exists u1,
               users s1 !! uid = Some u1
               /\ User.coins_available u1
                  = (User.coins_available u + Game.rd_coins rd)%Q)
         /\ ((Game.totalScore (Game.scoring g) == 10000)%Q ->
             COIN_PER_POINT (env e) = None ->
             (Game.coins (Game.rewards g) == 10)%Q
             /\ (Game.experience (Game.rewards g) == 100)%Q
             /\ (Game.achievements g = [] ->
                 (Game.bonusCoins (Game.rewards g) == 0)%Q ->
                 (Game.rd_coins rd == 10)%Q
                 /\ (Game.rd_experience rd == 100)%Q)).
Proof.
  intros e sid uid s i g u Hf Hc Hg Hu [Hcoins Hexp].
  split; [intros g0 H0; apply save_establishes_rewards; exact H0|].
  pose proof (Game_claimRewards_ok e g Hc Hg) as R.
  set (rd := Game.mkRewardData
               (Game.achievement_coins (Game.achievements g)
                  (Game.coins (Game.rewards g) + Game.bonusCoins (Game.rewards g))%Q)
               (Game.achievement_experience (Game.achievements g)
                  (Game.experience (Game.rewards g)))
               (Game.achievements g)) in *.
  assert (Rc : Game.rd_coins rd
               = Game.achievement_coins (Game.achievements g)
                   (Game.coins (Game.rewards g) + Game.bonusCoins (Game.rewards g))%Q)
    by reflexivity.
  assert (Rx : Game.rd_experience rd
               = Game.achievement_experience (Game.achievements g)
                   (Game.experience (Game.rewards g)))
    by reflexivity.
  destruct (claimRewards_first e sid uid s i g u Hf Hc Hg Hu) as (msg & us & H1 & H2).
  assert (Ec : (Game.rd_coins rd
                == Game.floorQ (Game.totalScore (Game.scoring g) * Game.coinPerPoint e)
                   + Game.bonusCoins (Game.rewards g)
                   + achievementCoins (Game.achievements g))%Q).
  { rewrite Rc, achievement_coins_sum, Hcoins. reflexivity. }
  assert (Ex : (Game.rd_experience rd
                == Game.floorQ (Game.totalScore (Game.scoring g) / 100)
                   + achievementExperience (Game.achievements g))%Q).
  { rewrite Rx, achievement_experience_sum, Hexp. reflexivity. }
  eexists rd, _, msg, _.
  split; [exact R|]. split; [exact Ec|]. split; [exact Ex|].
  split; [exact H1|]. split; [reflexivity|]. split; [reflexivity|].
  split.
  { intros Hv Hpos. rewrite Rc in Hpos.
    destruct (addCoins_accepts _ u Hv Hpos) as [u1 A].
    destruct (H2 u1 A) as (u2 & L & C1 & _).
    destruct (addCoins_coins _ _ _ A) as (A1 & _).
    exists u2. split; [exact L|]. rewrite C1, A1, Rc. reflexivity. }
  intros Hts Hcfg.
  assert (F1 : Game.floorQ (Game.totalScore (Game.scoring g) * Game.coinPerPoint e)
               = Game.floorQ 10).
  { apply floorQ_comp. unfold Game.coinPerPoint. rewrite Hcfg. simpl. rewrite Hts.
    reflexivity. }
  assert (F2 : Game.floorQ (Game.totalScore (Game.scoring g) / 100)
               = Game.floorQ 100).
  { apply floorQ_comp. rewrite Hts. reflexivity. }
  split; [rewrite Hcoins, F1; reflexivity|].
  split; [rewrite Hexp, F2; reflexivity|].
  intros Ha Hb. split.
  - rewrite Ec, F1, Ha, Hb. reflexivity.
  - rewrite Ex, F2, Ha. reflexivity.
Qed.

End Settlement.

(** The statement on the sample session of 10000 points without
    achievements: the reward is 10 coins and 100 experience, the wallet goes
    from 5000 to 5010, and the ledger balance is 0 before and after, not 10
    higher. *)
Lemma settlement_credits_the_wallet_not_the_ledger_sample :
  exists rd g1 msg s1 u1,
    Game.claimRewards Sample.env0 Sample.plain = inr (rd, g1)
    /\ (Game.rd_coins rd == 10)%Q
    /\ (Game.rd_experience rd == 100)%Q
    /\ GameService.claimRewards Sample.env0 "session-2" 1%nat
         (Sample.store_of [Sample.plain] [])
       = (inl (GameService.failed_to_claim msg), s1)
    /\ transactions s1 = []
    /\ (Transaction.getUserBalance 1%nat (transactions s1)
        - Transaction.getUserBalance 1%nat [] == 0)%Q
    /\ ~ (Transaction.getUserBalance 1%nat (transactions s1)
          - Transaction.getUserBalance 1%nat [] == 10)%Q
    /\ users s1 !! 1%nat = Some u1
    /\ (User.coins_available u1 == 5010)%Q.
Proof.
  assert (Hinv : rewards_follow_score Sample.env0 Sample.plain)
    by (split; vm_compute; reflexivity).
  destruct (settlement_credits_the_wallet_not_the_ledger Sample.env0 "session-2" 1%nat
              (Sample.store_of [Sample.plain] []) 0%nat Sample.plain Sample.alice
              eq_refl eq_refl eq_refl eq_refl Hinv)
    as (_ & rd & g1 & msg & s1 & H1 & _ & _ & H4 & H5 & H6 & H7 & H8).
  assert (Hts : (Game.totalScore (Game.scoring Sample.plain) == 10000)%Q)
    by reflexivity.
  destruct (H8 Hts eq_refl) as (_ & _ & H9).
  assert (Hb : (Game.bonusCoins (Game.rewards Sample.plain) == 0)%Q) by reflexivity.
  destruct (H9 eq_refl Hb) as (C10 & X100).
  destruct H7 as (u1 & L & A); [vm_compute; reflexivity | rewrite C10; discriminate |].
  exists rd, g1, msg, s1, u1.
  split; [exact H1|]. split; [exact C10|]. split; [exact X100|].
  split; [exact H4|]. split; [exact H5|].
  split; [rewrite H6; cbn [transactions Sample.store_of]; lra|].
  split; [rewrite H6; cbn [transactions Sample.store_of]; lra|].
  split; [exact L|].
  rewrite A, C10. reflexivity.
Defined.

(** ** What saving a transaction keeps *)

Section TransactionFrame.

Import Transaction.

Lemma same_core_refl d : same_core d d.
Proof. repeat split. Qed.

Lemma same_core_trans d1 d2 d3 : same_core d1 d2 -> same_core d2 d3 -> same_core d1 d3.
Proof.
  unfold same_core. intros (A1 & A2 & A3 & A4 & A5 & A6 & A7) (B1 & B2 & B3 & B4 & B5 & B6 & B7).
  repeat split; congruence.
Qed.

Lemma hook_id_core e d : same_core d (hook_id e d).
Proof. unfold hook_id. destruct (isNew d && isEmpty (transactionId d)); repeat split. Qed.

Lemma hook_fees_core d : same_core d (hook_fees d).
Proof. repeat split. Qed.

Lemma hook_history_core e d : same_core d (hook_history e d).
Proof. unfold hook_history. destruct (statusModified d && negb (isNew d)); repeat split. Qed.

Lemma hook_risk_core d : same_core d (hook_risk d).
Proof.
  unfold hook_risk.
  destruct (TxType_eqb (type d) withdrawal && Qltb 1000 (amount d)); repeat split.
Qed.

Lemma hook_flag_core d : same_core d (hook_flag d).
Proof. unfold hook_flag. destruct (Qltb 70 (riskScore (verification d))); repeat split. Qed.

Lemma save_core e d : same_core d (save e d).
Proof.
  unfold save, preSave.
  eapply same_core_trans; [apply hook_id_core|].
  eapply same_core_trans; [apply hook_fees_core|].
  eapply same_core_trans; [apply hook_history_core|].
  eapply same_core_trans; [apply hook_risk_core|].
  eapply same_core_trans; [apply hook_flag_core|].
  repeat split.
Qed.

Lemma addLog_core e a st m data d : same_core d (addLog e a st m data d).
Proof.
  unfold addLog. eapply same_core_trans; [|apply save_core]. repeat split.
Qed.

Lemma status_set_status v d : status (set_status v d) = v.
Proof.
  unfold set_status. destruct (Status_eqb (status d) v) eqn:E; [|reflexivity].
  destruct (status d), v; simpl in E; congruence.
Qed.

Lemma updateStatus_status e v reason by_ d :
  status (updateStatus e v reason by_ d) = v.
Proof.
  unfold updateStatus.
  match goal with |- status (addLog ?e ?a ?st ?m ?x ?d') = _ =>
    destruct (addLog_core e a st m x d') as (_ & _ & _ & H & _) end.
  rewrite H. simpl. apply status_set_status.
Qed.

Lemma markCompleted_core e r d :
  status (markCompleted e r d) = completed
  /\ userId (markCompleted e r d) = userId d
  /\ type (markCompleted e r d) = type d
  /\ amount (markCompleted e r d) = amount d
  /\ gatewayTransactionId (payment (markCompleted e r d))
     = gatewayTransactionId (payment d).
Proof.
  unfold markCompleted.
  match goal with |- context [addLog ?e ?a ?st ?m ?x ?d'] =>
    destruct (addLog_core e a st m x d') as (H1 & H2 & H3 & H4 & H5 & _) end.
  rewrite H1, H2, H3, H4, H5.
  assert (S1 : forall v, status (set_status v d) = v) by (intro; apply status_set_status).
  assert (S2 : forall v, userId (set_status v d) = userId d
                         /\ type (set_status v d) = type d
                         /\ amount (set_status v d) = amount d
                         /\ payment (set_status v d) = payment d).
  { intro v. unfold set_status. destruct (Status_eqb (status d) v); repeat split. }
  destruct (S2 completed) as (U & T & A & P).
  destruct r as [r|]; simpl; rewrite ?S1, ?U, ?T, ?A, ?P; repeat split.
Qed.

End TransactionFrame.

(** ** The status history *)

Section History.

Import Transaction.

Lemma hook_id_audit e d :
  audit (hook_id e d) = audit d /\ statusModified (hook_id e d) = statusModified d
  /\ isNew (hook_id e d) = isNew d.
Proof. unfold hook_id. destruct (isNew d && isEmpty (transactionId d)); repeat split. Qed.

Lemma hook_risk_audit d : audit (hook_risk d) = audit d.
Proof.
  unfold hook_risk.
  destruct (TxType_eqb (type d) withdrawal && Qltb 1000 (amount d)); reflexivity.
Qed.

Lemma hook_flag_audit d : audit (hook_flag d) = audit d.
Proof. unfold hook_flag. destruct (Qltb 70 (riskScore (verification d))); reflexivity. Qed.

Lemma hook_history_audit e d :
  statusHistory (audit (hook_history e d)) = statusHistory (audit d) ++ hookEntries e d.
Proof.
  unfold hook_history, hookEntries, hookEntry.
  destruct (statusModified d && negb (isNew d)); simpl;
    [reflexivity | rewrite app_nil_r; reflexivity].
Qed.

Lemma save_history e d :
  statusHistory (audit (save e d)) = statusHistory (audit d) ++ hookEntries e d.
Proof.
  unfold save, preSave.
  change (statusHistory (audit (hook_flag (hook_risk (hook_history e (hook_fees (hook_id e d))))))
          = statusHistory (audit d) ++ hookEntries e d).
  rewrite hook_flag_audit, hook_risk_audit, hook_history_audit.
  destruct (hook_id_audit e d) as (A & M & N).
  destruct (hook_id_core e d) as (_ & _ & _ & S & _).
  unfold hookEntries. simpl. rewrite A, M, N, S. reflexivity.
Qed.

Lemma addLog_history e a st m data d :
  statusHistory (audit (addLog e a st m data d))
  = statusHistory (audit d) ++ hookEntries e d.
Proof. unfold addLog. rewrite save_history. reflexivity. Qed.

Lemma set_status_audit v d : audit (set_status v d) = audit d.
Proof. unfold set_status. destruct (Status_eqb (status d) v); reflexivity. Qed.

(** updateStatus records its own entry, and the hook a second one whenever
    the status of a saved document changed. *)
Lemma updateStatus_history e v reason by_ d :
  statusHistory (audit (updateStatus e v reason by_ d))
  = statusHistory (audit d)
    ++ [mkHistory (status_name (status d)) (status_name v) (Date_now e) reason by_]
    ++ hookEntries e (set_status v d).
Proof.
  unfold updateStatus. rewrite addLog_history.
  change (hookEntries e (push_history ?h ?x)) with (hookEntries e x).
  cbn [push_history set_audit audit statusHistory].
  rewrite set_status_audit, <- app_assoc. reflexivity.
Qed.

Lemma markCompleted_history e r d :
  statusHistory (audit (markCompleted e r d))
  = statusHistory (audit d) ++ hookEntries e (set_status completed d).
Proof.
  unfold markCompleted. rewrite addLog_history.
  destruct r; cbn [set_gatewayResponse set_payment audit];
    rewrite set_status_audit; reflexivity.
Qed.

Lemma markFailed_history e reason data d :
  statusHistory (audit (markFailed e reason data d))
  = statusHistory (audit d) ++ hookEntries e (set_status failed d).
Proof.
  unfold markFailed. rewrite addLog_history.
  destruct (canRetry (set_status failed d));
    cbn [schedule_retry set_payment audit];
    rewrite set_status_audit; reflexivity.
Qed.

(** No method shortens or reorders the history: what was recorded stays a
    prefix of what is recorded afterwards. *)
Lemma statusHistory_append_only e d :
  (exists l, statusHistory (audit (save e d)) = statusHistory (audit d) ++ l)
  /\ (forall a st m x,
        exists l, statusHistory (audit (addLog e a st m x d))
                  = statusHistory (audit d) ++ l)
  /\ (forall v reason by_,
        exists l, statusHistory (audit (updateStatus e v reason by_ d))
                  = statusHistory (audit d) ++ l)
  /\ (forall r, exists l, statusHistory (audit (markCompleted e r d))
                          = statusHistory (audit d) ++ l)
  /\ (forall reason x,
        exists l, statusHistory (audit (markFailed e reason x d))
                  = statusHistory (audit d) ++ l)
  /\ statusHistory (audit (snd (calculateFees e d))) = statusHistory (audit d).
Proof.
  split; [eexists; apply save_history|].
  split; [intros; eexists; apply addLog_history|].
  split; [intros; eexists; apply updateStatus_history|].
  split; [intros; eexists; apply markCompleted_history|].
  split; [intros; eexists; apply markFailed_history|].
  reflexivity.
Qed.

(** C4, as the code has it: updateStatus checks no transition table. Whatever
    the current status and whatever status is asked for, the transaction
    ends in the requested status and the change is recorded in the history. *)
Theorem updateStatus_accepts_every_change :
  forall (e : Env) (newStatus : Status) (reason : string)
         (changedBy : option UserId) (d : t),
    status (updateStatus e newStatus reason changedBy d) = newStatus
    /\ In (mkHistory (status_name (status d)) (status_name newStatus)
             (Date_now e) reason changedBy)
          (statusHistory (audit (updateStatus e newStatus reason changedBy d))).
Proof.
  intros e v reason by_ d. split.
  - apply updateStatus_status.
  - rewrite updateStatus_history. apply in_or_app. right. left. reflexivity.
Qed.

(** C4, the statement as written fails: completed -> pending is outside the
    listed transitions, yet updateStatus performs it. *)
Lemma updateStatus_reopens_a_completed_transaction :
  status Sample.reward60 = completed
  /\ spec_legal_transition completed pending = false
  /\ status (updateStatus Sample.env1 pending "reopen" None Sample.reward60) = pending
  /\ status (updateStatus Sample.env1 pending "reopen" None Sample.reward60)
     <> status Sample.reward60.
Proof. repeat split; try (vm_compute; reflexivity). vm_compute. discriminate. Qed.

(** C5 at the failing input: on a saved pending withdrawal,
    updateStatus('processing') leaves two history entries for one
    transition, the second one with origin 'unknown'; markCompleted leaves
    only the hook's entry, which names neither the origin nor who changed
    it. *)
Theorem one_transition_two_history_entries :
  statusHistory (audit Sample.w1000) = []
  /\ statusHistory
       (audit (updateStatus Sample.env1 processing "approved" (Some 9%nat) Sample.w1000))
     = [ mkHistory "pending" "processing" (Date_now Sample.env1) "approved" (Some 9%nat);
         mkHistory "unknown" "processing" (Date_now Sample.env1) "Status updated" None ]
  /\ statusHistory (audit (markCompleted Sample.env1 None Sample.w1000))
     = [ mkHistory "unknown" "completed" (Date_now Sample.env1) "Status updated" None ].
Proof. repeat split; vm_compute; reflexivity. Qed.

End History.

(** ** Fees of a withdrawal *)

Section WithdrawalFees.

Import Transaction.

Lemma hook_id_metadata e d : metadata (hook_id e d) = metadata d.
Proof. unfold hook_id. destruct (isNew d && isEmpty (transactionId d)); reflexivity. Qed.

Lemma hook_history_metadata e d : metadata (hook_history e d) = metadata d.
Proof. unfold hook_history. destruct (statusModified d && negb (isNew d)); reflexivity. Qed.

Lemma hook_risk_metadata d : metadata (hook_risk d) = metadata d.
Proof.
  unfold hook_risk.
  destruct (TxType_eqb (type d) withdrawal && Qltb 1000 (amount d)); reflexivity.
Qed.

Lemma hook_flag_metadata d : metadata (hook_flag d) = metadata d.
Proof. unfold hook_flag. destruct (Qltb 70 (riskScore (verification d))); reflexivity. Qed.

(** After a save the total is the sum of the three stored fees. *)
Lemma save_fees e d :
  fees (metadata (save e d))
  = mkFees (fees_platform (fees (metadata d))) (fees_payment (fees (metadata d)))
      (fees_withdrawal (fees (metadata d)))
      (fees_platform (fees (metadata d)) + fees_payment (fees (metadata d))
       + fees_withdrawal (fees (metadata d)))%Q.
Proof.
  unfold save, preSave.
  change (fees (metadata (hook_flag (hook_risk (hook_history e (hook_fees (hook_id e d))))))
          = mkFees (fees_platform (fees (metadata d))) (fees_payment (fees (metadata d)))
              (fees_withdrawal (fees (metadata d)))
              (fees_platform (fees (metadata d)) + fees_payment (fees (metadata d))
               + fees_withdrawal (fees (metadata d)))%Q).
  rewrite hook_flag_metadata, hook_risk_metadata, hook_history_metadata.
  unfold hook_fees. cbn [set_fees set_metadata metadata fees].
  rewrite hook_id_metadata. reflexivity.
Qed.



End WithdrawalFees.

(** ** A withdrawal that fails *)

Section FailedWithdrawal.

Import Transaction.

Lemma set_status_payment v d : payment (set_status v d) = payment d.
Proof. unfold set_status. destruct (Status_eqb (status d) v); reflexivity. Qed.

Lemma markFailed_status e reason data d :
  status (markFailed e reason data d) = failed.
Proof.
  unfold markFailed.
  match goal with |- status (addLog ?e ?a ?st ?m ?x ?d') = _ =>
    destruct (addLog_core e a st m x d') as (_ & _ & _ & H & _) end.
  rewrite H.
  destruct (canRetry (set_status failed d)); cbn [schedule_retry set_payment status];
    apply status_set_status.
Qed.

Lemma markFailed_payment e reason data d :
  payment (markFailed e reason data d)
  = if retryCount (payment d) <? maxRetries (payment d)
    then payment (schedule_retry e (set_status failed d))
    else payment d.
Proof.
  unfold markFailed.
  match goal with |- payment (addLog ?e ?a ?st ?m ?x ?d') = _ =>
    destruct (addLog_core e a st m x d') as (_ & _ & _ & _ & H & _) end.
  rewrite H. unfold canRetry, isFailed.
  rewrite status_set_status, set_status_payment. simpl.
  destruct (retryCount (payment d) <? maxRetries (payment d));
    [reflexivity | apply set_status_payment].
Qed.

(** markFailed schedules a retry while attempts remain. *)
Lemma markFailed_schedules_retry e reason data d :
  retryCount (payment d) < maxRetries (payment d) ->
  status (markFailed e reason data d) = failed
  /\ retryCount (payment (markFailed e reason data d)) = retryCount (payment d) + 1
  /\ nextRetry (payment (markFailed e reason data d))
     = Some (Date_now e + (retryCount (payment d) + 1) * minutes 30).
Proof.
  intro H. split; [apply markFailed_status|].
  rewrite markFailed_payment. apply Z.ltb_lt in H. rewrite H.
  cbn [schedule_retry set_payment payment retryCount nextRetry].
  rewrite set_status_payment. unfold minutes. split; [reflexivity|].
  f_equal. lia.
Qed.

End FailedWithdrawal.

Section Refund.

Import PaymentService.

(** C7, as the code behaves. processWithdrawal never gets as far as the
    rail: whatever the request, the call fails and leaves the database as it
    was. A request that passes the checks of the user and of the balance is
    stopped by createWithdrawal, whose document is rejected for its missing
    transactionId before any coin is reserved; so no transaction is marked
    failed, nothing is refunded and no retry is scheduled. markFailed itself
    does what is claimed on a stored transaction: while retryCount <
    maxRetries it increments retryCount and sets nextRetry = now +
    retryCount x 30 minutes, so a first failure leaves retryCount 1 and
    nextRetry = now + 30 minutes. *)
Theorem processWithdrawal_never_reaches_the_rail :
  forall (e : Env) (rail : Rail) (uid : UserId) (a : Q)
         (m : Transaction.Method) (info : Transaction.AccountInfo) (s : Store),
    (exists msg,
       processWithdrawal e rail uid a m info s = (inl (withdrawal_failed msg), s))
    /\ (forall u,
          users s !! uid = Some u ->
          User.canWithdraw e a u = true ->
          (a <= Transaction.getUserBalance uid (transactions s))%Q ->
          exists msg,
            Transaction.createWithdrawal e uid a m info = inl msg
            /\ processWithdrawal e rail uid a m info s
               = (inl (withdrawal_failed msg), s))
    /\ (forall reason data d,
          Transaction.retryCount (Transaction.payment d)
          < Transaction.maxRetries (Transaction.payment d) ->
          Transaction.status (Transaction.markFailed e reason data d)
          = Transaction.failed
          /\ Transaction.retryCount
               (Transaction.payment (Transaction.markFailed e reason data d))
             = Transaction.retryCount (Transaction.payment d) + 1
          /\ Transaction.nextRetry
               (Transaction.payment (Transaction.markFailed e reason data d))
             = Some (Date_now e
                     + (Transaction.retryCount (Transaction.payment d) + 1)
                       * minutes 30))
    /\ (forall reason data d,
          Transaction.retryCount (Transaction.payment d) = 0 ->
          0 < Transaction.maxRetries (Transaction.payment d) ->
          Transaction.retryCount
            (Transaction.payment (Transaction.markFailed e reason data d)) = 1
          /\ Transaction.nextRetry
               (Transaction.payment (Transaction.markFailed e reason data d))
             = Some (Date_now e + minutes 30)).
Proof.
  intros e rail uid a m info s.
  destruct (createWithdrawal_rejects e uid a m info) as [cmsg C].
  split.
  { unfold processWithdrawal.
    destruct (users s !! uid) as [u|]; [|eexists; reflexivity].
    destruct (negb (User.canWithdraw e a u)); [eexists; reflexivity|].
    destruct (Qltb _ a); [eexists; reflexivity|].
    rewrite C. eexists; reflexivity. }
  split.
  { intros u Hu Hcan Hb. exists cmsg. split; [exact C|].
    unfold processWithdrawal. rewrite Hu, Hcan. cbn [negb].
    destruct (Qltb (Transaction.getUserBalance uid (transactions s)) a) eqn:E.
    - apply Qltb_lt in E. exfalso. lra.
    - rewrite C. reflexivity. }
  split.
  { intros reason data d H. apply markFailed_schedules_retry. exact H. }
  intros reason data d H0 Hmax.
  destruct (markFailed_schedules_retry e reason data d) as (_ & F2 & F3); [lia|].
  rewrite F2, F3, H0. split; [reflexivity|]. f_equal; lia.
Qed.

(** The statement on the sample user asking for 1000 by bank transfer, with
    5000 coins available and a ledger balance of 5000, through a rail that
    would refuse; and markFailed on a stored withdrawal. *)
Lemma processWithdrawal_never_reaches_the_rail_sample :
  processWithdrawal Sample.env0 Sample.refusing 1%nat 1000
    Transaction.bank_transfer Sample.acct Sample.funded
  = (inl "Withdrawal failed: Transaction validation failed: transactionId: Path `transactionId` is required.",
     Sample.funded)
  /\ (exists msg,
        Transaction.createWithdrawal Sample.env0 1%nat 1000
          Transaction.bank_transfer Sample.acct = inl msg
        /\ processWithdrawal Sample.env0 Sample.refusing 1%nat 1000
             Transaction.bank_transfer Sample.acct Sample.funded
           = (inl (withdrawal_failed msg), Sample.funded))
  /\ Transaction.retryCount
       (Transaction.payment
          (Transaction.markFailed Sample.env1 "Transfer failed" None Sample.w1000)) = 1
  /\ Transaction.nextRetry
       (Transaction.payment
          (Transaction.markFailed Sample.env1 "Transfer failed" None Sample.w1000))
     = Some (Date_now Sample.env1 + minutes 30).
Proof.
  assert (Hb : (1000 <= Transaction.getUserBalance 1%nat (transactions Sample.funded))%Q)
    by (vm_compute; discriminate).
  pose proof (processWithdrawal_never_reaches_the_rail Sample.env0 Sample.refusing
                1%nat 1000 Transaction.bank_transfer Sample.acct Sample.funded)
    as (_ & H2 & _).
  pose proof (processWithdrawal_never_reaches_the_rail Sample.env1 Sample.refusing
                1%nat 1000 Transaction.bank_transfer Sample.acct Sample.funded)
    as (_ & _ & _ & H4).
  split; [vm_compute; reflexivity|].
  split; [exact (H2 Sample.alice eq_refl eq_refl Hb)|].
  apply (H4 "Transfer failed" None Sample.w1000); [reflexivity | reflexivity].
Defined.

End Refund.

(** ** Risk scoring *)

Section Risk.

Import PaymentService.

(** The four signals of the code are the four signals of the
    specification. *)
Lemma velocity_signal_spec e uid txs :
  velocity_signal e uid txs = spec_many_withdrawals e uid txs.
Proof.
  unfold velocity_signal, spec_many_withdrawals, recentWithdrawals. f_equal.
  induction txs as [|d txs IH]; [reflexivity|].
  cbn [List.filter spec_recent_withdrawals].
  destruct (Nat.eqb (Transaction.userId d) uid); cbn [andb]; [|exact IH].
  destruct (Date_now e - 24 * 60 * 60 * 1000 <=? Transaction.createdAt d) eqn:E.
  - cbn [List.filter].
    unfold hours. rewrite E.
    destruct (Transaction.type d); cbn [Transaction.TxType_eqb andb length];
      rewrite IH; reflexivity.
  - unfold hours. rewrite E. rewrite andb_false_r. exact IH.
Qed.

Lemma spec_history_filter uid ty txs :
  spec_history uid ty txs
  = (length (List.filter
               (fun d => Nat.eqb (Transaction.userId d) uid
                         && Transaction.TxType_eqb (Transaction.type d) ty) txs),
     sumQ (map Transaction.amount
             (List.filter
                (fun d => Nat.eqb (Transaction.userId d) uid
                          && Transaction.TxType_eqb (Transaction.type d) ty) txs))).
Proof.
  induction txs as [|d txs IH]; [reflexivity|].
  cbn [spec_history List.filter]. rewrite IH.
  destruct (Nat.eqb (Transaction.userId d) uid
            && Transaction.TxType_eqb (Transaction.type d) ty); reflexivity.
Qed.

Lemma amount_signal_spec uid td txs :
  amount_signal uid td txs
  = spec_unusual_amount uid (td_type td) (td_amount td) txs.
Proof.
  unfold amount_signal, averageAmount, spec_unusual_amount.
  rewrite spec_history_filter.
  destruct (List.filter _ txs) as [|d docs]; [reflexivity|].
  cbn [length]. apply Qltb_comp; [|reflexivity].
  set (n := inject_Z (Z.of_nat (S (length docs)))).
  set (t := sumQ (map Transaction.amount (d :: docs))).
  unfold Qdiv. ring.
Qed.

Lemma new_account_iff e u amount :
  spec_new_account e u amount = true
  <-> Date_now e - User.createdAt u < 7 * hours 24 /\ (500 < amount)%Q.
Proof.
  unfold spec_new_account. rewrite andb_true_iff, Z.ltb_lt, Qltb_lt. tauto.
Qed.

Lemma new_account_signal_spec e user td :
  new_account_signal e user td = spec_new_account e user (td_amount td).
Proof.
  unfold new_account_signal, spec_new_account. f_equal.
  set (diff := Date_now e - User.createdAt user).
  destruct (diff <? 7 * hours 24) eqn:E.
  - apply Qltb_lt. apply Z.ltb_lt in E.
    apply Qlt_shift_div_r; [reflexivity|].
    unfold Qlt. simpl. unfold hours in E. lia.
  - destruct (Qltb _ 7) eqn:Q; [|reflexivity].
    apply Qltb_lt in Q. apply Z.ltb_ge in E. exfalso.
    assert (P : (0 < inject_Z (1000 * 60 * 60 * 24))%Q) by reflexivity.
    apply (Qmult_lt_compat_r _ _ _ P) in Q.
    unfold Qdiv in Q. rewrite <- Qmult_assoc, (Qmult_comm (/ _)), Qmult_inv_r, Qmult_1_r in Q
      by discriminate.
    unfold Qlt in Q. simpl in Q. unfold hours in E. lia.
Qed.

Lemma location_signal_spec user td :
  location_signal user td = spec_other_location user (td_location td).
Proof.
  unfold location_signal, spec_other_location, truthy, option_string_eqb.
  destruct (User.loginHistory user) as [|last rest]; [reflexivity|].
  destruct (td_location td) as [l|]; [|reflexivity].
  f_equal.
  - destruct l; reflexivity.
  - destruct (User.location last); reflexivity.
Qed.

Lemma other_location_iff u location :
  spec_other_location u location = true
  <-> exists last rest l,
        User.loginHistory u = last :: rest
        /\ location = Some l /\ l <> "" /\ User.location last <> Some l.
Proof.
  unfold spec_other_location. split.
  - destruct (User.loginHistory u) as [|last rest]; [discriminate|].
    destruct location as [l|]; [|discriminate].
    intro H. apply andb_true_iff in H. destruct H as [H1 H2].
    exists last, rest, l. split; [reflexivity|]. split; [reflexivity|].
    split.
    + intros ->. discriminate H1.
    + destruct (User.location last) as [l'|]; [|discriminate].
      intro E. injection E as ->. rewrite String.eqb_refl in H2. discriminate H2.
  - intros (last & rest & l & -> & -> & Hl & Hd).
    apply andb_true_iff. split.
    + destruct (String.eqb l "") eqn:E; [|reflexivity].
      apply String.eqb_eq in E. contradiction.
    + destruct (User.location last) as [l'|]; [|reflexivity].
      destruct (String.eqb l' l) eqn:E; [|reflexivity].
      apply String.eqb_eq in E. subst l'. contradiction Hd; reflexivity.
Qed.

Lemma signalPoints_spec e uid td u txs :
  signalPoints e uid td u txs
  = spec_points e uid u (td_type td) (td_amount td) (td_location td) txs.
Proof.
  unfold signalPoints, spec_points.
  rewrite velocity_signal_spec, amount_signal_spec, new_account_signal_spec,
    location_signal_spec. reflexivity.
Qed.

Lemma monitor_score e uid td s u :
  users s !! uid = Some u ->
  monitorSuspiciousActivity e uid td s
  = mkAssessment (Z.min 100 (signalPoints e uid td u (transactions s)))
      (flags (monitorSuspiciousActivity e uid td s))
      (70 <? signalPoints e uid td u (transactions s))
      (50 <? signalPoints e uid td u (transactions s)).
Proof.
  intro Hu. unfold monitorSuspiciousActivity, signalPoints. rewrite Hu.
  unfold add_signal.
  destruct (velocity_signal e uid (transactions s)),
           (amount_signal uid td (transactions s)),
           (new_account_signal e u td),
           (location_signal u td); reflexivity.
Qed.

Lemma spec_points_range e uid u ty amount location txs :
  0 <= spec_points e uid u ty amount location txs <= 115.
Proof.
  unfold spec_points.
  destruct (spec_many_withdrawals e uid txs), (spec_unusual_amount uid ty amount txs),
           (spec_new_account e u amount), (spec_other_location u location);
    simpl; lia.
Qed.

(** C8, as the code has it. The score is 30 for more than three withdrawals
    of the user in the last 24 hours, plus 25 for an amount above five times
    the average of the user's transactions of the type, plus 40 for an
    account younger than 7 days with an amount above 500, plus 20 for a
    location that differs from the one of the latest login, capped at 100;
    requiresReview holds exactly when the score exceeds 70 and
    requiresApproval exactly when it exceeds 50. A request of more than 500
    from an account younger than 7 days scores at least 40; the route holds
    a request (202, nothing written) exactly when the score exceeds 70, and
    hands it to processWithdrawal otherwise. *)
Theorem risk_assessment_additive_and_thresholds :
  forall (e : Env) (rail : Rail) (uid : UserId) (td : TransactionData)
         (s : Store) (u : User.t),
    users s !! uid = Some u ->
    let a := monitorSuspiciousActivity e uid td s in
    let points := spec_points e uid u (td_type td) (td_amount td) (td_location td)
                    (transactions s) in
    riskScore a = Z.min 100 points
    /\ 0 <= riskScore a <= 100
    /\ (requiresReview a = true <-> 70 < riskScore a)
    /\ (requiresApproval a = true <-> 50 < riskScore a)
    /\ (spec_new_account e u (td_amount td) = true
        <-> Date_now e - User.createdAt u < 7 * hours 24 /\ (500 < td_amount td)%Q)
    /\ (spec_other_location u (td_location td) = true
        <-> exists last rest l,
              User.loginHistory u = last :: rest
              /\ td_location td = Some l /\ l <> "" /\ User.location last <> Some l)
    /\ (Date_now e - User.createdAt u < 7 * hours 24 ->
        (500 < td_amount td)%Q ->
        40 <= riskScore a)
    /\ (forall m info,
          td_type td = Transaction.withdrawal ->
          Qltb (Transaction.getUserBalance uid (transactions s)) (td_amount td) = false ->
          (exists k, verifyKYCForTransaction uid (td_amount td) s = inr k
                     /\ allowed k = true) ->
          PaymentRoute.withdraw_checked e rail uid (td_amount td) m info
            (td_location td) s
          = if 70 <? points
            then (PaymentRoute.status202 "Withdrawal requires manual review" (flags a), s)
            else match processWithdrawal e rail uid (td_amount td) m info s with
                 | (inl msg, s') => (PaymentRoute.status500 msg, s')
                 | (inr r, s') => (PaymentRoute.status200 r, s')
                 end).
Proof.
  intros e rail uid td s u Hu a points.
  pose proof (monitor_score e uid td s u Hu) as Hm.
  rewrite signalPoints_spec in Hm.
  pose proof (spec_points_range e uid u (td_type td) (td_amount td) (td_location td)
                (transactions s)) as Hr.
  fold a points in Hm, Hr.
  assert (Hs : riskScore a = Z.min 100 points) by (rewrite Hm; reflexivity).
  assert (Hrev : requiresReview a = (70 <? points)) by (rewrite Hm; reflexivity).
  assert (Happ : requiresApproval a = (50 <? points)) by (rewrite Hm; reflexivity).
  split; [exact Hs|]. split; [rewrite Hs; lia|].
  split; [rewrite Hrev, Hs, Z.ltb_lt; lia|].
  split; [rewrite Happ, Hs, Z.ltb_lt; lia|].
  split; [apply new_account_iff|].
  split; [apply other_location_iff|].
  split.
  - intros Hage Hamt. rewrite Hs. unfold points, spec_points.
    rewrite (proj2 (new_account_iff e u (td_amount td)) (conj Hage Hamt)).
    destruct (spec_many_withdrawals e uid (transactions s)),
             (spec_unusual_amount uid (td_type td) (td_amount td) (transactions s)),
             (spec_other_location u (td_location td)); simpl; lia.
  - intros m info Hty Hbal (k & Hk & Hal).
    unfold PaymentRoute.withdraw_checked. rewrite Hbal, Hk, Hal. cbn [negb].
    replace (mkTransactionData Transaction.withdrawal (td_amount td) (td_location td))
      with td by (destruct td; simpl in Hty; subst; reflexivity).
    fold a. rewrite Hrev.
    destruct (70 <? points); reflexivity.
Qed.

(** C8, the statement as written fails: a request of 2000 from a
    three-day-old account with no other signal scores 40, requiresReview is
    false, and the route does not hold the request: it hands it to
    processWithdrawal and relays its failure. *)
Lemma new_account_alone_is_not_held :
  Date_now Sample.env0 - User.createdAt Sample.alice = 3 * hours 24
  /\ riskScore (monitorSuspiciousActivity Sample.env0 1%nat Sample.request2000
                  Sample.funded) = 40
  /\ requiresReview (monitorSuspiciousActivity Sample.env0 1%nat Sample.request2000
                       Sample.funded) = false
  /\ PaymentRoute.withdraw_checked Sample.env0 Sample.accepting 1%nat 2000
       Transaction.bank_transfer Sample.acct (Some "SG") Sample.funded
     = (PaymentRoute.status500
          "Withdrawal failed: Transaction validation failed: transactionId: Path `transactionId` is required.",
        Sample.funded).
Proof. repeat split; vm_compute; reflexivity. Qed.

(** The risk statement on the request of scenario D. *)
Lemma risk_assessment_sample :
  riskScore (monitorSuspiciousActivity Sample.env0 1%nat Sample.request2000
               Sample.funded)
  = Z.min 100 (spec_points Sample.env0 1%nat Sample.alice Transaction.withdrawal 2000
                 (Some "SG") (transactions Sample.funded))
  /\ 40 <= riskScore (monitorSuspiciousActivity Sample.env0 1%nat Sample.request2000
                        Sample.funded).
Proof.
  pose proof (risk_assessment_additive_and_thresholds Sample.env0 Sample.accepting
                1%nat Sample.request2000 Sample.funded Sample.alice eq_refl) as H.
  cbv zeta in H. destruct H as (H1 & _ & _ & _ & _ & _ & H7 & _).
  split; [exact H1|]. apply H7.
  - vm_compute. reflexivity.
  - vm_compute. reflexivity.
Defined.

End Risk.

(** ** The success notification of the gateway *)

Section Webhook.

Import PaymentService.





(** C10, as the code behaves. The rate is 100 coins for one unit, but only
    the success notification ever credits it: for a stored deposit that is
    still processing, handlePaymentSuccess adds amount x 100 to
    coins.available and to coins.total. processDeposit never gets that far:
    whatever the gateway answers, the transaction document it builds is
    rejected for its missing transactionId, the call fails and neither a
    transaction nor a credit is written. *)
Theorem deposit_is_credited_only_by_the_notification :
  forall (e : Env) (uid : UserId) (a : Q) (currency : Transaction.Currency)
         (intent : string + PaymentIntent) (paymentIntent : PaymentIntent)
         (s : Store),
    (exists msg,
       processDeposit e intent uid a currency s = (inl (deposit_failed msg), s))
    /\ (forall i d u,
          findOne (by_gateway_id (pi_id paymentIntent)) (transactions s) = Some (i, d) ->
          Transaction.status d = Transaction.processing ->
          Transaction.type d = Transaction.deposit ->
          users s !! Transaction.userId d = Some u ->
          Transaction.validate d = [] ->
          User.validate u = [] ->
          exists u' d',
            fst (handlePaymentSuccess e paymentIntent s) = None
            /\ users (snd (handlePaymentSuccess e paymentIntent s))
                 !! Transaction.userId d = Some u'
            /\ User.coins_available u'
               = (User.coins_available u + Transaction.amount d * 100)%Q
            /\ User.coins_total u'
               = (User.coins_total u + Transaction.amount d * 100)%Q
            /\ transactions (snd (handlePaymentSuccess e paymentIntent s)) !! i
               = Some d'
            /\ Transaction.status d' = Transaction.completed).
Proof.
  intros e uid a currency intent paymentIntent s. split.
  - unfold processDeposit.
    destruct (users s !! uid) as [u|]; [|eexists; reflexivity].
    destruct intent as [msg|pi]; [eexists; reflexivity|].
    match goal with |- context [Transaction.save_checked e ?doc] =>
      destruct (Transaction_save_checked_rejects e doc eq_refl) as [m R]; rewrite R end.
    eexists; reflexivity.
  - intros i d u Hf Hs Hty Hu Hd Hv.
    pose proof (Transaction_validate_amount d Hd) as Ha.
    destruct (markCompleted_core e (Some (pi_payload paymentIntent)) d)
      as (Hst & Hid & Htype & Hamt & _).
    destruct (addCoins_accepts (Transaction.amount d * 100)%Q u Hv) as [u' A]; [lra|].
    destruct (addCoins_coins _ _ _ A) as (A1 & A2 & _).
    destruct (findOne_Some _ _ _ _ Hf) as (Hi & _).
    unfold handlePaymentSuccess. rewrite Hf, Hs. cbn [Transaction.Status_eqb].
    rewrite Htype, Hty. cbn [Transaction.TxType_eqb].
    rewrite Hid, Hamt. cbn [users set_transactions]. rewrite Hu, A.
    exists u', (Transaction.markCompleted e (Some (pi_payload paymentIntent)) d).
    split; [reflexivity|].
    split; [cbn [users set_users snd]; apply lookup_insert_eq|].
    split; [exact A1|]. split; [exact A2|].
    split; [|exact Hst].
    cbn [snd transactions set_users set_transactions].
    apply list_lookup_insert_eq. apply lookup_lt_Some in Hi. exact Hi.
Qed.

End Webhook.


(** The deposit statement on a deposit of 25 USD: processDeposit fails
    although the gateway confirmed the payment at once, and credits nothing;
    the notification for the stored processing deposit credits 2500. *)
Lemma deposit_is_credited_only_by_the_notification_sample :
  PaymentService.processDeposit Sample.env0 (inr Sample.intent_paid) 1%nat 25
    Transaction.USD Sample.funded
  = (inl "Deposit failed: Transaction validation failed: transactionId: Path `transactionId` is required.",
     Sample.funded)
  /\ (exists u' d',
        fst (PaymentService.handlePaymentSuccess Sample.env1 Sample.intent_paid
               Sample.depositing) = None
        /\ users (snd (PaymentService.handlePaymentSuccess Sample.env1
                         Sample.intent_paid Sample.depositing))
             !! Transaction.userId Sample.pendingDeposit = Some u'
        /\ User.coins_available u'
           = (User.coins_available Sample.alice
              + Transaction.amount Sample.pendingDeposit * 100)%Q
        /\ User.coins_total u'
           = (User.coins_total Sample.alice
              + Transaction.amount Sample.pendingDeposit * 100)%Q
        /\ transactions (snd (PaymentService.handlePaymentSuccess Sample.env1
                                Sample.intent_paid Sample.depositing)) !! 1%nat
           = Some d'
        /\ Transaction.status d' = Transaction.completed).
Proof.
  split; [vm_compute; reflexivity|].
  apply (proj2 (deposit_is_credited_only_by_the_notification Sample.env1 1%nat 25
                  Transaction.USD (inr Sample.intent_paid) Sample.intent_paid
                  Sample.depositing)
           1%nat Sample.pendingDeposit Sample.alice);
    vm_compute; reflexivity.
Defined.

(** * Further properties *)

(** ** Transactions *)

Section TransactionFacts.

Import Transaction.

(** The three status views split the six statuses: a transaction is
    completed, or pending (pending, processing), or failed (failed,
    cancelled, expired), and never two of them; only a failed one can be
    retried. *)
Theorem status_views_partition :
  forall d : t,
    ((isCompleted d = true /\ isPending d = false /\ isFailed d = false)
     \/ (isCompleted d = false /\ isPending d = true /\ isFailed d = false)
     \/ (isCompleted d = false /\ isPending d = false /\ isFailed d = true))
    /\ (canRetry d = true ->
        isFailed d = true /\ retryCount (payment d) < maxRetries (payment d)).
Proof.
  intro d. split.
  - unfold isCompleted, isPending, isFailed, includes.
    destruct (status d); simpl; auto 10.
  - unfold canRetry. intro H. apply andb_true_iff in H. destruct H as [H1 H2].
    split; [exact H1 | apply Z.ltb_lt; exact H2].
Qed.

Lemma status_views_partition_sample :
  isFailed (markFailed Sample.env1 "declined" None Sample.w1000) = true
  /\ retryCount (payment (markFailed Sample.env1 "declined" None Sample.w1000))
     < maxRetries (payment (markFailed Sample.env1 "declined" None Sample.w1000)).
Proof.
  apply (proj2 (status_views_partition
                  (markFailed Sample.env1 "declined" None Sample.w1000))).
  vm_compute. reflexivity.
Defined.

Lemma save_transactionId e d :
  transactionId (save e d)
  = if isNew d && isEmpty (transactionId d)
    then generateTransactionId e d else transactionId d.
Proof.
  unfold save, preSave.
  change (transactionId (hook_flag (hook_risk (hook_history e (hook_fees (hook_id e d)))))
          = if isNew d && isEmpty (transactionId d)
            then generateTransactionId e d else transactionId d).
  assert (F : forall x, transactionId (hook_flag x) = transactionId x).
  { intro x. unfold hook_flag. destruct (Qltb 70 (riskScore (verification x))); reflexivity. }
  assert (R : forall x, transactionId (hook_risk x) = transactionId x).
  { intro x. unfold hook_risk.
    destruct (TxType_eqb (type x) withdrawal && Qltb 1000 (amount x)); reflexivity. }
  assert (H : forall x, transactionId (hook_history e x) = transactionId x).
  { intro x. unfold hook_history.
    destruct (statusModified x && negb (isNew x)); reflexivity. }
  rewrite F, R, H. cbn [hook_fees set_fees set_metadata transactionId].
  unfold hook_id. destruct (isNew d && isEmpty (transactionId d)); reflexivity.
Qed.

Lemma isEmpty_false (s : string) : s <> "" -> isEmpty s = false.
Proof. destruct s; [intro H; contradiction H; reflexivity | reflexivity]. Qed.

Lemma set_status_transactionId v d :
  transactionId (set_status v d) = transactionId d /\ isNew (set_status v d) = isNew d.
Proof. unfold set_status. destruct (Status_eqb (status d) v); split; reflexivity. Qed.

(** Once a transaction has an id, nothing changes it: saving, logging, any
    status change, completion and failure all keep it; and a document that
    was saved before is never given another id. *)
Theorem transactionId_is_immutable :
  forall (e : Env) (d : t),
    transactionId d <> "" \/ isNew d = false ->
    transactionId (save e d) = transactionId d
    /\ (forall a st m x, transactionId (addLog e a st m x d) = transactionId d)
    /\ (forall v reason by_,
          transactionId (updateStatus e v reason by_ d) = transactionId d)
    /\ (forall r, transactionId (markCompleted e r d) = transactionId d)
    /\ (forall reason x, transactionId (markFailed e reason x d) = transactionId d).
Proof.
  intros e d H.
  assert (K : forall x, transactionId x = transactionId d -> isNew x = isNew d ->
                        transactionId (save e x) = transactionId d).
  { intros x Hx Hn. rewrite save_transactionId, Hx, Hn.
    destruct H as [H|H].
    - rewrite (isEmpty_false _ H), andb_false_r. reflexivity.
    - rewrite H. reflexivity. }
  destruct (set_status_transactionId completed d) as [C1 C2].
  destruct (set_status_transactionId failed d) as [F1 F2].
  split; [apply K; reflexivity|].
  split; [intros; unfold addLog; apply K; reflexivity|].
  split.
  { intros v reason by_. unfold updateStatus, addLog.
    destruct (set_status_transactionId v d) as [V1 V2].
    apply K; cbn [push_log push_history set_audit transactionId isNew]; assumption. }
  split.
  { intro r. unfold markCompleted, addLog.
    destruct r; apply K;
      cbn [push_log set_gatewayResponse set_payment set_audit transactionId isNew];
      assumption. }
  intros reason x. unfold markFailed, addLog.
  destruct (canRetry (set_status failed d)); apply K;
    cbn [push_log schedule_retry set_payment set_audit transactionId isNew];
    assumption.
Qed.

Lemma transactionId_is_immutable_sample :
  transactionId (markFailed Sample.env1 "declined" None Sample.w1000)
  = transactionId Sample.w1000.
Proof.
  apply (transactionId_is_immutable Sample.env1 Sample.w1000).
  right. reflexivity.
Defined.

(** Validation comes before the hook that would generate a transactionId. A
    new document without one is therefore rejected, whatever else it holds;
    a save that is accepted keeps the id the document came with; and the two
    static constructors, which build their document without an id, fail on
    every input. *)
Theorem no_transaction_id_is_ever_generated :
  forall (e : Env) (d : t),
    (transactionId d = "" -> exists msg, save_checked e d = inl msg)
    /\ (forall d', save_checked e d = inr d' ->
          d' = save e d
          /\ transactionId d' = transactionId d
          /\ transactionId d' <> "")
    /\ (forall uid game amt sc acc pt,
          exists msg, createGameReward e uid game amt sc acc pt = inl msg)
    /\ (forall uid game amt sc acc pt,
          (0 <= amt)%Q ->
          createGameReward e uid game amt sc acc pt
          = inl "Transaction validation failed: transactionId: Path `transactionId` is required.")
    /\ (forall uid amt m info,
          exists msg, createWithdrawal e uid amt m info = inl msg).
Proof.
  intros e d.
  split; [apply Transaction_save_checked_rejects|].
  split.
  { intros d' H. unfold save_checked in H.
    destruct (validate d) eqn:V; [|discriminate H].
    injection H as <-.
    pose proof (Transaction_validate_id d V) as Hid.
    assert (K : transactionId (save e d) = transactionId d).
    { rewrite save_transactionId, (isEmpty_false _ Hid), andb_false_r. reflexivity. }
    split; [reflexivity|]. split; [exact K|]. rewrite K. exact Hid. }
  split; [intros; apply createGameReward_rejects|].
  split; [|intros; apply createWithdrawal_rejects].
  intros uid game amt sc acc pt Ha. apply Qle_bool_iff in Ha.
  unfold createGameReward, save_checked, validate.
  change (amount (gameRewardDoc e uid game amt sc acc pt)) with amt.
  rewrite Ha. reflexivity.
Qed.

Lemma no_transaction_id_is_ever_generated_sample :
  createGameReward Sample.env0 1%nat 7 60 10000 90 120
  = inl "Transaction validation failed: transactionId: Path `transactionId` is required."
  /\ (exists msg,
        save_checked Sample.env0
          (withdrawalDoc Sample.env0 1%nat 1000 bank_transfer Sample.acct) = inl msg)
  /\ transactionId (save Sample.env1 Sample.w1000) = transactionId Sample.w1000.
Proof.
  split; [|split].
  - apply (proj1 (proj2 (proj2 (proj2 (no_transaction_id_is_ever_generated Sample.env0
                                         Sample.w1000))))).
    discriminate.
  - apply (proj1 (no_transaction_id_is_ever_generated Sample.env0
                    (withdrawalDoc Sample.env0 1%nat 1000 bank_transfer Sample.acct))).
    reflexivity.
  - apply (proj1 (proj2 (no_transaction_id_is_ever_generated Sample.env1 Sample.w1000))
             (save Sample.env1 Sample.w1000)).
    reflexivity.
Defined.

Lemma save_fees_consistent e d :
  fees_total (fees (metadata (save e d)))
  = (fees_platform (fees (metadata (save e d)))
     + fees_payment (fees (metadata (save e d)))
     + fees_withdrawal (fees (metadata (save e d))))%Q.
Proof. rewrite save_fees. reflexivity. Qed.

(** After every save, and so after every method that saves, fees.total is
    the sum of the platform, payment and withdrawal fees, whatever total was
    stored before; calculateFees returns fees with the same property. *)
Theorem fees_total_is_the_sum_after_save :
  forall (e : Env) (d : t),
    let consistent (x : t) :=
      fees_total (fees (metadata x))
      = (fees_platform (fees (metadata x)) + fees_payment (fees (metadata x))
         + fees_withdrawal (fees (metadata x)))%Q in
    consistent (save e d)
    /\ (forall a st m x, consistent (addLog e a st m x d))
    /\ (forall v reason by_, consistent (updateStatus e v reason by_ d))
    /\ (forall r, consistent (markCompleted e r d))
    /\ (forall reason x, consistent (markFailed e reason x d))
    /\ consistent (snd (calculateFees e d)).
Proof.
  intros e d consistent. unfold consistent.
  split; [apply save_fees_consistent|].
  split; [intros; apply save_fees_consistent|].
  split; [intros; apply save_fees_consistent|].
  split; [intros; apply save_fees_consistent|].
  split; [intros; apply save_fees_consistent|].
  reflexivity.
Qed.

End TransactionFacts.

(** ** The risk block of a transaction *)

Section RiskBlock.

Import Transaction.

Lemma hook_id_verification e d : verification (hook_id e d) = verification d.
Proof. unfold hook_id. destruct (isNew d && isEmpty (transactionId d)); reflexivity. Qed.

Lemma hook_history_verification e d : verification (hook_history e d) = verification d.
Proof. unfold hook_history. destruct (statusModified d && negb (isNew d)); reflexivity. Qed.

(** The verification block after a save, in terms of the one before. *)
Lemma save_verification e d :
  let large := TxType_eqb (type d) withdrawal && Qltb 1000 (amount d) in
  let v := verification d in
  let score := if large then Qmin 100 (riskScore v + 30) else riskScore v in
  verification (save e d)
  = mkVerification (if large then true else required v) (kycLevel v) (verified v)
      score
      (if Qltb 70 score then true else flagged v)
      (if Qltb 70 score then Some "High risk score detected" else flagReason v).
Proof.
  intros large v score. unfold save, preSave.
  change (verification (hook_flag (hook_risk (hook_history e (hook_fees (hook_id e d)))))
          = mkVerification (if large then true else required v) (kycLevel v) (verified v)
              score
              (if Qltb 70 score then true else flagged v)
              (if Qltb 70 score then Some "High risk score detected" else flagReason v)).
  destruct (hook_id_core e d) as (_ & Ty & Am & _).
  assert (Hv : verification (hook_history e (hook_fees (hook_id e d))) = v).
  { rewrite hook_history_verification. cbn [hook_fees set_fees set_metadata verification].
    apply hook_id_verification. }
  assert (Hty : type (hook_history e (hook_fees (hook_id e d))) = type d).
  { destruct (hook_history_core e (hook_fees (hook_id e d))) as (_ & T & _).
    rewrite T. exact Ty. }
  assert (Ham : amount (hook_history e (hook_fees (hook_id e d))) = amount d).
  { destruct (hook_history_core e (hook_fees (hook_id e d))) as (_ & _ & A & _).
    rewrite A. exact Am. }
  unfold hook_flag, hook_risk. rewrite Hty, Ham, Hv.
  fold large. unfold score. destruct large; cbn [verification set_verification riskScore];
    rewrite ?Hv; fold v.
  - destruct (Qltb 70 (Qmin 100 (riskScore v + 30)));
      cbn [verification set_verification required kycLevel verified riskScore flagged flagReason];
      reflexivity.
  - destruct (Qltb 70 (riskScore v));
      cbn [verification set_verification]; rewrite ?Hv; destruct v; reflexivity.
Qed.

Lemma save_keeps_flag e d :
  flagged (verification d) = true -> flagged (verification (save e d)) = true.
Proof.
  intro H. pose proof (save_verification e d) as S. cbv zeta in S. rewrite S.
  cbn [flagged]. rewrite H.
  match goal with |- (if ?b then _ else _) = _ => destruct b end; reflexivity.
Qed.

Lemma save_flags_high_risk e d :
  Qltb 70 (riskScore (verification (save e d))) = true ->
  flagged (verification (save e d)) = true.
Proof.
  pose proof (save_verification e d) as S. cbv zeta in S. rewrite S.
  cbn [flagged riskScore]. intro H. rewrite H. reflexivity.
Qed.

(** A flag is never lifted by the document's own methods, and after a save
    every transaction whose risk score exceeds 70 is flagged and therefore
    not processable. *)
Theorem flagged_transactions_stay_flagged :
  forall (e : Env) (d : t),
    (flagged (verification d) = true ->
     flagged (verification (save e d)) = true
     /\ (forall a st m x, flagged (verification (addLog e a st m x d)) = true)
     /\ (forall v reason by_,
           flagged (verification (updateStatus e v reason by_ d)) = true)
     /\ (forall r, flagged (verification (markCompleted e r d)) = true)
     /\ (forall reason x, flagged (verification (markFailed e reason x d)) = true))
    /\ ((70 < riskScore (verification (save e d)))%Q ->
        flagged (verification (save e d)) = true
        /\ canBeProcessed (save e d) = false).
Proof.
  intros e d. split.
  - intro H.
    assert (V : forall v, verification (set_status v d) = verification d).
    { intro v. unfold set_status. destruct (Status_eqb (status d) v); reflexivity. }
    split; [apply save_keeps_flag; exact H|].
    split; [intros; unfold addLog; apply save_keeps_flag; exact H|].
    split.
    { intros v reason by_. unfold updateStatus, addLog. apply save_keeps_flag.
      cbn [push_log push_history set_audit verification]. rewrite V. exact H. }
    split.
    { intro r. unfold markCompleted, addLog. apply save_keeps_flag.
      destruct r; cbn [push_log set_gatewayResponse set_payment set_audit verification];
        rewrite V; exact H. }
    intros reason x. unfold markFailed, addLog. apply save_keeps_flag.
    destruct (canRetry (set_status failed d));
      cbn [push_log schedule_retry set_payment set_audit verification];
      rewrite V; exact H.
  - intro H. apply Qltb_lt in H.
    pose proof (save_flags_high_risk e d H) as F.
    split; [exact F|]. unfold canBeProcessed. rewrite F.
    rewrite andb_false_r. reflexivity.
Qed.

Lemma saves_core es d : same_core d (saves es d).
Proof.
  revert d. induction es as [|e es IH]; intro d; simpl; [apply same_core_refl|].
  eapply same_core_trans; [apply save_core | apply IH].
Qed.

Lemma saves_snoc l x d : saves (l ++ [x]) d = save x (saves l d).
Proof. revert d. induction l as [|a l IH]; intro d; simpl; [reflexivity | apply IH]. Qed.

Lemma Qmin_100_step (x : Q) : (Qmin 100 (Qmin 100 x + 30) == Qmin 100 (x + 30))%Q.
Proof.
  destruct (Q.min_spec 100 x) as [[H1 H2]|[H1 H2]]; rewrite H2.
  - rewrite !Q.min_l by lra. reflexivity.
  - reflexivity.
Qed.

Lemma Qmin_compat_r (a b c : Q) : (b == c)%Q -> (Qmin a b == Qmin a c)%Q.
Proof. intro H. rewrite H. reflexivity. Qed.

Lemma saves_large_withdrawal e es d :
  type d = withdrawal -> (1000 < amount d)%Q ->
  required (verification (saves (e :: es) d)) = true
  /\ (riskScore (verification (saves (e :: es) d))
      == Qmin 100 (riskScore (verification d)
                   + 30 * inject_Z (Z.of_nat (S (length es)))))%Q.
Proof.
  intros Hty Ham. revert e d Hty Ham.
  induction es as [|e' es IH]; intros e d Hty Ham.
  - simpl saves. pose proof (save_verification e d) as SV. cbv zeta in SV. rewrite SV.
    rewrite Hty. apply Qltb_lt in Ham. rewrite Ham. cbn [TxType_eqb andb required riskScore].
    split; [reflexivity|]. apply Qmin_compat_r.
    cbn [length]. change (inject_Z (Z.of_nat 1)) with 1%Q. lra.
  - change (saves (e :: e' :: es) d) with (saves (e' :: es) (save e d)).
    destruct (save_core e d) as (_ & T & A & _).
    destruct (IH e' (save e d)) as [R1 R2]; [rewrite T; exact Hty | rewrite A; exact Ham |].
    split; [exact R1|]. rewrite R2.
    pose proof (save_verification e d) as SV. cbv zeta in SV. rewrite SV.
    rewrite Hty. pose proof Ham as Ham'. apply Qltb_lt in Ham'. rewrite Ham'.
    cbn [TxType_eqb andb riskScore].
    set (r := riskScore (verification d)).
    set (n := inject_Z (Z.of_nat (S (length es)))).
    assert (N : (inject_Z (Z.of_nat (S (length (e' :: es)))) == n + 1)%Q).
    { unfold n. cbn [length]. rewrite !Nat2Z.inj_succ. unfold Z.succ.
      rewrite !inject_Z_plus. reflexivity. }
    rewrite N.
    destruct (Q.min_spec 100 (r + 30)) as [[H1 H2]|[H1 H2]]; rewrite H2.
    + assert (0 <= n)%Q.
      { unfold n. change 0%Q with (inject_Z 0). rewrite <- Zle_Qle. lia. }
      rewrite !Q.min_l by nra. reflexivity.
    + apply Qmin_compat_r. lra.
Qed.

(** Every save of a withdrawal whose stored amount exceeds 1000 demands
    verification and raises the stored risk score by 30, up to 100: after n
    saves the score is min(100, score + 30 n). Three saves are enough to flag
    such a withdrawal, whatever its score was, and it is then no longer
    processable. *)
Theorem large_withdrawal_risk_grows_with_every_save :
  forall (e : Env) (es : list Env) (d : t),
    type d = withdrawal -> (1000 < amount d)%Q ->
    required (verification (saves (e :: es) d)) = true
    /\ (riskScore (verification (saves (e :: es) d))
        == Qmin 100 (riskScore (verification d)
                     + 30 * inject_Z (Z.of_nat (S (length es)))))%Q
    /\ ((0 <= riskScore (verification d))%Q -> (2 <= length es)%nat ->
        flagged (verification (saves (e :: es) d)) = true
        /\ canBeProcessed (saves (e :: es) d) = false).
Proof.
  intros e es d Hty Ham.
  destruct (saves_large_withdrawal e es d Hty Ham) as [R1 R2].
  split; [exact R1|]. split; [exact R2|].
  intros Hr Hlen.
  assert (Hn : (3 <= inject_Z (Z.of_nat (S (length es))))%Q).
  { change 3%Q with (inject_Z 3). rewrite <- Zle_Qle. lia. }
  assert (Hs : (70 < riskScore (verification (saves (e :: es) d)))%Q).
  { rewrite R2. apply Q.min_glb_lt; lra. }
  assert (F : flagged (verification (saves (e :: es) d)) = true).
  { destruct (@exists_last _ (e :: es)) as (l & x & E); [discriminate|].
    rewrite E in Hs |- *. rewrite saves_snoc in Hs |- *.
    apply save_flags_high_risk. apply Qltb_lt. exact Hs. }
  split; [exact F|]. unfold canBeProcessed. rewrite F, andb_false_r. reflexivity.
Qed.

End RiskBlock.

Section RiskBlockSamples.

Import Transaction.

Lemma flagged_transactions_stay_flagged_sample :
  flagged (verification (saves [Sample.env1; SampleMore.env2; SampleMore.env3]
                           SampleMore.w2000)) = true
  /\ flagged (verification
                (markFailed SampleMore.env3 "declined" None
                   (saves [Sample.env1; SampleMore.env2] SampleMore.w2000))) = true.
Proof.
  split.
  - apply (proj2 (flagged_transactions_stay_flagged SampleMore.env3
                    (saves [Sample.env1; SampleMore.env2] SampleMore.w2000))).
    vm_compute. reflexivity.
  - apply (proj1 (flagged_transactions_stay_flagged SampleMore.env3
                    (saves [Sample.env1; SampleMore.env2] SampleMore.w2000))).
    vm_compute. reflexivity.
Defined.

Lemma large_withdrawal_risk_grows_sample :
  flagged (verification (saves [Sample.env1; SampleMore.env2; SampleMore.env3]
                           SampleMore.w2000)) = true
  /\ canBeProcessed (saves [Sample.env1; SampleMore.env2; SampleMore.env3]
                       SampleMore.w2000) = false.
Proof.
  apply (large_withdrawal_risk_grows_with_every_save Sample.env1
           [SampleMore.env2; SampleMore.env3] SampleMore.w2000).
  - reflexivity.
  - vm_compute. reflexivity.
  - vm_compute. discriminate.
  - simpl. lia.
Defined.

Lemma failures_core es reason d :
  maxRetries (payment (failures es reason d)) = maxRetries (payment d).
Proof.
  revert d. induction es as [|e es IH]; intro d; simpl; [reflexivity|].
  rewrite IH, markFailed_payment.
  destruct (retryCount (payment d) <? maxRetries (payment d)); [|reflexivity].
  cbn [schedule_retry set_payment payment maxRetries]. rewrite set_status_payment.
  reflexivity.
Qed.

Lemma markFailed_retryCount e reason x d :
  retryCount (payment d) <= maxRetries (payment d) ->
  retryCount (payment (markFailed e reason x d))
  = Z.min (retryCount (payment d) + 1) (maxRetries (payment d))
  /\ maxRetries (payment (markFailed e reason x d)) = maxRetries (payment d).
Proof.
  intro H. rewrite markFailed_payment.
  destruct (retryCount (payment d) <? maxRetries (payment d)) eqn:E.
  - apply Z.ltb_lt in E.
    cbn [schedule_retry set_payment payment retryCount maxRetries].
    rewrite set_status_payment. split; [lia | reflexivity].
  - apply Z.ltb_ge in E. split; [lia | reflexivity].
Qed.

(** Retries are bounded: after n failures in a row the retry counter is
    min(retryCount + n, maxRetries); it never passes maxRetries, and once it
    has reached it no further retry is offered. *)
Theorem retries_are_bounded :
  forall (es : list Env) (reason : string) (d : t),
    retryCount (payment d) <= maxRetries (payment d) ->
    retryCount (payment (failures es reason d))
    = Z.min (retryCount (payment d) + Z.of_nat (length es)) (maxRetries (payment d))
    /\ retryCount (payment (failures es reason d)) <= maxRetries (payment d)
    /\ (maxRetries (payment d) - retryCount (payment d) <= Z.of_nat (length es) ->
        canRetry (failures es reason d) = false).
Proof.
  intros es reason d H.
  assert (R : retryCount (payment (failures es reason d))
              = Z.min (retryCount (payment d) + Z.of_nat (length es))
                  (maxRetries (payment d))).
  { revert d H. induction es as [|e es IH]; intros d H.
    - simpl. lia.
    - cbn [failures length].
      destruct (markFailed_retryCount e reason None d H) as [R M].
      rewrite IH by (rewrite R, M; lia). rewrite R, M. lia. }
  split; [exact R|]. split; [rewrite R; lia|].
  intro Hn. unfold canRetry. rewrite R, failures_core.
  replace (Z.min (retryCount (payment d) + Z.of_nat (length es)) (maxRetries (payment d))
           <? maxRetries (payment d)) with false; [apply andb_false_r|].
  symmetry. apply Z.ltb_ge. lia.
Qed.

Lemma retries_are_bounded_sample :
  retryCount (payment (failures [Sample.env1; SampleMore.env2; SampleMore.env3;
                                 SampleMore.env3] "declined" Sample.w1000)) <= 3
  /\ canRetry (failures [Sample.env1; SampleMore.env2; SampleMore.env3;
                         SampleMore.env3] "declined" Sample.w1000) = false.
Proof.
  assert (H : retryCount (payment Sample.w1000) <= maxRetries (payment Sample.w1000))
    by (vm_compute; discriminate).
  destruct (retries_are_bounded
              [Sample.env1; SampleMore.env2; SampleMore.env3; SampleMore.env3]
              "declined" Sample.w1000 H) as (_ & H2 & H3).
  split; [exact H2|]. apply H3. vm_compute. discriminate.
Defined.

End RiskBlockSamples.

(** ** Payments through a gateway *)

Section GatewayPayments.

Import Transaction.

Lemma markFailed_core e reason x d :
  status (markFailed e reason x d) = failed
  /\ userId (markFailed e reason x d) = userId d
  /\ type (markFailed e reason x d) = type d
  /\ amount (markFailed e reason x d) = amount d
  /\ gatewayTransactionId (payment (markFailed e reason x d))
     = gatewayTransactionId (payment d).
Proof.
  split; [apply markFailed_status|].
  assert (P : gatewayTransactionId (payment (markFailed e reason x d))
              = gatewayTransactionId (payment d)).
  { rewrite markFailed_payment.
    destruct (retryCount (payment d) <? maxRetries (payment d)); [|reflexivity].
    cbn [schedule_retry set_payment payment gatewayTransactionId].
    rewrite set_status_payment. reflexivity. }
  assert (S2 : userId (set_status failed d) = userId d
               /\ type (set_status failed d) = type d
               /\ amount (set_status failed d) = amount d).
  { unfold set_status. destruct (Status_eqb (status d) failed); repeat split. }
  destruct S2 as (U & T & A).
  split; [|split; [|split; [|exact P]]]; unfold markFailed;
    match goal with |- context [addLog ?e ?a ?st ?m ?y ?d'] =>
      destruct (addLog_core e a st m y d') as (H1 & H2 & H3 & _) end;
    rewrite ?H1, ?H2, ?H3;
    destruct (canRetry (set_status failed d));
    cbn [schedule_retry set_payment userId type amount]; assumption.
Qed.

Lemma addLog_gateway e a st m x d :
  gateway (payment (addLog e a st m x d)) = gateway (payment d).
Proof. destruct (addLog_core e a st m x d) as (_ & _ & _ & _ & P & _). rewrite P. reflexivity. Qed.

Lemma payment_threw_outcome e msg x :
  fst (TransactionOps.payment_threw e msg x) = inl msg
  /\ status (snd (TransactionOps.payment_threw e msg x)) = failed
  /\ userId (snd (TransactionOps.payment_threw e msg x)) = userId x
  /\ type (snd (TransactionOps.payment_threw e msg x)) = type x
  /\ amount (snd (TransactionOps.payment_threw e msg x)) = amount x.
Proof.
  unfold TransactionOps.payment_threw. cbn [fst snd].
  destruct (markFailed_core e msg (Some msg) x) as (S & U & T & A & _).
  repeat split; assumption.
Qed.

Lemma payment_answered_outcome e res x :
  fst (TransactionOps.payment_answered e res x) = inr res
  /\ status (snd (TransactionOps.payment_answered e res x))
     = (if PaymentService.success res then completed else failed)
  /\ userId (snd (TransactionOps.payment_answered e res x)) = userId x
  /\ type (snd (TransactionOps.payment_answered e res x)) = type x
  /\ amount (snd (TransactionOps.payment_answered e res x)) = amount x.
Proof.
  unfold TransactionOps.payment_answered.
  destruct (PaymentService.success res); cbn [fst snd].
  - match goal with |- context [markCompleted e ?a ?y] =>
      destruct (markCompleted_core e a y) as (S & U & T & A & _) end.
    rewrite S, U, T, A. repeat split.
  - destruct (markFailed_core e (PaymentService.gw_error res)
                (PaymentService.gw_data res) x) as (S & U & T & A & _).
    repeat split; assumption.
Qed.

(** What processPayment returns, by gateway and type. *)
Lemma processPayment_outcome e answer d :
  exists d1,
    userId d1 = userId d /\ type d1 = type d /\ amount d1 = amount d
    /\ TransactionOps.processPayment e answer d
       = match gateway (payment d) with
         | Some stripe =>
             match type d with
             | withdrawal | deposit => TransactionOps.payment_answered e answer d1
             | _ => TransactionOps.payment_threw e
                      "Cannot read properties of undefined (reading 'success')" d1
             end
         | Some epcm => TransactionOps.payment_answered e answer d1
         | _ => TransactionOps.payment_threw e "Unsupported payment gateway" d1
         end.
Proof.
  exists (addLog e "payment_started" "processing" "Payment processing initiated"
            None (set_status processing d)).
  destruct (addLog_core e "payment_started" "processing"
              "Payment processing initiated" None (set_status processing d))
    as (U & T & A & _).
  assert (S2 : userId (set_status processing d) = userId d
               /\ type (set_status processing d) = type d
               /\ amount (set_status processing d) = amount d).
  { unfold set_status. destruct (Status_eqb (status d) processing); repeat split. }
  destruct S2 as (U2 & T2 & A2).
  split; [rewrite U; exact U2|]. split; [rewrite T; exact T2|].
  split; [rewrite A; exact A2|].
  unfold TransactionOps.processPayment.
  rewrite addLog_gateway, set_status_payment.
  unfold TransactionOps.processStripePayment, TransactionOps.processEpcmPayment.
  rewrite T, T2.
  destruct (gateway (payment d)) as [[| |]|]; [destruct (type d)| | |]; reflexivity.
Qed.

(** processPayment never leaves a transaction in flight: it ends completed
    exactly when the gateway answered with a success, and failed otherwise;
    a transaction whose gateway is neither stripe nor epcm fails with
    "Unsupported payment gateway". The owner, type and amount are kept. *)
Theorem processPayment_settles_the_transaction :
  forall (e : Env) (answer : PaymentService.GatewayResult) (d : t),
    let out := fst (TransactionOps.processPayment e answer d) in
    let d' := snd (TransactionOps.processPayment e answer d) in
    (status d' = completed \/ status d' = failed)
    /\ (status d' = completed
        <-> exists r, out = inr r /\ PaymentService.success r = true)
    /\ (gateway (payment d) <> Some stripe -> gateway (payment d) <> Some epcm ->
        out = inl "Unsupported payment gateway" /\ status d' = failed)
    /\ userId d' = userId d /\ type d' = type d /\ amount d' = amount d.
Proof.
  intros e answer d out d'. unfold out, d'. clear out d'.
  destruct (processPayment_outcome e answer d) as (d1 & U1 & T1 & A1 & E).
  rewrite E. clear E.
  assert (Threw : forall msg,
            let r := TransactionOps.payment_threw e msg d1 in
            (status (snd r) = completed \/ status (snd r) = failed)
            /\ (status (snd r) = completed
                <-> exists x, fst r = inr x /\ PaymentService.success x = true)
            /\ fst r = inl msg /\ status (snd r) = failed
            /\ userId (snd r) = userId d /\ type (snd r) = type d
            /\ amount (snd r) = amount d).
  { intros msg r. unfold r.
    destruct (payment_threw_outcome e msg d1) as (F & S & U & T & A).
    rewrite F, S, U, T, A, U1, T1, A1.
    split; [right; reflexivity|]. split.
    - split; [discriminate | intros (x & Hx & _); discriminate Hx].
    - repeat split. }
  assert (Answered :
            let r := TransactionOps.payment_answered e answer d1 in
            (status (snd r) = completed \/ status (snd r) = failed)
            /\ (status (snd r) = completed
                <-> exists x, fst r = inr x /\ PaymentService.success x = true)
            /\ userId (snd r) = userId d /\ type (snd r) = type d
            /\ amount (snd r) = amount d).
  { intro r. unfold r.
    destruct (payment_answered_outcome e answer d1) as (F & S & U & T & A).
    rewrite F, S, U, T, A, U1, T1, A1.
    destruct (PaymentService.success answer) eqn:Su.
    - split; [left; reflexivity|]. split.
      + split; [intros _; exists answer; split; [reflexivity | exact Su] | reflexivity].
      + repeat split.
    - split; [right; reflexivity|]. split.
      + split; [discriminate|].
        intros (x & Hx & Hs). injection Hx as <-. congruence.
      + repeat split. }
  cbv zeta in Threw, Answered.
  destruct (gateway (payment d)) as [[| |]|].
  - destruct (type d).
    all: first
      [ destruct Answered as (H1 & H2 & H3);
        split; [exact H1|]; split; [exact H2|];
        split; [intros N; contradiction N; reflexivity | exact H3]
      | destruct (Threw "Cannot read properties of undefined (reading 'success')")
          as (H1 & H2 & _ & _ & H3);
        split; [exact H1|]; split; [exact H2|];
        split; [intros N; contradiction N; reflexivity | exact H3] ].
  - destruct Answered as (H1 & H2 & H3).
    split; [exact H1|]. split; [exact H2|].
    split; [intros _ N; contradiction N; reflexivity | exact H3].
  - destruct (Threw "Unsupported payment gateway") as (H1 & H2 & F & H3 & H4).
    split; [exact H1|]. split; [exact H2|].
    split; [intros _ _; split; [exact F | exact H3] | exact H4].
  - destruct (Threw "Unsupported payment gateway") as (H1 & H2 & F & H3 & H4).
    split; [exact H1|]. split; [exact H2|].
    split; [intros _ _; split; [exact F | exact H3] | exact H4].
Qed.

Lemma processPayment_settles_sample :
  fst (TransactionOps.processPayment Sample.env1
         (Sample.accepting bank_transfer Sample.w1000) Sample.reward60)
  = inl "Unsupported payment gateway"
  /\ status (snd (TransactionOps.processPayment Sample.env1
                    (Sample.accepting bank_transfer Sample.w1000) Sample.reward60))
     = failed.
Proof.
  apply (proj1 (proj2 (proj2 (processPayment_settles_the_transaction Sample.env1
                                (Sample.accepting bank_transfer Sample.w1000)
                                Sample.reward60)))); discriminate.
Defined.

End GatewayPayments.

(** ** Notifications and admin decisions *)

Section Decisions.

Import PaymentService.

Lemma findOne_insert_gone {A} (p : A -> bool) (l : list A) (i : nat) (x x' : A) :
  findOne p l = Some (i, x) ->
  p x' = false ->
  (forall j y, l !! j = Some y -> p y = true -> j = i) ->
  findOne p (<[i := x']> l) = None.
Proof.
  intros Hf Hp Huniq. unfold findOne. apply findOne_from_None.
  intros y Hin. apply list_elem_of_In in Hin.
  apply list_elem_of_lookup in Hin. destruct Hin as (j & Hj).
  destruct (decide (j = i)) as [->|Hne].
  - destruct (findOne_Some p l i x Hf) as (Hl & _).
    rewrite list_lookup_insert_eq in Hj by (apply lookup_lt_Some in Hl; exact Hl).
    injection Hj as <-. exact Hp.
  - rewrite list_lookup_insert_ne in Hj by (intro E; apply Hne; symmetry; exact E).
    destruct (p y) eqn:Py; [|reflexivity].
    exfalso. apply Hne. exact (Huniq j y Hj Py).
Qed.




Lemma validate_refund a u :
  User.validate u = [] -> (0 <= a)%Q -> (a <= User.coins_pending u)%Q ->
  User.validate (refund_pending a u) = [].
Proof.
  intros Hv H0 Hp. unfold refund_pending.
  pose proof (proj1 (User_validate_nil u) Hv) as (_ & T & A & P & _).
  apply validate_set_coins; try assumption; lra.
Qed.

Lemma refund_rejected a u :
  (User.coins_pending u < a)%Q ->
  exists msg, User.save_checked (refund_pending a u) = inl msg.
Proof.
  intro H. apply User_save_checked_rejects. intro V.
  apply User_validate_nil in V. destruct V as (_ & _ & _ & P & _).
  unfold refund_pending in P. simpl in P. lra.
Qed.



End Decisions.

Section AdminDecisions.

Import PaymentService.

Lemma updateStatus_core e v reason by_ d :
  Transaction.userId (Transaction.updateStatus e v reason by_ d) = Transaction.userId d
  /\ Transaction.type (Transaction.updateStatus e v reason by_ d) = Transaction.type d
  /\ Transaction.amount (Transaction.updateStatus e v reason by_ d) = Transaction.amount d.
Proof.
  unfold Transaction.updateStatus.
  match goal with |- context [Transaction.addLog ?e ?a ?st ?m ?x ?d'] =>
    destruct (addLog_core e a st m x d') as (U & T & A & _) end.
  rewrite U, T, A.
  cbn [Transaction.push_history Transaction.set_audit Transaction.userId
       Transaction.type Transaction.amount].
  unfold Transaction.set_status.
  destruct (Transaction.Status_eqb (Transaction.status d) v); repeat split.
Qed.

Lemma pending_withdrawal_status tid d :
  PaymentOps.pending_withdrawal tid d = true ->
  Transaction.status d = Transaction.pending.
Proof.
  unfold PaymentOps.pending_withdrawal. intro H.
  apply andb_true_iff in H. destruct H as [_ H].
  destruct (Transaction.status d); simpl in H; congruence.
Qed.

Lemma pending_withdrawal_not tid d :
  Transaction.status d <> Transaction.pending ->
  PaymentOps.pending_withdrawal tid d = false.
Proof.
  intro H. unfold PaymentOps.pending_withdrawal.
  destruct (Transaction.status d); try (rewrite andb_false_r; reflexivity).
  contradiction H; reflexivity.
Qed.

(** Rejecting a pending withdrawal cancels it and records who rejected it
    and why. When the user's pending coins cover the amount, the amount
    moves from pending back to available and the call succeeds; when they do
    not, the refund is rejected and the call fails, with the withdrawal
    already cancelled and the wallet untouched. A request that matches no
    pending withdrawal fails and changes nothing; so does a second rejection
    of the same withdrawal, which therefore is refunded at most once. *)
Theorem rejectWithdrawal_refunds_once :
  forall (e : Env) (transactionId reason : string) (adminId : UserId) (s : Store),
    (findOne (PaymentOps.pending_withdrawal transactionId) (transactions s) = None ->
     PaymentOps.rejectWithdrawal e transactionId reason adminId s
     = (inl "Failed to reject withdrawal: Transaction not found or already processed", s))
    /\ (forall i d u,
          findOne (PaymentOps.pending_withdrawal transactionId) (transactions s)
          = Some (i, d) ->
          users s !! Transaction.userId d = Some u ->
          Transaction.validate d = [] ->
          User.validate u = [] ->
          (Transaction.amount d <= User.coins_pending u)%Q ->
          exists d' u' s1,
            PaymentOps.rejectWithdrawal e transactionId reason adminId s
            = (inr (PaymentOps.mkDecision true "Withdrawal rejected and coins refunded"), s1)
            /\ transactions s1 !! i = Some d'
            /\ Transaction.status d' = Transaction.cancelled
            /\ In (Transaction.mkHistory "pending" "cancelled" (Date_now e) reason
                     (Some adminId))
                  (Transaction.statusHistory (Transaction.audit d'))
            /\ users s1 !! Transaction.userId d = Some u'
            /\ User.coins_available u'
               = (User.coins_available u + Transaction.amount d)%Q
            /\ User.coins_pending u' = (User.coins_pending u - Transaction.amount d)%Q
            /\ ((forall j y, transactions s !! j = Some y ->
                             PaymentOps.pending_withdrawal transactionId y = true ->
                             j = i) ->
                forall e2 reason2,
                  PaymentOps.rejectWithdrawal e2 transactionId reason2 adminId s1
                  = (inl "Failed to reject withdrawal: Transaction not found or already processed",
                     s1)))
    /\ (forall i d u,
          findOne (PaymentOps.pending_withdrawal transactionId) (transactions s)
          = Some (i, d) ->
          users s !! Transaction.userId d = Some u ->
          Transaction.validate d = [] ->
          (User.coins_pending u < Transaction.amount d)%Q ->
          exists msg d' s1,
            PaymentOps.rejectWithdrawal e transactionId reason adminId s
            = (inl (String.append "Failed to reject withdrawal: " msg), s1)
            /\ users s1 = users s
            /\ transactions s1 !! i = Some d'
            /\ Transaction.status d' = Transaction.cancelled).
Proof.
  intros e tid reason adminId s. split; [|split].
  - intro H. unfold PaymentOps.rejectWithdrawal. rewrite H. reflexivity.
  - intros i d u Hf Hu Hd Hv Hp.
    destruct (findOne_Some _ _ _ _ Hf) as (Hl & Hq).
    pose proof (pending_withdrawal_status tid d Hq) as Hst.
    destruct (updateStatus_core e Transaction.cancelled reason (Some adminId) d)
      as (Uid & _ & Am).
    pose proof (updateStatus_status e Transaction.cancelled reason (Some adminId) d) as St.
    pose proof (Transaction_validate_amount d Hd) as H0.
    pose proof (User_save_checked_ok _ (validate_refund _ u Hv H0 Hp)) as R.
    unfold PaymentOps.rejectWithdrawal. rewrite Hf.
    cbn [users set_transactions]. rewrite Uid, Am, Hu, R.
    eexists _, _, _. split; [reflexivity|].
    cbn [transactions users set_users set_transactions].
    split; [apply list_lookup_insert_eq; apply lookup_lt_Some in Hl; exact Hl|].
    split; [exact St|].
    split.
    { rewrite updateStatus_history, Hst. apply in_or_app. right. left. reflexivity. }
    split; [apply lookup_insert_eq|].
    destruct (save_coins (refund_pending (Transaction.amount d) u)) as (H1 & _ & H3).
    rewrite H1, H3.
    split; [reflexivity|]. split; [reflexivity|].
    intros Huniq e2 reason2. unfold PaymentOps.rejectWithdrawal.
    cbn [transactions set_users set_transactions].
    rewrite (findOne_insert_gone _ _ _ d _ Hf); [reflexivity | | exact Huniq].
    apply pending_withdrawal_not. rewrite St. discriminate.
  - intros i d u Hf Hu Hd Hp.
    destruct (findOne_Some _ _ _ _ Hf) as (Hl & Hq).
    destruct (updateStatus_core e Transaction.cancelled reason (Some adminId) d)
      as (Uid & _ & Am).
    pose proof (updateStatus_status e Transaction.cancelled reason (Some adminId) d) as St.
    destruct (refund_rejected _ u Hp) as [msg R].
    unfold PaymentOps.rejectWithdrawal. rewrite Hf.
    cbn [users set_transactions]. rewrite Uid, Am, Hu, R.
    eexists _, _, _. split; [reflexivity|].
    cbn [transactions users set_users set_transactions].
    split; [reflexivity|].
    split; [apply list_lookup_insert_eq; apply lookup_lt_Some in Hl; exact Hl|].
    exact St.
Qed.

Lemma rejectWithdrawal_refunds_once_sample :
  (exists d' u' s1,
     PaymentOps.rejectWithdrawal Sample.env1
       (Transaction.transactionId Sample.w1000) "documents missing" 9%nat
       SampleStores.reserving
     = (inr (PaymentOps.mkDecision true "Withdrawal rejected and coins refunded"), s1)
     /\ transactions s1 !! 1%nat = Some d'
     /\ Transaction.status d' = Transaction.cancelled
     /\ users s1 !! Transaction.userId Sample.w1000 = Some u'
     /\ User.coins_available u'
        = (User.coins_available SampleStores.reservingUser
           + Transaction.amount Sample.w1000)%Q
     /\ PaymentOps.rejectWithdrawal SampleMore.env2
          (Transaction.transactionId Sample.w1000) "again" 9%nat s1
        = (inl "Failed to reject withdrawal: Transaction not found or already processed",
           s1))
  /\ (exists msg d' s1,
        PaymentOps.rejectWithdrawal Sample.env1
          (Transaction.transactionId Sample.w1000) "documents missing" 9%nat
          SampleStores.unreserved
        = (inl (String.append "Failed to reject withdrawal: " msg), s1)
        /\ users s1 = users SampleStores.unreserved
        /\ transactions s1 !! 1%nat = Some d'
        /\ Transaction.status d' = Transaction.cancelled).
Proof.
  split.
  - destruct (proj1 (proj2 (rejectWithdrawal_refunds_once Sample.env1
                              (Transaction.transactionId Sample.w1000)
                              "documents missing" 9%nat SampleStores.reserving))
                1%nat Sample.w1000 SampleStores.reservingUser)
      as (d' & u' & s1 & H1 & H2 & H3 & _ & H5 & H6 & _ & H8).
    + vm_compute. reflexivity.
    + vm_compute. reflexivity.
    + vm_compute. reflexivity.
    + vm_compute. reflexivity.
    + vm_compute. discriminate.
    + exists d', u', s1.
      split; [exact H1|]. split; [exact H2|]. split; [exact H3|].
      split; [exact H5|]. split; [exact H6|].
      apply H8. intros j y Hj Hy.
      destruct j as [|[|j]]; simpl in Hj.
      * injection Hj as <-. vm_compute in Hy. discriminate Hy.
      * reflexivity.
      * discriminate Hj.
  - apply (proj2 (proj2 (rejectWithdrawal_refunds_once Sample.env1
                           (Transaction.transactionId Sample.w1000)
                           "documents missing" 9%nat SampleStores.unreserved))
             1%nat Sample.w1000 Sample.alice);
      vm_compute; reflexivity.
Defined.

Lemma batch_loop_shape e answer ids adminId s :
  map PaymentOps.be_transactionId (fst (PaymentOps.batch_loop e answer ids adminId s))
  = ids.
Proof.
  revert s. induction ids as [|id ids IH]; intro s; simpl; [reflexivity|].
  destruct (PaymentOps.approveWithdrawal e (answer id) id adminId s) as [outcome s1].
  specialize (IH s1).
  destruct (PaymentOps.batch_loop e answer ids adminId s1) as [entries s2].
  simpl in *. rewrite IH. destruct outcome; reflexivity.
Qed.

Lemma batch_loop_nothing_pending e answer ids adminId s :
  (forall id, In id ids ->
     findOne (PaymentOps.pending_withdrawal id) (transactions s) = None) ->
  snd (PaymentOps.batch_loop e answer ids adminId s) = s
  /\ List.filter PaymentOps.be_success
       (fst (PaymentOps.batch_loop e answer ids adminId s)) = [].
Proof.
  induction ids as [|id ids IH]; intro H; simpl; [split; reflexivity|].
  unfold PaymentOps.approveWithdrawal. rewrite (H id (or_introl eq_refl)).
  destruct IH as [IH1 IH2]; [intros x Hx; apply H; right; exact Hx|].
  destruct (PaymentOps.batch_loop e answer ids adminId s) as [entries s2].
  simpl in *. split; assumption.
Qed.

Lemma filter_length_le {A} (p : A -> bool) (l : list A) :
  (length (List.filter p l) <= length l)%nat.
Proof.
  induction l as [|a l IH]; simpl; [lia|]. destruct (p a); simpl; lia.
Qed.

(** The batch report accounts for every requested id exactly once and in
    order: processed is the number of ids, and successful + failed =
    processed. Ids that match no pending withdrawal are all reported as
    failed and leave the database as it was. *)
Theorem processBatchWithdrawals_accounts_for_every_id :
  forall (e : Env) (answer : string -> GatewayResult) (ids : list string)
         (adminId : UserId) (s : Store),
    let report := fst (PaymentOps.processBatchWithdrawals e answer ids adminId s) in
    PaymentOps.processed report = length ids
    /\ map PaymentOps.be_transactionId (PaymentOps.results report) = ids
    /\ (PaymentOps.successful report + PaymentOps.failed report
        = PaymentOps.processed report)%nat
    /\ ((forall id, In id ids ->
           findOne (PaymentOps.pending_withdrawal id) (transactions s) = None) ->
        snd (PaymentOps.processBatchWithdrawals e answer ids adminId s) = s
        /\ PaymentOps.successful report = 0%nat
        /\ PaymentOps.failed report = length ids).
Proof.
  intros e answer ids adminId s report. unfold report.
  unfold PaymentOps.processBatchWithdrawals.
  pose proof (batch_loop_shape e answer ids adminId s) as Hs.
  pose proof Hs as Hs0.
  pose proof (batch_loop_nothing_pending e answer ids adminId s) as Hn.
  destruct (PaymentOps.batch_loop e answer ids adminId s) as [entries s'].
  cbn [fst snd PaymentOps.processed PaymentOps.results PaymentOps.successful
       PaymentOps.failed] in *.
  assert (L : length entries = length ids).
  { apply (f_equal (@length string)) in Hs0. rewrite length_map in Hs0. exact Hs0. }
  pose proof (filter_length_le PaymentOps.be_success entries) as Hle.
  split; [exact L|]. split; [exact Hs|]. split; [lia|].
  intro H. destruct (Hn H) as [H1 H2]. rewrite H2. simpl.
  split; [exact H1|]. split; [reflexivity | lia].
Qed.

Lemma processBatchWithdrawals_sample :
  snd (PaymentOps.processBatchWithdrawals Sample.env1
         (fun _ => Sample.accepting Transaction.bank_transfer Sample.w1000)
         ["WD-unknown-1"; "WD-unknown-2"] 9%nat Sample.funded) = Sample.funded
  /\ PaymentOps.successful
       (fst (PaymentOps.processBatchWithdrawals Sample.env1
               (fun _ => Sample.accepting Transaction.bank_transfer Sample.w1000)
               ["WD-unknown-1"; "WD-unknown-2"] 9%nat Sample.funded)) = 0%nat
  /\ PaymentOps.failed
       (fst (PaymentOps.processBatchWithdrawals Sample.env1
               (fun _ => Sample.accepting Transaction.bank_transfer Sample.w1000)
               ["WD-unknown-1"; "WD-unknown-2"] 9%nat Sample.funded)) = 2%nat.
Proof.
  apply (proj2 (proj2 (proj2 (processBatchWithdrawals_accounts_for_every_id
                                Sample.env1
                                (fun _ => Sample.accepting Transaction.bank_transfer
                                            Sample.w1000)
                                ["WD-unknown-1"; "WD-unknown-2"] 9%nat
                                Sample.funded)))).
  intros id [<-|[<-|[]]]; vm_compute; reflexivity.
Defined.

End AdminDecisions.

(** ** The wallet and the level of a user *)

Section UserFacts.

Import User.

Lemma validate_save u : validate u = [] -> validate (save u) = [].
Proof.
  rewrite !User_validate_nil. intros (N & T & A & P & L & X).
  unfold save, preSave.
  destruct (experienceModified u);
    cbn [username coins_total coins_available coins_pending level experience];
    repeat split; try assumption.
  destruct (Z.ltb_spec (level u) (Qfloor (experience u / 1000) + 1)); lia.
Qed.

(** On a user document that passes validation, deductCoins refuses exactly
    when the available coins do not cover the amount; otherwise it takes the
    amount from available only (total and pending are untouched) and
    available stays non-negative. Whoever may withdraw an amount can have it
    deducted. Crediting an amount that is not negative and deducting it
    again restores available while total keeps the credit; a negative credit
    that would take available below zero is rejected. *)
Theorem deductCoins_never_overdraws :
  forall (a : Q) (u : t),
    validate u = [] ->
    ((coins_available u < a)%Q -> deductCoins a u = inl "Insufficient coins")
    /\ ((a <= coins_available u)%Q ->
        exists u', deductCoins a u = inr u'
                   /\ coins_available u' = (coins_available u - a)%Q
                   /\ coins_total u' = coins_total u
                   /\ coins_pending u' = coins_pending u
                   /\ (0 <= coins_available u')%Q)
    /\ (forall e, canWithdraw e a u = true -> exists u', deductCoins a u = inr u')
    /\ ((0 <= a)%Q ->
        exists u1 u', addCoins a u = inr u1
                      /\ deductCoins a u1 = inr u'
                      /\ (coins_available u' == coins_available u)%Q
                      /\ coins_total u' = (coins_total u + a)%Q)
    /\ ((coins_available u + a < 0)%Q -> exists msg, addCoins a u = inl msg).
Proof.
  intros a u Hv.
  assert (Ok : forall v, validate v = [] -> (a <= coins_available v)%Q ->
             exists u', deductCoins a v = inr u'
                        /\ coins_available u' = (coins_available v - a)%Q
                        /\ coins_total u' = coins_total v
                        /\ coins_pending u' = coins_pending v
                        /\ (0 <= coins_available u')%Q).
  { intros v Vv H. unfold deductCoins.
    assert (E : Qltb (coins_available v) a = false).
    { destruct (Qltb (coins_available v) a) eqn:E; [|reflexivity].
      apply Qltb_lt in E. lra. }
    rewrite E.
    pose proof (proj1 (User_validate_nil v) Vv) as (_ & T & _ & P & _).
    rewrite User_save_checked_ok by (apply validate_set_coins; try assumption; lra).
    eexists. split; [reflexivity|].
    destruct (save_coins (set_coins (coins_total v) (coins_available v - a)%Q
                            (coins_pending v) v)) as (H1 & H2 & H3).
    rewrite H1, H2, H3. cbn [set_coins coins_available coins_total coins_pending].
    repeat split. lra. }
  split.
  { intro H. unfold deductCoins. apply Qltb_lt in H. rewrite H. reflexivity. }
  split; [apply Ok; exact Hv|]. split.
  { intros e H.
    destruct (Ok u Hv) as (u' & D & _); [|exists u'; exact D].
    unfold canWithdraw in H. apply andb_true_iff in H. destruct H as [H _].
    apply andb_true_iff in H. destruct H as [_ H]. apply Qle_bool_iff in H. exact H. }
  split.
  { intro H0. destruct (addCoins_accepts a u Hv H0) as [u1 A].
    destruct (addCoins_coins a u u1 A) as (A1 & A2 & _).
    assert (V1 : validate u1 = []).
    { unfold addCoins in A. apply User_save_checked_inr in A. destruct A as [-> V].
      apply validate_save. exact V. }
    pose proof (proj1 (User_validate_nil u) Hv) as (_ & _ & Av & _).
    destruct (Ok u1 V1) as (u' & D & D1 & D2 & _); [rewrite A1; lra|].
    exists u1, u'. split; [exact A|]. split; [exact D|].
    split; [rewrite D1, A1; lra | rewrite D2, A2; reflexivity]. }
  intro Hneg. unfold addCoins. apply User_save_checked_rejects. intro V.
  apply User_validate_nil in V. destruct V as (_ & _ & A & _).
  simpl in A. lra.
Qed.

Lemma deductCoins_never_overdraws_sample :
  deductCoins 6000 Sample.alice = inl "Insufficient coins"
  /\ (exists u', deductCoins 1000 Sample.alice = inr u'
                 /\ coins_available u' = (coins_available Sample.alice - 1000)%Q
                 /\ coins_total u' = coins_total Sample.alice
                 /\ coins_pending u' = coins_pending Sample.alice
                 /\ (0 <= coins_available u')%Q)
  /\ (exists msg, addCoins (-6000) Sample.alice = inl msg).
Proof.
  split; [|split].
  - apply (proj1 (deductCoins_never_overdraws 6000 Sample.alice eq_refl)).
    vm_compute. reflexivity.
  - apply (proj1 (proj2 (deductCoins_never_overdraws 1000 Sample.alice eq_refl))).
    vm_compute. discriminate.
  - apply (proj2 (proj2 (proj2 (proj2 (deductCoins_never_overdraws (-6000)
                                         Sample.alice eq_refl))))).
    vm_compute. reflexivity.
Defined.

Lemma save_level u :
  level (save u)
  = if experienceModified u
    then Z.max (level u) (Qfloor (experience u / 1000) + 1)
    else level u.
Proof.
  unfold save, preSave. destruct (experienceModified u); cbn [level]; [|reflexivity].
  destruct (level u <? Qfloor (experience u / 1000) + 1) eqn:E.
  - apply Z.ltb_lt in E. lia.
  - apply Z.ltb_ge in E. lia.
Qed.

(** The level never goes down. Adding experience that changes the stored
    value lifts the level to floor(experience / 1000) + 1 when that is
    higher; the wallet is not touched. *)
Theorem level_never_decreases :
  forall (x : Q) (u : t),
    experienceModified u = false ->
    level u <= level (addExperience x u)
    /\ (~ (x == 0)%Q ->
        level (addExperience x u)
        = Z.max (level u) (Qfloor ((experience u + x) / 1000) + 1))
    /\ ((x == 0)%Q -> addExperience x u = u)
    /\ coins_available (addExperience x u) = coins_available u.
Proof.
  intros x u Hm.
  assert (Hx : Qeq_bool (experience u) (experience u + x) = true <-> (x == 0)%Q).
  { rewrite Qeq_bool_iff. split; intro H; lra. }
  split; [|split; [|split]].
  - unfold addExperience. rewrite save_level. unfold set_experience.
    destruct (Qeq_bool (experience u) (experience u + x)); cbn [experienceModified level experience].
    + rewrite Hm. lia.
    + lia.
  - intro Hne. unfold addExperience. rewrite save_level. unfold set_experience.
    destruct (Qeq_bool (experience u) (experience u + x)) eqn:E.
    + exfalso. apply Hne. apply Hx. reflexivity.
    + reflexivity.
  - intro H0. apply Hx in H0. unfold addExperience, set_experience. rewrite H0.
    unfold save, preSave. rewrite Hm. destruct u; simpl in *. subst. reflexivity.
  - apply (addExperience_coins x u).
Qed.

Lemma level_never_decreases_sample :
  level Sample.alice <= level (addExperience 2500 Sample.alice)
  /\ level (addExperience 2500 Sample.alice) = 3.
Proof.
  destruct (level_never_decreases 2500 Sample.alice eq_refl) as (H1 & H2 & _).
  split; [exact H1|]. rewrite H2; [reflexivity|].
  intro H. vm_compute in H. discriminate H.
Defined.

End UserFacts.

(** ** The account lock *)

Section AccountLock.

Import UserOps.

Lemma wrongPasswords_count es sec :
  accountLocked sec = false ->
  failedLoginAttempts sec + Z.of_nat (length es) < 5 ->
  wrongPasswords es sec
  = mkSecurity (failedLoginAttempts sec + Z.of_nat (length es)) false (lockedUntil sec).
Proof.
  revert sec. induction es as [|e es IH]; intros sec Hl Hn.
  - simpl. destruct sec; simpl in *. subst. f_equal. lia.
  - cbn [wrongPasswords length] in *.
    assert (E : findByCredentials e false sec
                = (Some "Invalid credentials",
                   mkSecurity (failedLoginAttempts sec + 1) false (lockedUntil sec))).
    { unfold findByCredentials, stillLocked. rewrite Hl. cbn [andb negb failedLoginAttempts].
      replace (5 <=? failedLoginAttempts sec + 1) with false
        by (symmetry; apply Z.leb_gt; lia).
      reflexivity. }
    rewrite E. cbn [snd]. rewrite IH; cbn [accountLocked failedLoginAttempts lockedUntil].
    + f_equal. lia.
    + reflexivity.
    + lia.
Qed.

(** Five wrong passwords in a row lock an account for 30 minutes: the
    first four are answered "Invalid credentials", the fifth locks. While the
    lock lasts every login is refused, right password or not, and nothing is
    counted. A right password on an unlocked account clears the counter; the
    expiry of a lock does not, so the next wrong password locks again. *)
Theorem account_locks_after_five_failures :
  forall (e : Env) (es : list Env) (sec : Security),
    (sec = mkSecurity 0 false None -> length es = 4%nat ->
     wrongPasswords es sec = mkSecurity 4 false None
     /\ findByCredentials e false (wrongPasswords es sec)
        = (Some "Account locked due to multiple failed login attempts",
           mkSecurity 5 true (Some (Date_now e + minutes 30))))
    /\ (stillLocked e sec = true ->
        forall isMatch,
          findByCredentials e isMatch sec = (Some "Account is temporarily locked", sec))
    /\ (stillLocked e sec = false ->
        fst (findByCredentials e true sec) = None
        /\ (0 <= failedLoginAttempts sec ->
            failedLoginAttempts (snd (findByCredentials e true sec)) = 0))
    /\ (stillLocked e sec = false -> 4 <= failedLoginAttempts sec ->
        findByCredentials e false sec
        = (Some "Account locked due to multiple failed login attempts",
           mkSecurity (failedLoginAttempts sec + 1) true
             (Some (Date_now e + minutes 30)))).
Proof.
  intros e es sec. split; [|split; [|split]].
  - intros -> Hlen.
    assert (W : wrongPasswords es (mkSecurity 0 false None) = mkSecurity 4 false None).
    { rewrite wrongPasswords_count; cbn [accountLocked failedLoginAttempts lockedUntil];
        [rewrite Hlen; reflexivity | reflexivity | rewrite Hlen; simpl; lia]. }
    split; [exact W|]. rewrite W. reflexivity.
  - intros H isMatch. unfold findByCredentials. rewrite H. reflexivity.
  - intro H. unfold findByCredentials. rewrite H. cbn [negb].
    destruct (0 <? failedLoginAttempts sec) eqn:E; cbn [fst snd failedLoginAttempts].
    + split; [reflexivity | intros _; reflexivity].
    + apply Z.ltb_ge in E. split; [reflexivity | intro; lia].
  - intros H H4. unfold findByCredentials. rewrite H. cbn [negb failedLoginAttempts].
    replace (5 <=? failedLoginAttempts sec + 1) with true
      by (symmetry; apply Z.leb_le; lia).
    unfold lockAccount, minutes. cbn [failedLoginAttempts]. reflexivity.
Qed.

Lemma account_locks_sample :
  wrongPasswords [Sample.env0; Sample.env1; SampleMore.env2; SampleMore.env3]
    (mkSecurity 0 false None) = mkSecurity 4 false None
  /\ findByCredentials SampleMore.env3 false
       (wrongPasswords [Sample.env0; Sample.env1; SampleMore.env2; SampleMore.env3]
          (mkSecurity 0 false None))
     = (Some "Account locked due to multiple failed login attempts",
        mkSecurity 5 true (Some (Date_now SampleMore.env3 + minutes 30))).
Proof.
  apply (proj1 (account_locks_after_five_failures SampleMore.env3
                  [Sample.env0; Sample.env1; SampleMore.env2; SampleMore.env3]
                  (mkSecurity 0 false None))); reflexivity.
Defined.

End AccountLock.

(** ** The login history and the location signal *)

Section LoginHistory.

Lemma save_loginHistory u : User.loginHistory (User.save u) = User.loginHistory u.
Proof. unfold User.save, User.preSave. destruct (User.experienceModified u); reflexivity. Qed.

Lemma recordLogin_history e ip ua header u :
  User.loginHistory (AuthRoute.recordLogin e ip ua header u)
  = firstn 10 (User.mkLogin ip ua (Some (AuthRoute.header_or header "Unknown"))
                 (Date_now e) :: User.loginHistory u).
Proof.
  unfold AuthRoute.recordLogin. rewrite save_loginHistory. cbn [User.loginHistory].
  match goal with |- (if ?b then _ else _) = _ => destruct b eqn:E end; [reflexivity|].
  apply Nat.ltb_ge in E. symmetry. apply firstn_all2. exact E.
Qed.

Lemma header_or_nonempty header fallback :
  fallback <> "" -> Transaction.isEmpty (AuthRoute.header_or header fallback) = false.
Proof.
  intro H. unfold AuthRoute.header_or.
  destruct header as [h|]; [destruct (Transaction.isEmpty h) eqn:E; [|exact E]|];
    apply isEmpty_false; exact H.
Qed.

(** A login puts its entry in front of the history and keeps at most ten
    entries, so the risk assessment compares a withdrawal with the latest
    login. A withdrawal sent with the location header of that login raises
    no location signal; when neither request carries the header the login
    is stored as "Unknown" and the withdrawal is located by its IP address,
    so the signal is raised. *)
Theorem login_history_and_location_signal :
  forall (e : Env) (ip userAgent : string) (header : option string) (u : User.t)
         (ty : Transaction.TxType) (amount : Q) (ip' : string),
    let u' := AuthRoute.recordLogin e ip userAgent header u in
    (length (User.loginHistory u') <= 10)%nat
    /\ User.loginHistory u'
       = firstn 10 (User.mkLogin ip userAgent
                      (Some (AuthRoute.header_or header "Unknown")) (Date_now e)
                    :: User.loginHistory u)
    /\ (forall h, header = Some h -> h <> "" ->
          PaymentService.location_signal u'
            (PaymentService.mkTransactionData ty amount
               (AuthRoute.withdrawLocation (Some h) ip')) = false)
    /\ (header = None -> ip' <> "" -> ip' <> "Unknown" ->
        PaymentService.location_signal u'
          (PaymentService.mkTransactionData ty amount
             (AuthRoute.withdrawLocation None ip')) = true).
Proof.
  intros e ip ua header u ty amount ip' u'. unfold u'.
  pose proof (recordLogin_history e ip ua header u) as H.
  split; [rewrite H; apply firstn_le_length|]. split; [exact H|].
  split.
  - intros h -> Hh. unfold PaymentService.location_signal. rewrite H.
    cbn [firstn User.location PaymentService.td_location AuthRoute.withdrawLocation
         AuthRoute.header_or PaymentService.truthy PaymentService.option_string_eqb].
    rewrite (isEmpty_false h Hh), String.eqb_refl. apply andb_false_r.
  - intros -> Hip Hunk. unfold PaymentService.location_signal. rewrite H.
    cbn [firstn User.location PaymentService.td_location AuthRoute.withdrawLocation
         AuthRoute.header_or PaymentService.truthy PaymentService.option_string_eqb].
    rewrite (isEmpty_false ip' Hip).
    replace ("Unknown" =? ip')%string with false;
      [cbn; rewrite ?(isEmpty_false ip' Hip); reflexivity|].
    symmetry. apply String.eqb_neq. intro E. apply Hunk. symmetry. exact E.
Qed.

Lemma login_history_and_location_signal_sample :
  PaymentService.location_signal
    (AuthRoute.recordLogin Sample.env0 "203.0.113.7" "Mozilla" (Some "SG") Sample.alice)
    (PaymentService.mkTransactionData Transaction.withdrawal 2000
       (AuthRoute.withdrawLocation (Some "SG") "198.51.100.9")) = false
  /\ PaymentService.location_signal
       (AuthRoute.recordLogin Sample.env0 "203.0.113.7" "Mozilla" None Sample.alice)
       (PaymentService.mkTransactionData Transaction.withdrawal 2000
          (AuthRoute.withdrawLocation None "203.0.113.7")) = true.
Proof.
  split.
  - apply (proj1 (proj2 (proj2 (login_history_and_location_signal Sample.env0
                                  "203.0.113.7" "Mozilla" (Some "SG") Sample.alice
                                  Transaction.withdrawal 2000 "198.51.100.9")))
             "SG"); [reflexivity | discriminate].
  - apply (proj2 (proj2 (proj2 (login_history_and_location_signal Sample.env0
                                  "203.0.113.7" "Mozilla" None Sample.alice
                                  Transaction.withdrawal 2000 "203.0.113.7"))));
      [reflexivity | discriminate | discriminate].
Defined.

End LoginHistory.

(** ** KYC tiers, currency conversion and the fee quote *)

Section Quotes.

Import PaymentService.

(** compareKYCLevels orders the four tiers (none, basic, enhanced, full):
    it is reflexive, transitive and total. With it a verified user may move
    any amount below 10000 and nothing from 10000 on, and a user who is not
    verified only amounts below 100. *)
Theorem kyc_tiers_gate_amounts :
  forall (uid : UserId) (amount : Q) (s : Store) (u : User.t),
    users s !! uid = Some u ->
    (forall a, compareKYCLevels a a = true)
    /\ (forall a b c, compareKYCLevels a b = true -> compareKYCLevels b c = true ->
                      compareKYCLevels a c = true)
    /\ (forall a b, compareKYCLevels a b = true \/ compareKYCLevels b a = true)
    /\ exists k,
         verifyKYCForTransaction uid amount s = inr k
         /\ (User.kyc_status u = User.verified ->
             (allowed k = true <-> (amount < 10000)%Q))
         /\ (User.kyc_status u <> User.verified ->
             (allowed k = true <-> (amount < 100)%Q)).
Proof.
  intros uid amount s u Hu.
  split; [intro a; unfold compareKYCLevels; apply Z.leb_le; lia|].
  split.
  { intros a b c H1 H2. unfold compareKYCLevels in *.
    apply Z.leb_le in H1, H2. apply Z.leb_le. lia. }
  split.
  { intros a b. unfold compareKYCLevels.
    destruct (Z.le_ge_cases (tier_index a) (tier_index b)) as [H|H];
      [right | left]; apply Z.leb_le; exact H. }
  unfold verifyKYCForTransaction. rewrite Hu. eexists. split; [reflexivity|].
  cbn [allowed].
  assert (L : forall c, Qle_bool c amount = false <-> (amount < c)%Q).
  { intro c. rewrite <- Qltb_lt. unfold Qltb. destruct (Qle_bool c amount); simpl;
      split; congruence. }
  split.
  - intro Hv. rewrite Hv. cbn [User.KycStatus_eqb].
    destruct (Qle_bool 10000 amount) eqn:E1.
    + split; [discriminate|]. intro H. apply L in H. congruence.
    + apply L in E1. split; [intros _; exact E1|]. intros _.
      destruct (Qle_bool 1000 amount); [reflexivity|].
      destruct (Qle_bool 100 amount); reflexivity.
  - intro Hv.
    assert (Ek : User.KycStatus_eqb (User.kyc_status u) User.verified = false).
    { destruct (User.kyc_status u); try reflexivity. contradiction Hv; reflexivity. }
    rewrite Ek.
    destruct (Qle_bool 10000 amount) eqn:E1.
    + apply Qle_bool_iff in E1. split; [discriminate | intro; lra].
    + destruct (Qle_bool 1000 amount) eqn:E2.
      * apply Qle_bool_iff in E2. split; [discriminate | intro; lra].
      * destruct (Qle_bool 100 amount) eqn:E3.
        -- apply Qle_bool_iff in E3. split; [discriminate | intro; lra].
        -- apply L in E3. split; [intros _; exact E3 | reflexivity].
Qed.

Lemma kyc_tiers_gate_amounts_sample :
  exists k,
    verifyKYCForTransaction 1%nat 2000 Sample.funded = inr k
    /\ allowed k = true.
Proof.
  destruct (kyc_tiers_gate_amounts 1%nat 2000 Sample.funded Sample.alice eq_refl)
    as (_ & _ & _ & k & H1 & H2 & _).
  exists k. split; [exact H1|]. apply (H2 eq_refl). reflexivity.
Defined.

(** The fee quote never contains a negative fee for a non-negative amount
    and its total is platform fee plus payment fee. A deposit costs at
    least 0.30. A withdrawal by crypto or PayPal never costs more than the
    amount, but a bank transfer costs more than the amount exactly when the
    amount is below 250/49 (about 5.10). *)
Theorem fee_quote_bounds :
  forall (amount : Q) (ty : PaymentOps.QuoteType) (method : option Transaction.Method),
    (0 <= amount)%Q ->
    let q := PaymentOps.calculateFees amount ty method in
    (0 <= PaymentOps.q_platform q)%Q /\ (0 <= PaymentOps.q_payment q)%Q
    /\ PaymentOps.q_total q = (PaymentOps.q_platform q + PaymentOps.q_payment q)%Q
    /\ (ty = PaymentOps.quote_deposit -> (30 # 100 <= PaymentOps.q_total q)%Q)
    /\ (ty = PaymentOps.quote_withdrawal ->
        (method = Some Transaction.crypto \/ method = Some Transaction.paypal ->
         (PaymentOps.q_total q <= amount)%Q)
        /\ (method = Some Transaction.bank_transfer ->
            ((amount < PaymentOps.q_total q)%Q <-> (amount < 250 # 49)%Q))).
Proof.
  intros amount ty method H0 q. unfold q, PaymentOps.calculateFees.
  cbn [PaymentOps.q_platform PaymentOps.q_payment PaymentOps.q_total].
  split.
  { destruct ty; lra. }
  split.
  { destruct ty; [destruct method as [[| | | |]|]; lra | | lra].
    eapply Qle_trans; [|apply Q.le_max_l]. lra. }
  split; [reflexivity|]. split.
  { intros ->. pose proof (Q.le_max_l (30 # 100) (amount * (29 # 1000))). lra. }
  intros ->. split.
  - intros [-> | ->]; lra.
  - intros ->. split; intro H; lra.
Qed.

Lemma fee_quote_bounds_sample :
  (5 < PaymentOps.q_total
         (PaymentOps.calculateFees 5 PaymentOps.quote_withdrawal
            (Some Transaction.bank_transfer)))%Q.
Proof.
  assert (H0 : (0 <= 5)%Q) by (vm_compute; discriminate).
  destruct (fee_quote_bounds 5 PaymentOps.quote_withdrawal
              (Some Transaction.bank_transfer) H0) as (_ & _ & _ & _ & H).
  destruct (H eq_refl) as (_ & H2). apply (H2 eq_refl). reflexivity.
Defined.

End Quotes.

(** ** Playing a game *)

Section Playing.

Import GamePlay.

Lemma floorQ_le (a b : Q) : (a <= b)%Q -> (Game.floorQ a <= Game.floorQ b)%Q.
Proof.
  intro H. unfold Game.floorQ. rewrite <- Zle_Qle. apply Qfloor_resp_le. exact H.
Qed.

Lemma combo_multiplier_range (combo : Z) :
  0 <= combo ->
  (1 <= Qmin (1 + inject_Z combo * (1 # 10)) 3 <= 3)%Q.
Proof.
  intro H.
  assert (Hc : (0 <= inject_Z combo)%Q)
    by (change 0%Q with (inject_Z 0); rewrite <- Zle_Qle; exact H).
  split.
  - apply Q.min_glb; lra.
  - apply Q.le_min_r.
Qed.

Lemma combo_multiplier_mono (c1 c2 : Z) :
  c1 <= c2 ->
  (Qmin (1 + inject_Z c1 * (1 # 10)) 3 <= Qmin (1 + inject_Z c2 * (1 # 10)) 3)%Q.
Proof.
  intro H.
  assert (Hc : (inject_Z c1 <= inject_Z c2)%Q) by (rewrite <- Zle_Qle; exact H).
  apply Q.min_le_compat_r. lra.
Qed.

Lemma combo_multiplier_cap (combo : Z) :
  20 <= combo -> (Qmin (1 + inject_Z combo * (1 # 10)) 3 == 3)%Q.
Proof.
  intro H.
  assert (Hc : (inject_Z 20 <= inject_Z combo)%Q) by (rewrite <- Zle_Qle; exact H).
  apply Q.min_r. change (inject_Z 20) with 20%Q in Hc. lra.
Qed.

(** The points of a keystroke: a miss scores nothing; the combo multiplier
    grows with the combo and is capped at 3, which is reached at a combo of
    20; a perfect hit never scores less than a good one, and no keystroke
    scores more than 300 times the multiplier of the session. *)
Theorem keystroke_points_bounds :
  forall (g : Game.t) (accuracy : Accuracy) (c1 c2 : Z),
    (0 <= Game.multiplier (Game.scoring g))%Q ->
    0 <= c1 -> c1 <= c2 ->
    calculateKeystrokePoints miss c1 g = 0%Q
    /\ (0 <= calculateKeystrokePoints accuracy c1 g)%Q
    /\ (calculateKeystrokePoints accuracy c1 g
        <= calculateKeystrokePoints accuracy c2 g)%Q
    /\ (20 <= c1 ->
        calculateKeystrokePoints accuracy c2 g = calculateKeystrokePoints accuracy c1 g)
    /\ (calculateKeystrokePoints good c1 g <= calculateKeystrokePoints perfect c1 g)%Q
    /\ (calculateKeystrokePoints accuracy c1 g
        <= 300 * Game.multiplier (Game.scoring g))%Q.
Proof.
  intros g accuracy c1 c2 Hm H1 H12.
  set (m := Game.multiplier (Game.scoring g)) in *.
  pose proof (combo_multiplier_range c1 H1) as [R1 R2].
  pose proof (combo_multiplier_mono c1 c2 H12) as Mo.
  set (k1 := Qmin (1 + inject_Z c1 * (1 # 10)) 3) in *.
  set (k2 := Qmin (1 + inject_Z c2 * (1 # 10)) 3) in *.
  assert (Hk : (0 <= k1 * m)%Q) by nra.
  unfold calculateKeystrokePoints. fold m k1 k2.
  split.
  { transitivity (Game.floorQ 0); [apply floorQ_comp; ring | reflexivity]. }
  split.
  { apply (Qle_trans _ (Game.floorQ 0)); [discriminate|].
    apply floorQ_le. destruct accuracy; nra. }
  split.
  { apply floorQ_le. destruct accuracy; nra. }
  split.
  { intro H20. apply floorQ_comp.
    assert (E1 : (k1 == 3)%Q) by (apply combo_multiplier_cap; exact H20).
    assert (E2 : (k2 == 3)%Q) by (apply combo_multiplier_cap; lia).
    rewrite E1, E2. reflexivity. }
  split.
  { apply floorQ_le. nra. }
  eapply Qle_trans; [apply (Qfloor_le)|]. destruct accuracy; nra.
Qed.

Lemma keystroke_points_bounds_sample :
  calculateKeystrokePoints perfect 35 Sample.played
  = calculateKeystrokePoints perfect 20 Sample.played
  /\ (calculateKeystrokePoints perfect 20 Sample.played <= 300 * 1)%Q.
Proof.
  assert (Hm : (0 <= Game.multiplier (Game.scoring Sample.played))%Q)
    by (vm_compute; discriminate).
  assert (H1 : 0 <= 20) by lia.
  assert (H2 : 20 <= 35) by lia.
  destruct (keystroke_points_bounds Sample.played perfect 20 35 Hm H1 H2)
    as (_ & _ & _ & H4 & _ & H6).
  split; [apply H4; lia | exact H6].
Defined.

Lemma save_gameplay e g :
  Game.totalNotes (Game.gameplay (Game.save e g)) = Game.totalNotes (Game.gameplay g)
  /\ Game.correctNotes (Game.gameplay (Game.save e g)) = Game.correctNotes (Game.gameplay g)
  /\ Game.missedNotes (Game.gameplay (Game.save e g)) = Game.missedNotes (Game.gameplay g)
  /\ Game.maxCombo (Game.gameplay (Game.save e g)) = Game.maxCombo (Game.gameplay g)
  /\ Game.currentCombo (Game.gameplay (Game.save e g)) = Game.currentCombo (Game.gameplay g)
  /\ Game.accuracy (Game.gameplay (Game.save e g))
     = (if 0 <? Game.totalNotes (Game.gameplay g)
        then (inject_Z (Game.correctNotes (Game.gameplay g))
              / inject_Z (Game.totalNotes (Game.gameplay g)) * 100)%Q
        else Game.accuracy (Game.gameplay g)).
Proof. unfold Game.save, Game.preSave. cbn. repeat split. Qed.

(** Every accepted keystroke keeps the counters of the game in step: total
    notes = correct + missed, correct = perfect + good, one list entry per
    note, and 0 <= current combo <= max combo. It adds exactly one note, a
    miss resets the combo, and the stored accuracy is correct / total x 100
    afterwards. A game without a start time refuses the keystroke. *)
Theorem addKeystroke_keeps_the_counters :
  forall (e : Env) (key : string) (accuracy : Accuracy) (rt : option Q)
         (g : Game.t) (tl : Tally),
    tally_consistent g tl ->
    (Game.startTime g = None ->
     addKeystroke e key accuracy rt (g, tl)
     = inl "Cannot read properties of undefined (reading 'getTime')")
    /\ (Game.startTime g <> None ->
        exists g' tl',
          addKeystroke e key accuracy rt (g, tl) = inr (g', tl')
          /\ tally_consistent g' tl'
          /\ Game.totalNotes (Game.gameplay g') = Game.totalNotes (Game.gameplay g) + 1
          /\ (accuracy = miss -> Game.currentCombo (Game.gameplay g') = 0)
          /\ Game.accuracy (Game.gameplay g')
             = (inject_Z (Game.correctNotes (Game.gameplay g'))
                / inject_Z (Game.totalNotes (Game.gameplay g')) * 100)%Q).
Proof.
  intros e key accuracy rt g tl (I1 & I2 & I3 & I4 & I5 & I6 & I7 & I8).
  split.
  - intro H. unfold addKeystroke. rewrite H. reflexivity.
  - intro H. destruct (Game.startTime g) as [start|] eqn:Hs; [clear H | contradiction H; reflexivity].
    unfold addKeystroke. rewrite Hs.
    eexists _, _. split; [reflexivity|].
    match goal with |- context [Game.save e ?x] =>
      destruct (save_gameplay e x) as (S1 & S2 & S3 & S4 & S5 & S6) end.
    unfold tally_consistent. cbv zeta. rewrite S1, S2, S3, S4, S5, S6.
    cbn [updateBonusScores set_scoring set_gameplay Game.gameplay count_keystroke
         count_hit perfectHits goodHits keystrokes].
    rewrite length_app, Nat2Z.inj_add. cbn [length].
    assert (P : (0 <? Game.totalNotes (count_keystroke accuracy (Game.gameplay g))) = true).
    { apply Z.ltb_lt. destruct accuracy; cbn [count_keystroke Game.totalNotes]; lia. }
    rewrite P.
    destruct accuracy;
      cbn [count_keystroke Game.totalNotes Game.correctNotes Game.missedNotes
           Game.maxCombo Game.currentCombo];
      repeat split; try lia; try reflexivity; try discriminate.
Qed.

Lemma addKeystroke_keeps_the_counters_sample :
  exists g' tl',
    addKeystroke Sample.env0 "C4" perfect (Some 120%Q)
      (Sample.played,
       mkTally 60 36
         (repeat (mkKeystroke "C4" 0 perfect None 100) 100))
    = inr (g', tl')
    /\ tally_consistent g' tl'
    /\ Game.totalNotes (Game.gameplay g') = 101.
Proof.
  assert (I : tally_consistent Sample.played
                (mkTally 60 36 (repeat (mkKeystroke "C4" 0 perfect None 100) 100))).
  { unfold tally_consistent. cbv zeta.
    repeat split; first [vm_compute; reflexivity | vm_compute; discriminate]. }
  destruct (proj2 (addKeystroke_keeps_the_counters Sample.env0 "C4" perfect
                     (Some 120%Q) Sample.played _ I))
    as (g' & tl' & H1 & H2 & H3 & _).
  - discriminate.
  - exists g', tl'. split; [exact H1|]. split; [exact H2 | exact H3].
Defined.

End Playing.

(** ** Ending a session *)

Section Ending.

Lemma has_achievement_In ty g :
  Game.has_achievement ty g = true <-> In ty (achievement_types g).
Proof.
  unfold Game.has_achievement, achievement_types. rewrite existsb_exists, in_map_iff.
  split.
  - intros (a & Ha & Heq). exists a. split; [|exact Ha].
    destruct (Game.a_type a), ty; simpl in Heq; congruence.
  - intros (a & Heq & Ha). exists a. split; [exact Ha|]. rewrite Heq.
    destruct ty; reflexivity.
Qed.

Lemma NoDup_snoc {A} (l : list A) (a : A) :
  List.NoDup l -> ~ In a l -> List.NoDup (l ++ [a]).
Proof.
  induction l as [|b l IH]; intros Hn Hin; simpl.
  - constructor; [intros [] | constructor].
  - inversion Hn as [|? ? Hb Hl]; subst. constructor.
    + intro Hb'. apply in_app_or in Hb'. destruct Hb' as [Hb'|[->|[]]].
      * exact (Hb Hb').
      * apply Hin. left. reflexivity.
    + apply IH; [exact Hl|]. intro H. apply Hin. right. exact H.
Qed.

Lemma unlock_if_types c e ty d x y g :
  List.NoDup (achievement_types g) ->
  List.NoDup (achievement_types (Game.unlock_if c e ty d x y g))
  /\ exists l, Game.achievements (Game.unlock_if c e ty d x y g)
               = Game.achievements g ++ l.
Proof.
  intro H. unfold Game.unlock_if.
  destruct (c && negb (Game.has_achievement ty g)) eqn:E.
  - apply andb_true_iff in E. destruct E as [_ E]. apply negb_true_iff in E.
    split; [|eexists; reflexivity].
    unfold achievement_types, Game.push_achievement. cbn [Game.achievements].
    rewrite List.map_app. cbn [map Game.a_type].
    apply NoDup_snoc; [exact H|].
    intro Hin. apply has_achievement_In in Hin. congruence.
  - split; [exact H|]. exists []. rewrite app_nil_r. reflexivity.
Qed.

Lemma checkAchievements_types e g :
  List.NoDup (achievement_types g) ->
  List.NoDup (achievement_types (Game.checkAchievements e g))
  /\ exists l, Game.achievements (Game.checkAchievements e g)
               = Game.achievements g ++ l.
Proof.
  intro H0. unfold Game.checkAchievements.
  set (g1 := Game.unlock_if _ e Game.first_game _ 50 100 g).
  set (g2 := Game.unlock_if _ e Game.perfect_combo _ 200 300 g1).
  set (g3 := Game.unlock_if _ e Game.accuracy_master _ 150 250 g2).
  set (g4 := Game.unlock_if _ e Game.speed_demon _ 100 200 g3).
  destruct (unlock_if_types (0 <? Game.totalNotes (Game.gameplay g)) e Game.first_game
              "Completed your first game!" 50 100 g H0) as (N1 & l1 & E1).
  fold g1 in N1, E1.
  destruct (unlock_if_types (100 <=? Game.maxCombo (Game.gameplay g1)) e
              Game.perfect_combo "Achieved a combo of 100+!" 200 300 g1 N1)
    as (N2 & l2 & E2).
  fold g2 in N2, E2.
  destruct (unlock_if_types (Qle_bool 98 (Game.accuracy (Game.gameplay g2))) e
              Game.accuracy_master "Achieved 98%+ accuracy!" 150 250 g2 N2)
    as (N3 & l3 & E3).
  fold g3 in N3, E3.
  destruct (unlock_if_types (Qle_bool 6 (Game.notesPerSecond g3)) e
              Game.speed_demon "Played at lightning speed!" 100 200 g3 N3)
    as (N4 & l4 & E4).
  fold g4 in N4, E4.
  destruct (unlock_if_types (300 <=? Game.duration g4) e Game.endurance_player
              "Played for 5+ minutes straight!" 75 150 g4 N4) as (N5 & l5 & E5).
  split; [exact N5|].
  exists (l1 ++ l2 ++ l3 ++ l4 ++ l5).
  rewrite E5, E4, E3, E2, E1. rewrite <- !app_assoc. reflexivity.
Qed.

(** completeGame closes the session: the status becomes completed and the
    end time is the time of the call, with the duration counted in whole
    seconds from the start. No achievement is taken away, none is awarded a
    second time, and a session in which a note was played carries
    first_game afterwards. *)
Theorem completeGame_closes_the_session :
  forall (e : Env) (g : Game.t),
    List.NoDup (achievement_types g) ->
    let g' := Game.completeGame e g in
    Game.status g' = Game.completed
    /\ Game.endTime g' = Some (Date_now e)
    /\ (forall start, Game.startTime g = Some start ->
          Game.duration g' = (Date_now e - start) / 1000)
    /\ List.NoDup (achievement_types g')
    /\ (exists l, Game.achievements g' = Game.achievements g ++ l)
    /\ (0 < Game.totalNotes (Game.gameplay g) -> In Game.first_game (achievement_types g')).
Proof.
  intros e g H0 g'. unfold g'.
  destruct (checkAchievements_types e
              (Game.set_session Game.completed (Some (Date_now e)) g) H0)
    as (N & l & E).
  assert (F : forall x, Game.status (Game.checkAchievements e x) = Game.status x
                        /\ Game.endTime (Game.checkAchievements e x) = Game.endTime x
                        /\ Game.startTime (Game.checkAchievements e x) = Game.startTime x).
  { intro x. unfold Game.checkAchievements, Game.unlock_if.
    repeat match goal with
    | |- context [if ?b then Game.push_achievement ?a ?y else ?y] =>
        destruct b; cbn [Game.push_achievement Game.status Game.endTime Game.startTime]
    end; repeat split. }
  destruct (F (Game.set_session Game.completed (Some (Date_now e)) g)) as (F1 & F2 & F3).
  unfold Game.completeGame, Game.save, Game.preSave.
  cbn [Game.status Game.endTime Game.duration Game.startTime].
  rewrite F1, F2, F3. cbn [Game.set_session Game.status Game.endTime Game.startTime].
  split; [reflexivity|]. split; [reflexivity|].
  split; [intros start ->; reflexivity|].
  unfold achievement_types in *. cbn [Game.achievements].
  split; [exact N|]. split; [exists l; exact E|].
  intro Hn. apply has_achievement_In.
  pose proof (completeGame_unlocks_first_game e g Hn) as Hf.
  unfold Game.completeGame, Game.save, Game.preSave, Game.has_achievement in Hf.
  cbn [Game.achievements] in Hf. exact Hf.
Qed.

Lemma completeGame_closes_the_session_sample :
  Game.status Sample.finished = Game.completed
  /\ Game.duration Sample.finished = 120
  /\ In Game.first_game (achievement_types Sample.finished).
Proof.
  assert (N : List.NoDup (achievement_types Sample.played)) by apply List.NoDup_nil.
  pose proof (completeGame_closes_the_session Sample.env0 Sample.played N) as H.
  cbv zeta in H. destruct H as (H1 & _ & H3 & _ & _ & H6).
  split; [exact H1|]. split; [exact (H3 _ eq_refl)|].
  apply H6. reflexivity.
Defined.

(** Saving a game is idempotent: a second save, at any later time and
    under any configuration, leaves the saved document as it is. *)
Theorem game_save_is_idempotent :
  forall (e e' : Env) (g : Game.t),
    Game.save e' (Game.save e g) = Game.save e g.
Proof.
  intros e e' g. unfold Game.save, Game.preSave.
  cbn [Game.gameplay Game.scoring Game.rewards Game.totalNotes Game.correctNotes
       Game.missedNotes Game.accuracy Game.maxCombo Game.currentCombo Game.baseScore
       Game.comboBonus Game.accuracyBonus Game.speedBonus Game.totalScore
       Game.multiplier Game._id Game.userId Game.sessionId Game.startTime
       Game.endTime Game.duration Game.status Game.achievements].
  set (total := (Game.baseScore (Game.scoring g) + Game.comboBonus (Game.scoring g)
                 + Game.accuracyBonus (Game.scoring g)
                 + Game.speedBonus (Game.scoring g))%Q).
  assert (Q : Qeq_bool
                (if negb (Qeq_bool (Game.totalScore (Game.scoring g)) total)
                 then total else Game.totalScore (Game.scoring g)) total = true).
  { destruct (Qeq_bool (Game.totalScore (Game.scoring g)) total) eqn:E; cbn [negb].
    - exact E.
    - apply Qeq_bool_iff. reflexivity. }
  rewrite Q. cbn [negb].
  assert (D : match Game.endTime g, Game.startTime g with
              | Some en, Some st => (en - st) / 1000
              | _, _ =>
                  match Game.endTime g, Game.startTime g with
                  | Some en, Some st => (en - st) / 1000
                  | _, _ => Game.duration g
                  end
              end
              = match Game.endTime g, Game.startTime g with
                | Some en, Some st => (en - st) / 1000
                | _, _ => Game.duration g
                end).
  { destruct (Game.endTime g), (Game.startTime g); reflexivity. }
  rewrite D.
  destruct (0 <? Game.totalNotes (Game.gameplay g)); reflexivity.
Qed.

End Ending.

(** ** Sessions in the game service *)

Section Sessions.

Import GameServiceOps.

Lemma set_session_save_status e st en g :
  Game.status (Game.save e (Game.set_session st en g)) = st
  /\ Game.sessionId (Game.save e (Game.set_session st en g)) = Game.sessionId g
  /\ Game.userId (Game.save e (Game.set_session st en g)) = Game.userId g
  /\ Game.endTime (Game.save e (Game.set_session st en g)) = en.
Proof. repeat split. Qed.

(** Sessions change state only along the edges the service allows: pause
    needs an active session, resume a paused one, and a refused call changes
    nothing; abandon applies to any session, also to a completed one. Once a
    completed session was abandoned its reward can no longer be claimed. *)
Theorem session_transitions :
  forall (e : Env) (sessionId : string) (s : Store) (i : nat) (g : Game.t),
    findOne (by_sessionId sessionId) (games s) = Some (i, g) ->
    (Game.status g <> Game.active -> fst (pauseGame e sessionId s) <> None
                                     /\ snd (pauseGame e sessionId s) = s)
    /\ (Game.status g = Game.active ->
        exists g', fst (pauseGame e sessionId s) = None
                   /\ games (snd (pauseGame e sessionId s)) !! i = Some g'
                   /\ Game.status g' = Game.paused)
    /\ (Game.status g <> Game.paused -> fst (resumeGame e sessionId s) <> None
                                        /\ snd (resumeGame e sessionId s) = s)
    /\ (Game.status g = Game.paused ->
        exists g', fst (resumeGame e sessionId s) = None
                   /\ games (snd (resumeGame e sessionId s)) !! i = Some g'
                   /\ Game.status g' = Game.active)
    /\ (exists g', fst (abandonGame e sessionId s) = None
                   /\ games (snd (abandonGame e sessionId s)) !! i = Some g'
                   /\ Game.status g' = Game.abandoned
                   /\ Game.endTime g' = Some (Date_now e))
    /\ ((forall j y, games s !! j = Some y ->
                     Game.sessionId y = sessionId -> j = i) ->
        forall e2 uid,
          GameService.claimRewards e2 sessionId uid (snd (abandonGame e sessionId s))
          = (inl (GameService.failed_to_claim "Game session not found or not completed"),
             snd (abandonGame e sessionId s))).
Proof.
  intros e sid s i g Hf.
  destruct (findOne_Some _ _ _ _ Hf) as (Hl & Hq).
  assert (Hlt : (i < length (games s))%nat) by (apply lookup_lt_Some in Hl; exact Hl).
  split.
  { intro H. unfold pauseGame. rewrite Hf.
    destruct (Game.status g); try (split; [discriminate | reflexivity]).
    contradiction H; reflexivity. }
  split.
  { intro H. unfold pauseGame. rewrite Hf, H. cbn [Game.SessionStatus_eqb fst snd games set_games].
    eexists. split; [reflexivity|].
    split; [apply list_lookup_insert_eq; exact Hlt | reflexivity]. }
  split.
  { intro H. unfold resumeGame. rewrite Hf.
    destruct (Game.status g); try (split; [discriminate | reflexivity]).
    contradiction H; reflexivity. }
  split.
  { intro H. unfold resumeGame. rewrite Hf, H. cbn [Game.SessionStatus_eqb fst snd games set_games].
    eexists. split; [reflexivity|].
    split; [apply list_lookup_insert_eq; exact Hlt | reflexivity]. }
  split.
  { unfold abandonGame. rewrite Hf. cbn [fst snd games set_games].
    eexists. split; [reflexivity|].
    split; [apply list_lookup_insert_eq; exact Hlt | split; reflexivity]. }
  intros Huniq e2 uid. unfold abandonGame. rewrite Hf. cbn [snd].
  unfold GameService.claimRewards. cbn [games set_games].
  replace (findOne (GameService.claim_query sid uid)
             (<[i := GamePlay.abandonGame e g]> (games s))) with (@None (nat * Game.t));
    [reflexivity|].
  symmetry. unfold findOne. apply findOne_from_None.
  intros y Hin. apply list_elem_of_In in Hin.
  apply list_elem_of_lookup in Hin. destruct Hin as (j & Hj).
  unfold GameService.claim_query.
  destruct (decide (j = i)) as [->|Hne].
  - rewrite list_lookup_insert_eq in Hj by exact Hlt. injection Hj as <-.
    unfold GamePlay.abandonGame. cbn. rewrite !andb_false_r. reflexivity.
  - rewrite list_lookup_insert_ne in Hj by (intro E; apply Hne; symmetry; exact E).
    destruct (String.eqb (Game.sessionId y) sid) eqn:Es; [|reflexivity].
    apply String.eqb_eq in Es. exfalso. apply Hne. exact (Huniq j y Hj Es).
Qed.

Lemma session_transitions_sample :
  (exists g', fst (abandonGame Sample.env1 "session-1" SampleSessions.ended) = None
              /\ games (snd (abandonGame Sample.env1 "session-1" SampleSessions.ended))
                   !! 0%nat = Some g'
              /\ Game.status g' = Game.abandoned
              /\ Game.endTime g' = Some (Date_now Sample.env1))
  /\ GameService.claimRewards SampleMore.env2 "session-1" 1%nat
       (snd (abandonGame Sample.env1 "session-1" SampleSessions.ended))
     = (inl (GameService.failed_to_claim "Game session not found or not completed"),
        snd (abandonGame Sample.env1 "session-1" SampleSessions.ended)).
Proof.
  assert (Hf : findOne (by_sessionId "session-1") (games SampleSessions.ended)
               = Some (0%nat, Sample.finished)) by reflexivity.
  destruct (session_transitions Sample.env1 "session-1" SampleSessions.ended 0%nat
              Sample.finished Hf) as (_ & _ & _ & _ & H5 & H6).
  split; [exact H5|]. apply H6.
  intros j y Hj _. destruct j as [|j]; [reflexivity|]. discriminate Hj.
Defined.

Lemma lookup_map_Some {A B} (f : A -> B) (l : list A) (i : nat) (x : A) :
  l !! i = Some x -> map f l !! i = Some (f x).
Proof.
  revert i. induction l as [|a l IH]; intros i H; [discriminate H|].
  destruct i as [|i]; simpl in *.
  - injection H as ->. reflexivity.
  - apply IH. exact H.
Qed.

Lemma expired_after_cleanup e g :
  expired e (if expired e g
             then Game.set_session Game.abandoned (Some (Date_now e)) g else g)
  = false.
Proof. destruct (expired e g) eqn:E; [reflexivity | exact E]. Qed.

(** The sweep of expired sessions abandons exactly the active sessions that
    were started more than 30 minutes ago, stamping the end time, and reports
    how many it changed. Every other session, a completed one in particular,
    is left as it is, and afterwards no expired session remains. *)
Theorem cleanupExpiredSessions_sweeps_exactly_the_expired :
  forall (e : Env) (s : Store),
    let s' := snd (cleanupExpiredSessions e s) in
    length (games s') = length (games s)
    /\ fst (cleanupExpiredSessions e s) = length (List.filter (expired e) (games s))
    /\ (forall i g, games s !! i = Some g ->
          (expired e g = false -> games s' !! i = Some g)
          /\ (expired e g = true ->
              exists g', games s' !! i = Some g'
                         /\ Game.status g' = Game.abandoned
                         /\ Game.endTime g' = Some (Date_now e)
                         /\ Game.rewards g' = Game.rewards g
                         /\ Game.scoring g' = Game.scoring g))
    /\ (forall g', In g' (games s') -> expired e g' = false)
    /\ users s' = users s /\ transactions s' = transactions s.
Proof.
  intros e s s'. unfold s', cleanupExpiredSessions. cbn [fst snd games set_games users transactions].
  split; [apply length_map|]. split; [reflexivity|].
  split.
  - intros i g Hi. rewrite (lookup_map_Some _ _ _ _ Hi).
    split.
    + intro H. rewrite H. reflexivity.
    + intro H. rewrite H. eexists. split; [reflexivity|]. repeat split.
  - split; [|split; reflexivity].
    intros g' Hin. apply in_map_iff in Hin. destruct Hin as (g & <- & _).
    apply expired_after_cleanup.
Qed.

End Sessions.

Section SessionSamples.

Import GameServiceOps.

Lemma cleanupExpiredSessions_sample :
  exists g',
    games (snd (cleanupExpiredSessions SampleSessions.late SampleSessions.playing))
      !! 0%nat = Some g'
    /\ Game.status g' = Game.abandoned
    /\ Game.endTime g' = Some (Date_now SampleSessions.late)
    /\ Game.rewards g' = Game.rewards Sample.played
    /\ Game.scoring g' = Game.scoring Sample.played.
Proof.
  pose proof (cleanupExpiredSessions_sweeps_exactly_the_expired SampleSessions.late
                SampleSessions.playing) as H.
  cbv zeta in H. destruct H as (_ & _ & H & _).
  destruct (H 0%nat Sample.played eq_refl) as (_ & H2).
  apply H2. vm_compute. reflexivity.
Defined.

End SessionSamples.

(** ** GET /balance *)

Section BalanceReading.

Import BalanceRoute.




End BalanceReading.

(** ** Withdrawals that are refused *)

Section Withdrawals.

Import PaymentService.

(** A withdrawal that is refused for the user or for the balance leaves no
    trace: an unknown user, a user who may not withdraw the amount (KYC not
    verified, wallet below the amount, or amount below the minimum), or a
    ledger balance below the amount make processWithdrawal fail with its own
    message before anything is written. *)
Theorem processWithdrawal_refusals :
  forall (e : Env) (rail : Rail) (uid : UserId) (a : Q)
         (m : Transaction.Method) (info : Transaction.AccountInfo) (s : Store),
    (users s !! uid = None ->
     processWithdrawal e rail uid a m info s
     = (inl (withdrawal_failed "User not found"), s))
    /\ (forall u, users s !! uid = Some u ->
          User.canWithdraw e a u = false ->
          processWithdrawal e rail uid a m info s
          = (inl (withdrawal_failed
                    "Withdrawal not allowed. Check KYC status and minimum amount."), s))
    /\ (forall u, users s !! uid = Some u ->
          User.kyc_status u <> User.verified
          \/ (User.coins_available u < a)%Q
          \/ (a < parseFloat_or (MIN_WITHDRAWAL (env e)) 10)%Q ->
          processWithdrawal e rail uid a m info s
          = (inl (withdrawal_failed
                    "Withdrawal not allowed. Check KYC status and minimum amount."), s))
    /\ (forall u, users s !! uid = Some u ->
          User.canWithdraw e a u = true ->
          (Transaction.getUserBalance uid (transactions s) < a)%Q ->
          processWithdrawal e rail uid a m info s
          = (inl (withdrawal_failed "Insufficient balance"), s)).
Proof.
  intros e rail uid a m info s.
  split; [intro H; unfold processWithdrawal; rewrite H; reflexivity|].
  assert (R : forall u, users s !! uid = Some u ->
                User.canWithdraw e a u = false ->
                processWithdrawal e rail uid a m info s
                = (inl (withdrawal_failed
                          "Withdrawal not allowed. Check KYC status and minimum amount."),
                   s)).
  { intros u Hu Hc. unfold processWithdrawal. rewrite Hu, Hc. reflexivity. }
  split; [exact R|].
  split.
  { intros u Hu H. apply (R u Hu). unfold User.canWithdraw.
    destruct H as [H | [H | H]].
    - destruct (User.kyc_status u); try reflexivity. contradiction H; reflexivity.
    - apply Qltb_lt in H. unfold Qltb in H. apply negb_true_iff in H.
      rewrite H, andb_false_r. reflexivity.
    - apply Qltb_lt in H. unfold Qltb in H. apply negb_true_iff in H.
      rewrite H, andb_false_r. reflexivity. }
  intros u Hu Hc Hb. unfold processWithdrawal. rewrite Hu, Hc.
  apply Qltb_lt in Hb. rewrite Hb. reflexivity.
Qed.

Lemma processWithdrawal_refusals_sample :
  processWithdrawal Sample.env0 Sample.accepting 1%nat 6000 Transaction.bank_transfer
    Sample.acct Sample.funded
  = (inl (withdrawal_failed
            "Withdrawal not allowed. Check KYC status and minimum amount."),
     Sample.funded)
  /\ processWithdrawal Sample.env0 Sample.accepting 1%nat 1000
       Transaction.bank_transfer Sample.acct (Sample.store_of [] [])
     = (inl (withdrawal_failed "Insufficient balance"), Sample.store_of [] []).
Proof.
  split.
  - apply (proj1 (proj2 (processWithdrawal_refusals Sample.env0 Sample.accepting
                           1%nat 6000 Transaction.bank_transfer Sample.acct
                           Sample.funded)) Sample.alice);
      reflexivity.
  - apply (proj2 (proj2 (proj2 (processWithdrawal_refusals Sample.env0
                                  Sample.accepting 1%nat 1000
                                  Transaction.bank_transfer Sample.acct
                                  (Sample.store_of [] [])))) Sample.alice);
      vm_compute; reflexivity.
Defined.

End Withdrawals.

(** ** The status history only grows: a failed approval *)

Lemma statusHistory_append_only_sample :
  exists l,
    Transaction.statusHistory
      (Transaction.audit
         (Transaction.markFailed Sample.env1 "declined" None
            (Transaction.updateStatus Sample.env1 Transaction.processing "approved"
               (Some 9%nat) Sample.w1000)))
    = Transaction.statusHistory
        (Transaction.audit
           (Transaction.updateStatus Sample.env1 Transaction.processing "approved"
              (Some 9%nat) Sample.w1000)) ++ l.
Proof.
  exact (proj1 (proj2 (proj2 (proj2 (proj2
           (statusHistory_append_only Sample.env1
              (Transaction.updateStatus Sample.env1 Transaction.processing "approved"
                 (Some 9%nat) Sample.w1000))))))
           "declined" None).
Defined.
